(** * Mini-me: Airtable/WooCommerce sync automation and the inventory
      scanner backend, embedded and verified.

    Two programs of the repository are embedded here:

    - [Sync]: [02-wordpress/06-Auto-Sync-Stock/airtable-automation-bidirectional.js],
      the Airtable automation script that forwards record changes to a
      webhook unless the change looks like an echo of a WooCommerce sync;
    - [Server]: the Express backend [server.js] contained in
      [04-4more-apps/complete-deployment-guide.md] (Airtable as database).

    JavaScript values are embedded by the inductive [JS.value]; the Airtable
    base is an explicit store threaded through a state-and-exception monad. *)

From Stdlib Require Import Strings.String Strings.Ascii Lists.List.
From Stdlib Require Import ZArith QArith Bool Lia.
From Stdlib Require Import Numbers.DecimalString.
From Stdlib Require Import Sorting.Permutation.
Import ListNotations.

Set Warnings "-register-all".

Local Close Scope Q_scope.
Local Open Scope string_scope.
Local Open Scope list_scope.

(* ================================================================== *)
(** * JavaScript values *)
(* ================================================================== *)

Module JS.

(** The fragment of JavaScript values the two programs manipulate.
    Numbers are the integers (record counts, millisecond timestamps) plus
    [VNaN]; objects are association lists in insertion order with unique
    keys, maintained by [obj_set]. *)
Inductive value : Type :=
| VUndefined
| VNull
| VBool (b : bool)
| VNum (n : Z)
| VNaN
| VStr (s : string)
| VArr (l : list value)
| VObj (o : list (string * value)).

Definition obj := list (string * value).

(** [o.k] / [o[k]]: a missing property reads as [undefined]. *)
Fixpoint obj_get (k : string) (o : obj) : value :=
  match o with
  | [] => VUndefined
  | (k', v) :: o' => if String.eqb k k' then v else obj_get k o'
  end.

(** [o.k = v]: overwrite in place, or append a new property. *)
Fixpoint obj_set (k : string) (v : value) (o : obj) : obj :=
  match o with
  | [] => [(k, v)]
  | (k', v') :: o' =>
      if String.eqb k k' then (k', v) :: o' else (k', v') :: obj_set k v o'
  end.

(** [{...a, ...b}]: the properties of [b] are assigned over those of [a]. *)
Definition spread (a b : obj) : obj :=
  fold_left (fun acc kv => obj_set (fst kv) (snd kv) acc) b a.

(** Property read [v.k] on a value that is not [undefined] or [null]
    (reading a property of those throws, see [Server.member]); only objects
    carry properties here. *)
Definition prop (v : value) (k : string) : value :=
  match v with
  | VObj o => obj_get k o
  | _ => VUndefined
  end.

(** ToBoolean. *)
Definition truthy (v : value) : bool :=
  match v with
  | VUndefined | VNull | VNaN => false
  | VBool b => b
  | VNum n => negb (n =? 0)%Z
  | VStr s => negb (String.eqb s "")
  | VArr _ | VObj _ => true
  end.

(** [a || b]. *)
Definition or_else (a b : value) : value := if truthy a then a else b.

Definition string_of_Z (n : Z) : string := NilZero.string_of_int (Z.to_int n).

(** ToString, as performed by template literals and by [+] on strings. *)
Fixpoint to_str (v : value) : string :=
  match v with
  | VUndefined => "undefined"
  | VNull => "null"
  | VBool true => "true"
  | VBool false => "false"
  | VNum n => string_of_Z n
  | VNaN => "NaN"
  | VStr s => s
  | VArr l =>
      String.concat ","
        (map (fun x => match x with
                       | VUndefined | VNull => ""
                       | _ => to_str x
                       end) l)
  | VObj _ => "[object Object]"
  end.

(** ToNumber on the primitives that reach arithmetic; [None] is NaN. *)
Definition to_number (v : value) : option Z :=
  match v with
  | VNull => Some 0%Z
  | VBool true => Some 1%Z
  | VBool false => Some 0%Z
  | VNum n => Some n
  | _ => None
  end.

(** [a + b]: string concatenation as soon as one operand is (or converts
    to) a string, numeric addition otherwise. *)
Definition add (a b : value) : value :=
  match a, b with
  | (VStr _ | VArr _ | VObj _), _ | _, (VStr _ | VArr _ | VObj _) =>
      VStr (to_str a ++ to_str b)
  | _, _ =>
      match to_number a, to_number b with
      | Some x, Some y => VNum (x + y)
      | _, _ => VNaN
      end
  end.

(** [v === 's'] against a string literal. *)
Definition strict_eq_str (v : value) (s : string) : bool :=
  match v with
  | VStr s' => String.eqb s' s
  | _ => false
  end.

End JS.

Import JS.

(* ================================================================== *)
(** * The Airtable automation script (two-way sync, loop prevention) *)
(* ================================================================== *)

Module Sync.

(** ** Configuration *)

Definition WEBHOOK_URL : string := "https://webhook.4more.ca/webhook/airtable".
Definition WEBHOOK_SECRET : string := "your_webhook_secret".
Definition SYNC_THRESHOLD_MINUTES : Q := 1.

(** ** The scripting API the script runs against *)

(** An Airtable record as the scripting API exposes it. *)
Record record : Type := {
  id : string;
  getCellValue : string -> value;
  getCellValueAsString : string -> string
}.

(** What the trigger knows about a change but does not hand to the script:
    the automation's input variables are [recordId] and [triggerType] only. *)
Inductive origin : Type := HumanEdit | WooCommerceEcho.

Record change : Type := {
  changed_record : record;
  changed_fields : list string;
  changed_by : origin
}.

Record request : Type := {
  url : string;
  method : string;
  headers : list (string * string);
  body : string
}.

(** How the remote endpoint answers a [fetch]. [response.json()] itself
    may reject (left of the sum is the parsed body, right the error). *)
Inductive fetch_outcome : Type :=
| ResponseOk (json : value + string)
| ResponseNotOk (text : string)
| FetchThrows (error : string).

(** Observable actions of one run, in program order. *)
Inductive effect : Type :=
| ConsoleLog (msg : string)
| ConsoleError (msg : string)
| OutputSet (key : string) (v : string)
| Fetch (r : request).

(** The world of one automation run. *)
Record env : Type := {
  inputConfig : obj;
  base_id : string;
  selectRecordAsync : value -> option record;
  now : Z;
  fetch : request -> fetch_outcome
}.

(** ** Dates and numbers *)

(** A JavaScript number that need not be an integer; [None] is NaN. The
    quotient of two integers is kept exact: the script only compares
    [(now - lastSyncTime) / (1000 * 60)] with the threshold 1, and for a
    difference of millisecond timestamps that comparison has the same
    answer on doubles as on rationals. *)
Definition number := option Q.

(** [a - b] on two dates: the difference of their time values. An invalid
    date has time value NaN. *)
Definition date_sub (a : Z) (b : option Z) : number :=
  match b with
  | Some t => Some (inject_Z (a - t))
  | None => None
  end.

Definition number_div (a : number) (b : Q) : number :=
  match a with
  | Some q => Some (q / b)%Q
  | None => None
  end.

(** [a < b]; every comparison with NaN is false. *)
Definition number_lt (a : number) (b : Q) : bool :=
  match a with
  | Some q => negb (Qle_bool b q)
  | None => false
  end.

(** TimeClip: a date holds a time value of at most 8.64e15 milliseconds
    either side of the epoch; beyond that it is an invalid date. *)
Definition MAX_TIME : Z := 8640000000000000.

Definition time_clip (t : Z) : option Z :=
  if (Z.abs t <=? MAX_TIME)%Z then Some t else None.

Section Script.

(** Library functions of the host, left abstract. *)
Variable JSON_stringify : value -> string.
Variable Date_parse : string -> option Z.
Variable toFixed : Q -> nat -> string.

(** The time value [new Date(v)] starts from, before it is clipped.
    Strings are parsed; numbers, booleans and [null] are taken as time
    values; anything else goes through ToString first. *)
Definition time_value (v : value) : option Z :=
  match v with
  | VStr s => Date_parse s
  | VUndefined | VNaN => None
  | VArr _ | VObj _ => Date_parse (to_str v)
  | _ => to_number v
  end.

(** [new Date(v)]: the time value in milliseconds, [None] for an invalid
    date. *)
Definition new_Date (v : value) : option Z :=
  match time_value v with
  | Some t => time_clip t
  | None => None
  end.

Definition minutesSinceSync_of (now_ms : Z) (lastWooSync : value) : number :=
  number_div (date_sub now_ms (new_Date lastWooSync)) (inject_Z (1000 * 60)).

Definition skip_message (m : number) : string :=
  "Skipping - synced from WooCommerce "
  ++ match m with Some q => toFixed q 2 | None => "NaN" end
  ++ " minutes ago".

(** [shouldSync(record)], with the lines it writes to the console. *)
Definition shouldSync (triggerType : value) (now_ms : Z) (r : record)
  : list effect * bool :=
  if strict_eq_str triggerType "create" then ([], true)
  else
    let lastWooSync := getCellValue r "Last WooCommerce Sync" in
    if truthy lastWooSync then
      let minutesSinceSync := minutesSinceSync_of now_ms lastWooSync in
      if number_lt minutesSinceSync SYNC_THRESHOLD_MINUTES
      then ([ConsoleLog (skip_message minutesSinceSync)], false)
      else ([], true)
    else ([], true).

(** The payload object built before the webhook is sent. *)
Definition webhookData (triggerType : value) (bid : string) (r : record)
  : obj :=
  let record_part : obj := [("id", VStr (id r))] in
  let record_part :=
    if negb (strict_eq_str triggerType "delete")
    then obj_set "fields"
           (VObj [("Product Name", VStr (getCellValueAsString r "Product Name"));
                  ("SKU", VStr (getCellValueAsString r "SKU"));
                  ("Stock Quantity", getCellValue r "Stock Quantity")])
           record_part
    else record_part in
  [("type", VStr ("record." ++ to_str triggerType ++ "d"));
   ("base", VObj [("id", VStr bid)]);
   ("record", VObj record_part)].

Definition webhook_request (data : obj) : request :=
  {| url := WEBHOOK_URL;
     method := "POST";
     headers := [("Content-Type", "application/json");
                 ("X-Airtable-Signature", WEBHOOK_SECRET)];
     body := JSON_stringify (VObj data) |}.

(** The effects that follow the [fetch] call, by its outcome. *)
Definition after_fetch (o : fetch_outcome) : list effect :=
  match o with
  | ResponseOk (inl result) =>
      [ConsoleLog ("Webhook sent successfully: " ++ JSON_stringify result);
       OutputSet "status" "success";
       OutputSet "response" (JSON_stringify result)]
  | ResponseOk (inr error) | FetchThrows error =>
      [ConsoleError ("Failed to send webhook: " ++ error);
       OutputSet "status" "error";
       OutputSet "error" error]
  | ResponseNotOk error =>
      [ConsoleError ("Webhook failed: " ++ error);
       OutputSet "status" "error";
       OutputSet "error" error]
  end.

(** Main execution. *)
Definition main (e : env) : list effect :=
  let recordId := obj_get "recordId" (inputConfig e) in
  let triggerType := obj_get "triggerType" (inputConfig e) in
  if truthy recordId then
    match selectRecordAsync e recordId with
    | Some r =>
        let '(logged, shouldSyncRecord) := shouldSync triggerType (now e) r in
        logged ++
        if negb shouldSyncRecord then
          [ConsoleLog "Skipping sync to prevent loop";
           OutputSet "status" "skipped"]
        else
          let rq := webhook_request (webhookData triggerType (base_id e) r) in
          Fetch rq :: after_fetch (fetch e rq)
    | None =>
        [ConsoleLog "Record not found"; OutputSet "status" "record_not_found"]
    end
  else [ConsoleLog "No record ID provided"; OutputSet "status" "no_record_id"].

(** The webhook calls of a run. *)
Definition posts (l : list effect) : list request :=
  flat_map (fun x => match x with Fetch r => [r] | _ => [] end) l.

(** The run triggered by a change: the script is handed the record id and
    the static trigger type of the automation, nothing else. *)
Definition decide_update (c : change) (now_ms : Z) : list effect * bool :=
  shouldSync (VStr "update") now_ms (changed_record c).

(** ** Specification vocabulary *)

Definition last_sync (r : record) : value :=
  getCellValue r "Last WooCommerce Sync".

(** "The timestamp is set and strictly less than one minute old", in
    milliseconds. *)
Definition synced_within_a_minute (now_ms : Z) (r : record) : Prop :=
  truthy (last_sync r) = true /\
  exists t, new_Date (last_sync r) = Some t /\ (now_ms - t < 60000)%Z.

(** An event whose record is found by the run. *)
Definition event_of (e : env) (triggerType : string) (r : record) : Prop :=
  obj_get "triggerType" (inputConfig e) = VStr triggerType /\
  truthy (obj_get "recordId" (inputConfig e)) = true /\
  selectRecordAsync e (obj_get "recordId" (inputConfig e)) = Some r.

End Script.

End Sync.

(* ================================================================== *)
(** * Sample runs of the automation script *)
(* ================================================================== *)

Module SyncSamples.
Import Sync.

Definition sample_sync_stamp : string := "2024-05-01T12:00:00.000Z".
Definition sample_sync_ms : Z := 1714564800000.

Definition sample_Date_parse (s : string) : option Z :=
  if String.eqb s sample_sync_stamp then Some sample_sync_ms else None.

Definition sample_stringify (v : value) : string := to_str v.
Definition sample_toFixed (q : Q) (digits : nat) : string := "0.17".

(** A product synced from WooCommerce at [sample_sync_ms]. *)
Definition sample_record : record :=
  {| id := "recA1";
     getCellValue := fun f =>
       if String.eqb f "Last WooCommerce Sync" then VStr sample_sync_stamp
       else if String.eqb f "Stock Quantity" then VNum 7
       else VNull;
     getCellValueAsString := fun f =>
       if String.eqb f "Product Name" then "Desk lamp"
       else if String.eqb f "SKU" then "DL-1" else "" |}.

(** A run [delay] milliseconds after the sync, for a given trigger. *)
Definition sample_env (triggerType : string) (delay : Z) : env :=
  {| inputConfig := [("recordId", VStr "recA1");
                     ("triggerType", VStr triggerType)];
     base_id := "appB1";
     selectRecordAsync := fun v =>
       if strict_eq_str v "recA1" then Some sample_record else None;
     now := sample_sync_ms + delay;
     fetch := fun _ => ResponseOk (inl (VObj [("ok", VBool true)])) |}.

Definition sample_change (who : origin) : change :=
  {| changed_record := sample_record;
     changed_fields := ["Stock Quantity"];
     changed_by := who |}.

End SyncSamples.

(* ================================================================== *)
(** * The inventory scanner backend (server.js) *)
(* ================================================================== *)

Module Server.

(** ** Table names ([TABLES]) *)

Definition USERS : string := "Users".
Definition PRODUCTS : string := "Products".
Definition SCAN_HISTORY : string := "ScanHistory".
Definition SETTINGS : string := "Settings".

(** ** The Airtable base *)

(** A stored record: Airtable's record id and its cells. *)
Record rec : Type := { rec_id : string; fields : obj }.

(** Filter formulas. The source builds them as strings with template
    literals; they are kept as syntax trees here, every interpolated value
    standing as a text literal. *)
Inductive fexpr : Type :=
| FField (name : string)
| FText (s : string)
| FLower (e : fexpr).

Inductive formula : Type :=
| FTrue
| FEq (a b : fexpr)
| FGe (a b : fexpr)
| FSearch (needle hay : fexpr)
| FAnd (fs : list formula)
| FOr (fs : list formula).

Inductive direction : Type := Asc | Desc.

(** The options of [select]; [columns] is its [fields] option, [None]
    when absent. *)
Record select_opts : Type := {
  filterByFormula : formula;
  maxRecords : value;
  pageSize : value;
  sort : list (string * direction);
  columns : option (list string)
}.

(** Requests sent to the Airtable API. *)
Inductive call : Type :=
| Select (table : string) (opts : select_opts)
| SelectAll (table : string) (opts : select_opts)
| Create (table : string) (f : obj)
| Update (table : string) (rid : value) (f : obj)
| Destroy (table : string) (rid : value).

(** The state a request handler runs in: the tables of the base, the
    counter behind fresh record ids, the failures the Airtable API is
    about to produce (one entry per request, [Some msg] = that request is
    rejected with [msg]; an exhausted schedule means no failure), the
    requests sent so far, what was written with [console.error], and the
    value of [new Date().toISOString()]. *)
Record world : Type := {
  tables : string -> list rec;
  next_id : nat;
  faults : list (option string);
  calls : list call;
  console : list string;
  clock : string
}.

Definition set_tables (t : string) (rs : list rec) (w : world) : world :=
  {| tables := fun n => if String.eqb n t then rs else tables w n;
     next_id := next_id w; faults := faults w; calls := calls w;
     console := console w; clock := clock w |}.

Definition bump_id (w : world) : world :=
  {| tables := tables w; next_id := S (next_id w); faults := faults w;
     calls := calls w; console := console w; clock := clock w |}.

Definition set_faults (fs : list (option string)) (w : world) : world :=
  {| tables := tables w; next_id := next_id w; faults := fs;
     calls := calls w; console := console w; clock := clock w |}.

Definition record_call (c : call) (w : world) : world :=
  {| tables := tables w; next_id := next_id w; faults := faults w;
     calls := calls w ++ [c]; console := console w; clock := clock w |}.

Definition console_error (line : string) (w : world) : world :=
  {| tables := tables w; next_id := next_id w; faults := faults w;
     calls := calls w; console := console w ++ [line]; clock := clock w |}.

(** ** Computations that may throw *)

Inductive outcome (A : Type) : Type :=
| Ok (a : A)
| Throw (message : string).
Arguments Ok {A} a.
Arguments Throw {A} message.

Definition M (A : Type) : Type := world -> outcome A * world.

Definition ret {A} (a : A) : M A := fun w => (Ok a, w).
Definition throw {A} (message : string) : M A := fun w => (Throw message, w).

Definition bind {A B} (m : M A) (k : A -> M B) : M B :=
  fun w =>
    match m w with
    | (Ok a, w') => k a w'
    | (Throw e, w') => (Throw e, w')
    end.

(** [try { m } catch (error) { h error }]. *)
Definition try_catch {A} (m : M A) (h : string -> M A) : M A :=
  fun w =>
    match m w with
    | (Ok a, w') => (Ok a, w')
    | (Throw e, w') => h e w'
    end.

Definition log_error (line : string) : M unit :=
  fun w => (Ok tt, console_error line w).

Definition lift {A} (o : outcome A) : M A := fun w => (o, w).

Declare Scope js_scope.
Delimit Scope js_scope with js.
Notation "x <- m ;; k" := (bind m (fun x => k))
  (at level 61, m at next level, right associativity) : js_scope.
Notation "m ;;; k" := (bind m (fun _ => k))
  (at level 61, right associativity) : js_scope.
Local Open Scope js_scope.

(** One request to the Airtable API: it is recorded, the next entry of the
    failure schedule is consumed, and the request either is rejected or
    takes effect. *)
Definition api {A} (c : call) (run : M A) : M A :=
  fun w =>
    let w1 := record_call c w in
    match faults w with
    | Some message :: rest => (Throw message, set_faults rest w1)
    | None :: rest => run (set_faults rest w1)
    | [] => run (set_faults [] w1)
    end.

(** The failure awaiting the next request, and the state once a request
    [c] has been sent. *)
Definition next_fault (w : world) : option string :=
  match faults w with
  | Some message :: _ => Some message
  | _ => None
  end.

Definition after_call (c : call) (w : world) : world :=
  set_faults (tl (faults w)) (record_call c w).

(** ** Evaluating a query *)

(** The text of a cell inside a formula; a blank cell is the empty text. *)
Definition cell_text (v : value) : string :=
  match v with
  | VUndefined | VNull => ""
  | _ => to_str v
  end.

Definition lower_ascii (c : ascii) : ascii :=
  let n := nat_of_ascii c in
  if andb (65 <=? n)%nat (n <=? 90)%nat then ascii_of_nat (n + 32) else c.

Fixpoint lower (s : string) : string :=
  match s with
  | EmptyString => EmptyString
  | String c s' => String (lower_ascii c) (lower s')
  end.

Fixpoint eval_fexpr (e : fexpr) (f : obj) : string :=
  match e with
  | FField name => cell_text (obj_get name f)
  | FText s => s
  | FLower e' => lower (eval_fexpr e' f)
  end.

Definition contains (needle hay : string) : bool :=
  match String.index 0 needle hay with
  | Some _ => true
  | None => false
  end.

Fixpoint eval_formula (phi : formula) (f : obj) : bool :=
  match phi with
  | FTrue => true
  | FEq a b => String.eqb (eval_fexpr a f) (eval_fexpr b f)
  | FGe a b => String.leb (eval_fexpr b f) (eval_fexpr a f)
  | FSearch needle hay => contains (eval_fexpr needle f) (eval_fexpr hay f)
  | FAnd fs => forallb (fun phi' => eval_formula phi' f) fs
  | FOr fs => existsb (fun phi' => eval_formula phi' f) fs
  end.

(** Ordering by one field, on the text of the cells (ISO timestamps sort
    as text); a stable insertion sort. *)
Definition before (k : string * direction) (a b : rec) : bool :=
  let x := cell_text (obj_get (fst k) (fields a)) in
  let y := cell_text (obj_get (fst k) (fields b)) in
  match snd k with
  | Asc => String.leb x y
  | Desc => String.leb y x
  end.

Fixpoint insert_by (k : string * direction) (r : rec) (l : list rec)
  : list rec :=
  match l with
  | [] => [r]
  | x :: l' => if before k r x then r :: l else x :: insert_by k r l'
  end.

Definition sort_by (k : string * direction) (l : list rec) : list rec :=
  fold_right (insert_by k) [] l.

Definition sorted (keys : list (string * direction)) (l : list rec)
  : list rec :=
  fold_right sort_by l keys.

(** A record limit given as a JavaScript value. *)
Definition limit_of (v : value) (default : option nat)
  : outcome (option nat) :=
  match v with
  | VUndefined => Ok default
  | VNum n => if (1 <=? n)%Z then Ok (Some (Z.to_nat n))
              else Throw "Invalid request: parameter validation failed"
  | _ => Throw "Invalid request: parameter validation failed"
  end.

Definition take (n : option nat) (l : list rec) : list rec :=
  match n with
  | Some k => firstn k l
  | None => l
  end.

(** The records a formula keeps. *)
Definition matching (phi : formula) (rs : list rec) : list rec :=
  filter (fun r => eval_formula phi (fields r)) rs.

(** The cells of a record a query returns. *)
Definition project (cols : option (list string)) (r : rec) : rec :=
  match cols with
  | Some names =>
      {| rec_id := rec_id r;
         fields := filter (fun kv => existsb (String.eqb (fst kv)) names)
                     (fields r) |}
  | None => r
  end.

(** The records a query selects, in order, before paging. *)
Definition selected (opts : select_opts) (rs : list rec) : list rec :=
  map (project (columns opts))
    (sorted (sort opts) (matching (filterByFormula opts) rs)).

(** [base(t).select(opts).firstPage()]. *)
Definition firstPage (t : string) (opts : select_opts) : M (list rec) :=
  api (Select t opts)
    (top <- lift (limit_of (maxRecords opts) None) ;;
     page <- lift (limit_of (pageSize opts) (Some 100%nat)) ;;
     fun w => (Ok (take page (take top (selected opts (tables w t)))), w)).

(** [base(t).select(opts).all()]: every page. *)
Definition allPages (t : string) (opts : select_opts) : M (list rec) :=
  api (SelectAll t opts)
    (top <- lift (limit_of (maxRecords opts) None) ;;
     fun w => (Ok (take top (selected opts (tables w t))), w)).

Definition fresh_id (n : nat) : string :=
  "rec" ++ string_of_Z (Z.of_nat n).

(** [base(t).create(fields)]. *)
Definition create (t : string) (f : obj) : M rec :=
  api (Create t f)
    (fun w =>
       let r := {| rec_id := fresh_id (next_id w); fields := f |} in
       (Ok r, set_tables t (tables w t ++ [r]) (bump_id w))).

Definition has_id (rid : value) (r : rec) : bool :=
  strict_eq_str rid (rec_id r).

(** [base(t).update(id, fields)]: the given cells are written over the
    stored ones; an unknown id is rejected. *)
Definition update (t : string) (rid : value) (f : obj) : M rec :=
  api (Update t rid f)
    (fun w =>
       match find (has_id rid) (tables w t) with
       | Some r =>
           let r' := {| rec_id := rec_id r; fields := spread (fields r) f |} in
           (Ok r',
            set_tables t
              (map (fun x => if has_id rid x then r' else x) (tables w t)) w)
       | None => (Throw "Record not found", w)
       end).

(** [base(t).destroy(id)]. *)
Definition destroy (t : string) (rid : value) : M unit :=
  api (Destroy t rid)
    (fun w =>
       match find (has_id rid) (tables w t) with
       | Some _ =>
           (Ok tt,
            set_tables t
              (filter (fun x => negb (has_id rid x)) (tables w t)) w)
       | None => (Throw "Record not found", w)
       end).

(** ** Helper functions of server.js *)

(** [{ id: record.id, ...record.fields }]. *)
Definition cleanRecord (r : rec) : obj :=
  spread [("id", VStr (rec_id r))] (fields r).

(** The formula [{fieldName} = 'value'] of a lookup. The source writes
    the value between the quotes as it is; the comparison below is what
    that text says when the value holds no quote and no backslash. *)
Definition field_equals (fieldName : string) (v : value) : formula :=
  FEq (FField fieldName) (FText (to_str v)).

(** The options [findRecordByField] passes to [select]. *)
Definition find_query (fieldName : string) (v : value) : select_opts :=
  {| filterByFormula := field_equals fieldName v;
     maxRecords := VNum 1;
     pageSize := VUndefined;
     sort := [];
     columns := None |}.

Definition findRecordByField (tableName fieldName : string) (v : value)
  : M value :=
  try_catch
    (records <- firstPage tableName (find_query fieldName v) ;;
     ret (match records with
          | r :: _ => VObj (cleanRecord r)
          | [] => VNull
          end))
    (fun error =>
       log_error ("Error finding record in " ++ tableName ++ ": " ++ error) ;;;
       ret VNull).

Definition createRecord (tableName : string) (f : obj) : M obj :=
  try_catch
    (r <- create tableName f ;; ret (cleanRecord r))
    (fun error =>
       log_error ("Error creating record in " ++ tableName ++ ": " ++ error) ;;;
       throw error).

Definition updateRecord (tableName : string) (recordId : value) (f : obj)
  : M obj :=
  try_catch
    (r <- update tableName recordId f ;; ret (cleanRecord r))
    (fun error =>
       log_error ("Error updating record in " ++ tableName ++ ": " ++ error) ;;;
       throw error).

(** ** Requests and responses *)

(** An incoming request: [req.headers], [req.query], [req.params],
    [req.body] (an object, as [express.json()] leaves it), [req.protocol],
    [req.get('host')], [req.file] (set by the upload middleware) and
    [req.user] (set by [authenticateToken]). *)
Record request : Type := {
  headers : obj;
  query : obj;
  params : obj;
  body : obj;
  protocol : string;
  host : value;
  file : value;
  user : value
}.

Definition with_user (u : value) (req : request) : request :=
  {| headers := headers req; query := query req; params := params req;
     body := body req; protocol := protocol req; host := host req;
     file := file req; user := u |}.

(** A response: status code, headers set with [res.setHeader], body. *)
Record response : Type := {
  status : nat;
  set_headers : list (string * string);
  payload : value
}.

(** [res.status(code).json(o)], [res.json(v)] and [res.send(text)]. *)
Definition respond (code : nat) (o : obj) : response :=
  {| status := code; set_headers := []; payload := VObj o |}.
Definition json (v : value) : response :=
  {| status := 200; set_headers := []; payload := v |}.
Definition send (hs : list (string * string)) (text : string) : response :=
  {| status := 200; set_headers := hs; payload := VStr text |}.

Definition handler : Type := request -> world -> response * world.

(** The shape shared by the route handlers: the body runs inside [try];
    the [catch] answers 500 with the error message, after writing it to
    the console in the handlers that do so ([label] is the prefix they
    print). *)
Definition try_or_500 (label : option string) (m : M response)
  : world -> response * world :=
  fun w =>
    match m w with
    | (Ok r, w') => (r, w')
    | (Throw e, w') =>
        (respond 500 [("error", VStr e)],
         match label with
         | Some l => console_error (l ++ " " ++ e) w'
         | None => w'
         end)
    end.

(** [new Date().toISOString()]. *)
Definition now_iso : M value := fun w => (Ok (VStr (clock w)), w).

(** [s.split(' ')]. *)
Fixpoint split_on (c : ascii) (s : string) : list string :=
  match s with
  | EmptyString => [EmptyString]
  | String a s' =>
      if Ascii.eqb a c then EmptyString :: split_on c s'
      else match split_on c s' with
           | h :: t => String a h :: t
           | [] => [String a EmptyString]
           end
  end.

(** [authHeader.split(' ')[1]]. *)
Definition second_word (authHeader : value) : value :=
  match authHeader with
  | VStr s =>
      match nth_error (split_on " " s) 1 with
      | Some t => VStr t
      | None => VUndefined
      end
  | _ => VUndefined
  end.

(** [a && b]. *)
Definition and_then (a b : value) : value := if truthy a then b else a.

(** Reading an identifier: a binding of the enclosing scopes, or a
    ReferenceError. [scope] lists the bindings of the type at hand. *)
Fixpoint lookup_ident {A} (scope : list (string * A)) (x : string) : M A :=
  match scope with
  | [] => throw (x ++ " is not defined")
  | (y, a) :: scope' => if String.eqb x y then ret a else lookup_ident scope' x
  end.

(** [v.k] where [v] may be [undefined] or [null]: a TypeError then. *)
Definition member (v : value) (k : string) : M value :=
  match v with
  | VUndefined | VNull =>
      throw ("Cannot read properties of " ++ to_str v
             ++ " (reading '" ++ k ++ "')")
  | _ => ret (prop v k)
  end.

(** [for (const x of v)]: arrays and strings are iterable. *)
Definition iterate (name : string) (v : value) : M (list value) :=
  match v with
  | VArr l => ret l
  | VStr s => ret (map (fun c => VStr (String c "")) (list_ascii_of_string s))
  | _ => throw (name ++ " is not iterable")
  end.

Inductive verb : Type := GET | POST | DELETE.

Section Handlers.

(** ** Libraries and remote services, left abstract *)

Variable jwt_verify : value -> outcome value.
(** [jwt.sign(payload, secret, { expiresIn: '30d' })] at a given time:
    the token is stamped with the time of signing ([iat]) and with its
    expiry ([exp]). *)
Variable jwt_sign : obj -> value -> string.
Variable bcrypt_hash : value -> nat -> outcome string.
Variable bcrypt_compare : value -> value -> outcome bool.
Variable start_of_day : string -> string.
Variable parseInt : value -> value.
Variable parseFloat : value -> value.
Variable JSON_stringify : value -> string.
Variable lookupOpenFoodFacts : value -> value.
Variable lookupUPCItemDB : value -> value.
Variable lookupBarcodeLookup : value -> value.

(** ** Authentication middleware *)

(** [authHeader && authHeader.split(' ')[1]]. *)
Definition bearer_token (req : request) : value :=
  let authHeader := obj_get "authorization" (headers req) in
  and_then authHeader (second_word authHeader).

Definition authenticateToken (next : handler) : handler :=
  fun req w =>
    let token := bearer_token req in
    if negb (truthy token) then
      (respond 401 [("error", VStr "Access token required")], w)
    else
      match
        (decoded <- lift (jwt_verify token) ;;
         user <- findRecordByField USERS "Email" (prop decoded "email") ;;
         if negb (truthy user)
         then ret (inl (respond 403 [("error", VStr "User not found")]))
         else ret (inr user)) w
      with
      | (Ok (inl r), w') => (r, w')
      | (Ok (inr u), w') => next (with_user u req) w'
      | (Throw _, w') => (respond 403 [("error", VStr "Invalid token")], w')
      end.

(** ** Auth routes *)

Definition session (issued : value) (u : value) : obj :=
  [("token",
    VStr (jwt_sign [("id", prop u "id"); ("email", prop u "Email")] issued));
   ("user", VObj [("id", prop u "id");
                  ("email", prop u "Email");
                  ("name", prop u "Name");
                  ("role", prop u "Role")])].

Definition register_body (req : request) : M response :=
  let email := obj_get "email" (body req) in
  let password := obj_get "password" (body req) in
  let name := obj_get "name" (body req) in
  existingUser <- findRecordByField USERS "Email" email ;;
  if truthy existingUser then
    ret (respond 400 [("error", VStr "User already exists")])
  else
    hashedPassword <- lift (bcrypt_hash password 10) ;;
    created <- now_iso ;;
    active <- now_iso ;;
    user <- createRecord USERS
              [("Email", email);
               ("Password", VStr hashedPassword);
               ("Name", name);
               ("Role", VStr "staff");
               ("CreatedAt", created);
               ("TotalScans", VNum 0);
               ("LastActive", active)] ;;
    issued <- now_iso ;;
    ret (json (VObj (session issued (VObj user)))).

Definition register : handler :=
  fun req => try_or_500 (Some "Registration error:") (register_body req).

Definition login_body (req : request) : M response :=
  let email := obj_get "email" (body req) in
  let password := obj_get "password" (body req) in
  user <- findRecordByField USERS "Email" email ;;
  if negb (truthy user) then
    ret (respond 401 [("error", VStr "Invalid credentials")])
  else
    validPassword <- lift (bcrypt_compare password (prop user "Password")) ;;
    if negb validPassword then
      ret (respond 401 [("error", VStr "Invalid credentials")])
    else
      t <- now_iso ;;
      updateRecord USERS (prop user "id") [("LastActive", t)] ;;;
      issued <- now_iso ;;
      ret (json (VObj (session issued user))).

Definition login : handler :=
  fun req => try_or_500 (Some "Login error:") (login_body req).

(** ** Product lookup *)

Definition lookup_product_body (req : request) : M response :=
  let barcode := obj_get "barcode" (body req) in
  let provider := obj_get "provider" (body req) in
  let productData :=
    if strict_eq_str provider "openFood" then lookupOpenFoodFacts barcode
    else if strict_eq_str provider "upcItemDB" then lookupUPCItemDB barcode
    else if strict_eq_str provider "barcodeLookup"
    then lookupBarcodeLookup barcode
    else if strict_eq_str provider "all"
    then or_else (or_else (lookupOpenFoodFacts barcode)
                          (lookupUPCItemDB barcode))
                 (lookupBarcodeLookup barcode)
    else lookupOpenFoodFacts barcode in
  if truthy productData then
    ret (json (VObj [("success", VBool true); ("data", productData)]))
  else
    ret (json (VObj [("success", VBool false);
                     ("message", VStr "Product not found")])).

Definition lookup_product : handler :=
  fun req => try_or_500 None (lookup_product_body req).

(** ** Product routes *)

(** The conditions pushed on [filters]. *)
Definition product_filters (search status category : value) : list formula :=
  (if truthy search
   then [FOr [FSearch (FText (to_str search)) (FLower (FField "Name"));
              FSearch (FText (to_str search)) (FField "Barcode")]]
   else [])
  ++ (if truthy status
      then [FEq (FField "Status") (FText (to_str status))] else [])
  ++ (if truthy category
      then [FEq (FField "Category") (FText (to_str category))] else []).

(** A destructuring default: [{ page = 1 } = req.query]. *)
Definition defaulted (v d : value) : value :=
  match v with
  | VUndefined => d
  | _ => v
  end.

Definition get_products_body (req : request) : M response :=
  let page := defaulted (obj_get "page" (query req)) (VNum 1) in
  let limit := defaulted (obj_get "limit" (query req)) (VNum 50) in
  let search := obj_get "search" (query req) in
  let status := obj_get "status" (query req) in
  let category := obj_get "category" (query req) in
  let filters := product_filters search status category in
  let filterFormula :=
    if (0 <? length filters)%nat then
      if (1 <? length filters)%nat then FAnd filters
      else nth 0 filters FTrue
    else FTrue in
  (* the object literal passed to [select] names [filterByFormula], which
     no scope binds: the formula built above is bound to [filterFormula] *)
  filterByFormula <- lookup_ident [("filterFormula", filterFormula)]
                       "filterByFormula" ;;
  records <- firstPage PRODUCTS
               {| filterByFormula := filterByFormula;
                  maxRecords := parseInt limit;
                  pageSize := parseInt limit;
                  sort := [("ScannedAt", Desc)];
                  columns := None |} ;;
  let products := map (fun r => VObj (cleanRecord r)) records in
  ret (json (VObj [("products", VArr products);
                   ("currentPage", parseInt page);
                   ("total", VNum (Z.of_nat (length products)))])).

Definition get_products : handler :=
  fun req => try_or_500 (Some "Get products error:") (get_products_body req).

Definition get_product_body (req : request) : M response :=
  product <- findRecordByField PRODUCTS "Barcode"
               (obj_get "barcode" (params req)) ;;
  if negb (truthy product) then
    ret (respond 404 [("error", VStr "Product not found")])
  else ret (json product).

Definition get_product : handler :=
  fun req => try_or_500 None (get_product_body req).

(** The cells written when a product is created. *)
Definition new_product_fields (productData : obj) : obj :=
  spread
    [("Barcode", obj_get "barcode" productData);
     ("Name", obj_get "name" productData);
     ("Brand", or_else (obj_get "brand" productData) (VStr ""));
     ("Category", or_else (obj_get "category" productData) (VStr ""));
     ("Description", or_else (obj_get "description" productData) (VStr ""));
     ("Price", or_else (parseFloat (obj_get "price" productData)) (VNum 0));
     ("Cost", or_else (parseFloat (obj_get "cost" productData)) (VNum 0));
     ("Weight", or_else (obj_get "weight" productData) (VStr ""));
     ("Dimensions", or_else (obj_get "dimensions" productData) (VStr ""));
     ("Quantity", or_else (parseInt (obj_get "quantity" productData)) (VNum 1));
     ("Location", or_else (obj_get "location" productData) (VStr ""));
     ("Condition", or_else (obj_get "condition" productData) (VStr "good"));
     ("Status", or_else (obj_get "status" productData) (VStr "pending"));
     ("Images", or_else (obj_get "images" productData) (VArr []));
     ("Source", or_else (obj_get "source" productData) (VStr "Manual"));
     ("ApiData",
      VStr (JSON_stringify (or_else (obj_get "apiData" productData) (VObj []))));
     ("Notes", or_else (obj_get "notes" productData) (VStr ""))]
    productData.

Definition scan_action (existingProduct : value) : string :=
  if truthy existingProduct then "update" else "scan".

Definition post_products_body (req : request) : M response :=
  modified <- now_iso ;;
  let productData :=
    spread (body req)
      [("ScannedBy", VArr [prop (user req) "id"]);
       ("ScannedByEmail", prop (user req) "Email");
       ("LastModified", modified)] in
  existingProduct <- findRecordByField PRODUCTS "Barcode"
                       (obj_get "barcode" (body req)) ;;
  product <-
    (if truthy existingProduct then
       updateRecord PRODUCTS (prop existingProduct "id") productData
     else
       scanned <- now_iso ;;
       let productData := obj_set "ScannedAt" scanned productData in
       createRecord PRODUCTS (new_product_fields productData)) ;;
  stamp <- now_iso ;;
  createRecord SCAN_HISTORY
    [("User", VArr [prop (user req) "id"]);
     ("Product", VArr [obj_get "id" product]);
     ("Barcode", obj_get "Barcode" product);
     ("Action", VStr (scan_action existingProduct));
     ("Timestamp", stamp);
     ("UserEmail", prop (user req) "Email");
     ("ProductName", obj_get "Name" product)] ;;;
  active <- now_iso ;;
  updateRecord USERS (prop (user req) "id")
    [("TotalScans", add (or_else (prop (user req) "TotalScans") (VNum 0)) (VNum 1));
     ("LastActive", active)] ;;;
  ret (json (VObj product)).

Definition post_products : handler :=
  fun req =>
    try_or_500 (Some "Create/Update product error:") (post_products_body req).

Definition upload_image_body (req : request) : M response :=
  product <- findRecordByField PRODUCTS "Barcode"
               (obj_get "barcode" (params req)) ;;
  if negb (truthy product) then
    ret (respond 404 [("error", VStr "Product not found")])
  else
    filename <- member (file req) "filename" ;;
    let imageUrl :=
      VStr (protocol req ++ "://" ++ to_str (host req) ++ "/uploads/"
            ++ to_str filename) in
    existingImages <-
      match or_else (prop product "Images") (VArr []) with
      | VArr images => ret (VArr (images ++ [VObj [("url", imageUrl)]]))
      | _ => throw "existingImages.push is not a function"
      end ;;
    updatedProduct <- updateRecord PRODUCTS (prop product "id")
                        [("Images", existingImages)] ;;
    ret (json (VObj [("imageUrl", imageUrl);
                     ("product", VObj updatedProduct)])).

Definition upload_image : handler :=
  fun req => try_or_500 None (upload_image_body req).

Definition delete_product_body (req : request) : M response :=
  product <- findRecordByField PRODUCTS "Barcode"
               (obj_get "barcode" (params req)) ;;
  if negb (truthy product) then
    ret (respond 404 [("error", VStr "Product not found")])
  else
    destroy PRODUCTS (prop product "id") ;;;
    stamp <- now_iso ;;
    createRecord SCAN_HISTORY
      [("User", VArr [prop (user req) "id"]);
       ("Barcode", obj_get "barcode" (params req));
       ("Action", VStr "delete");
       ("Timestamp", stamp);
       ("UserEmail", prop (user req) "Email")] ;;;
    ret (json (VObj [("message", VStr "Product deleted successfully")])).

Definition delete_product : handler :=
  fun req => try_or_500 None (delete_product_body req).

(** ** Bulk scan *)

(** The product description used for one barcode: the first provider that
    knows it, or a placeholder. *)
Definition bulk_productData (barcode : value) : value :=
  let productData :=
    or_else (or_else (lookupOpenFoodFacts barcode) (lookupUPCItemDB barcode))
            (lookupBarcodeLookup barcode) in
  if negb (truthy productData) then
    VObj [("barcode", barcode);
          ("name", VStr ("Product " ++ to_str barcode));
          ("source", VStr "Manual")]
  else productData.

Definition bulk_fields (req : request) (barcode productData stamp : value)
  : obj :=
  [("Barcode", barcode);
   ("Name", prop productData "name");
   ("Brand", or_else (prop productData "brand") (VStr ""));
   ("Category", or_else (prop productData "category") (VStr ""));
   ("Description", or_else (prop productData "description") (VStr ""));
   ("Price", or_else (prop productData "price") (VNum 0));
   ("Weight", or_else (prop productData "weight") (VStr ""));
   ("Dimensions", or_else (prop productData "dimensions") (VStr ""));
   ("Source", prop productData "source");
   ("Status", VStr "pending");
   ("Condition", VStr "good");
   ("Quantity", VNum 1);
   ("ScannedBy", VArr [prop (user req) "id"]);
   ("ScannedByEmail", prop (user req) "Email");
   ("ScannedAt", stamp);
   ("ApiData", VStr (JSON_stringify productData))].

(** The body of the per-item [try]. *)
Definition bulk_item (req : request) (barcode : value) : M obj :=
  let productData := bulk_productData barcode in
  stamp <- now_iso ;;
  createRecord PRODUCTS (bulk_fields req barcode productData stamp).

(** The [for] loop, with the two arrays it pushes on. *)
Fixpoint bulk_loop (req : request) (barcodes results errors : list value)
  : M (list value * list value) :=
  match barcodes with
  | [] => ret (results, errors)
  | barcode :: rest =>
      pushed <-
        try_catch
          (product <- bulk_item req barcode ;;
           ret (results ++ [VObj product], errors))
          (fun error =>
             ret (results,
                  errors ++ [VObj [("barcode", barcode);
                                   ("error", VStr error)]])) ;;
      bulk_loop req rest (fst pushed) (snd pushed)
  end.

Definition bulk_report (results errors : list value) : obj :=
  [("success", VNum (Z.of_nat (length results)));
   ("failed", VNum (Z.of_nat (length errors)));
   ("results", VArr results);
   ("errors", VArr errors)].

Definition bulk_body (req : request) : M response :=
  barcodes <- iterate "barcodes" (obj_get "barcodes" (body req)) ;;
  done <- bulk_loop req barcodes [] [] ;;
  ret (json (VObj (bulk_report (fst done) (snd done)))).

Definition bulk : handler :=
  fun req => try_or_500 None (bulk_body req).

(** ** Statistics and history *)

Definition by_user (field : string) (req : request) : formula :=
  field_equals field (prop (user req) "Email").

Definition barcodes_where (phi : formula) : select_opts :=
  {| filterByFormula := phi;
     maxRecords := VUndefined;
     pageSize := VUndefined;
     sort := [];
     columns := Some ["Barcode"] |}.

(** The loop over [statuses], filling [statusCounts]. *)
Fixpoint count_by_status (statuses : list string) (statusCounts : obj)
  : M obj :=
  match statuses with
  | [] => ret statusCounts
  | status :: rest =>
      records <- firstPage PRODUCTS
                   (barcodes_where
                      (FEq (FField "Status") (FText status))) ;;
      count_by_status rest
        (obj_set status (VNum (Z.of_nat (length records))) statusCounts)
  end.

Definition clean_all (records : list rec) : value :=
  VArr (map (fun r => VObj (cleanRecord r)) records).

Definition count_of (records : list rec) : value :=
  VNum (Z.of_nat (length records)).

Definition stats_body (req : request) : M response :=
  todayISO <- (fun w => (Ok (start_of_day (clock w)), w)) ;;
  todayScansRecords <-
    firstPage SCAN_HISTORY
      {| filterByFormula :=
           FAnd [by_user "UserEmail" req;
                 FGe (FField "Timestamp") (FText todayISO)];
         maxRecords := VUndefined;
         pageSize := VUndefined;
         sort := [];
         columns := None |} ;;
  allProductsRecords <- firstPage PRODUCTS (barcodes_where FTrue) ;;
  userProductsRecords <-
    firstPage PRODUCTS (barcodes_where (by_user "ScannedByEmail" req)) ;;
  statusCounts <-
    count_by_status ["pending"; "listed"; "sold"; "returned"] [] ;;
  recentScansRecords <-
    firstPage SCAN_HISTORY
      {| filterByFormula := by_user "UserEmail" req;
         maxRecords := VNum 10;
         pageSize := VUndefined;
         sort := [("Timestamp", Desc)];
         columns := None |} ;;
  ret (json (VObj
    [("todayScans", count_of todayScansRecords);
     ("totalProducts", count_of allProductsRecords);
     ("userProducts", count_of userProductsRecords);
     ("byStatus",
      VArr (map (fun entry => VObj [("_id", VStr (fst entry));
                                    ("count", snd entry)])
              statusCounts));
     ("recentScans", clean_all recentScansRecords)])).

Definition stats : handler :=
  fun req => try_or_500 (Some "Stats error:") (stats_body req).

Definition history_body (req : request) : M response :=
  let page := defaulted (obj_get "page" (query req)) (VNum 1) in
  let limit := defaulted (obj_get "limit" (query req)) (VNum 50) in
  records <-
    firstPage SCAN_HISTORY
      {| filterByFormula := by_user "UserEmail" req;
         maxRecords := parseInt limit;
         pageSize := VUndefined;
         sort := [("Timestamp", Desc)];
         columns := None |} ;;
  ret (json (VObj [("history", clean_all records);
                   ("currentPage", parseInt page);
                   ("total", count_of records)])).

Definition history : handler :=
  fun req => try_or_500 None (history_body req).

(** ** Export *)

Definition quote : string := String (ascii_of_nat 34) EmptyString.
Definition newline : string := String (ascii_of_nat 10) EmptyString.

Definition quoted (v : value) : value :=
  VStr (quote ++ to_str (or_else v (VStr "")) ++ quote).

(** One line of the file: the cells joined with commas. *)
Definition csv_line (p : obj) : string :=
  to_str (VArr
    [obj_get "Barcode" p;
     quoted (obj_get "Name" p);
     quoted (obj_get "Brand" p);
     quoted (obj_get "Category" p);
     or_else (obj_get "Price" p) (VNum 0);
     or_else (obj_get "Cost" p) (VNum 0);
     or_else (obj_get "Quantity" p) (VNum 1);
     quoted (obj_get "Location" p);
     or_else (obj_get "Condition" p) (VStr "");
     or_else (obj_get "Status" p) (VStr "");
     or_else (obj_get "ScannedAt" p) (VStr "")]).

Definition csv_header : string :=
  String.concat ","
    ["Barcode"; "Name"; "Brand"; "Category"; "Price"; "Cost"; "Quantity";
     "Location"; "Condition"; "Status"; "Scanned Date"].

Definition export_csv_body (req : request) : M response :=
  records <-
    allPages PRODUCTS
      {| filterByFormula := FTrue;
         maxRecords := VUndefined;
         pageSize := VUndefined;
         sort := [("ScannedAt", Desc)];
         columns := None |} ;;
  let products := map cleanRecord records in
  let csv := String.concat newline (csv_header :: map csv_line products) in
  ret (send [("Content-Type", "text/csv");
             ("Content-Disposition", "attachment; filename=inventory.csv")]
            csv).

Definition export_csv : handler :=
  fun req => try_or_500 None (export_csv_body req).

(** ** Settings *)

Definition default_settings : obj :=
  [("apiProvider", VStr "openFood");
   ("scanSound", VBool true);
   ("autoSave", VBool false);
   ("defaultCondition", VStr "good");
   ("defaultStatus", VStr "pending")].

Definition get_settings_body (req : request) : M response :=
  records <-
    firstPage SETTINGS
      {| filterByFormula := by_user "UserEmail" req;
         maxRecords := VNum 1;
         pageSize := VUndefined;
         sort := [];
         columns := None |} ;;
  match records with
  | r :: _ => ret (json (VObj (cleanRecord r)))
  | [] => ret (json (VObj default_settings))
  end.

Definition get_settings : handler :=
  fun req => try_or_500 None (get_settings_body req).

Definition post_settings_body (req : request) : M response :=
  existingSettings <- findRecordByField SETTINGS "UserEmail"
                        (prop (user req) "Email") ;;
  updated <- now_iso ;;
  let settingsData :=
    spread (body req)
      [("User", VArr [prop (user req) "id"]);
       ("UserEmail", prop (user req) "Email");
       ("UpdatedAt", updated)] in
  settings <-
    (if truthy existingSettings then
       updateRecord SETTINGS (prop existingSettings "id") settingsData
     else createRecord SETTINGS settingsData) ;;
  ret (json (VObj settings)).

Definition post_settings : handler :=
  fun req => try_or_500 None (post_settings_body req).

(** ** The routes of the application *)

(** One [app.METHOD(path, ...)] registration: whether [authenticateToken]
    stands before the handler, what the handler's [catch] prints before
    answering (if it prints), the body of its [try], and the handler. *)
Record endpoint : Type := {
  method : verb;
  path : string;
  guarded : bool;
  prints : option string;
  try_body : request -> M response;
  run : handler
}.

Definition app : list endpoint :=
  [ {| method := POST; path := "/api/auth/register"; guarded := false;
       prints := Some "Registration error:";
       try_body := register_body; run := register |};
    {| method := POST; path := "/api/auth/login"; guarded := false;
       prints := Some "Login error:";
       try_body := login_body; run := login |};
    {| method := POST; path := "/api/products/lookup"; guarded := true;
       prints := None;
       try_body := lookup_product_body; run := lookup_product |};
    {| method := GET; path := "/api/products"; guarded := true;
       prints := Some "Get products error:";
       try_body := get_products_body; run := get_products |};
    {| method := GET; path := "/api/products/:barcode"; guarded := true;
       prints := None;
       try_body := get_product_body; run := get_product |};
    {| method := POST; path := "/api/products"; guarded := true;
       prints := Some "Create/Update product error:";
       try_body := post_products_body; run := post_products |};
    {| method := POST; path := "/api/products/:barcode/image";
       guarded := true; prints := None;
       try_body := upload_image_body; run := upload_image |};
    {| method := DELETE; path := "/api/products/:barcode"; guarded := true;
       prints := None;
       try_body := delete_product_body; run := delete_product |};
    {| method := GET; path := "/api/stats"; guarded := true;
       prints := Some "Stats error:";
       try_body := stats_body; run := stats |};
    {| method := GET; path := "/api/history"; guarded := true;
       prints := None;
       try_body := history_body; run := history |};
    {| method := GET; path := "/api/export/csv"; guarded := true;
       prints := None;
       try_body := export_csv_body; run := export_csv |};
    {| method := POST; path := "/api/products/bulk"; guarded := true;
       prints := None;
       try_body := bulk_body; run := bulk |};
    {| method := GET; path := "/api/settings"; guarded := true;
       prints := None;
       try_body := get_settings_body; run := get_settings |};
    {| method := POST; path := "/api/settings"; guarded := true;
       prints := None;
       try_body := post_settings_body; run := post_settings |} ].

(** The routes whose [catch] writes the error to the console. *)
Definition logging_routes : list (verb * string) :=
  map (fun e => (method e, path e))
    (filter (fun e => match prints e with
                      | Some _ => true
                      | None => false
                      end) app).

Definition is_auth_route (e : endpoint) : bool :=
  String.prefix "/api/auth/" (path e).

(** Serving a request on a route: Express runs the middleware chain, the
    handler last. The chain starts here at [authenticateToken]: a request
    is one whose body [express.json()] has parsed and, on the image route,
    whose file the upload middleware has accepted into [req.file]. *)
Definition serve (e : endpoint) : handler :=
  if guarded e then authenticateToken (run e) else run e.

End Handlers.


(** ** Specification vocabulary *)

(** The records of table [t] whose field [f] reads [v]: what the query of
    [findRecordByField] selects. *)
Definition lookup (t f : string) (v : value) (w : world) : list rec :=
  matching (field_equals f v) (tables w t).

(** A record as the handlers see it. *)
Definition found (r : rec) : value := VObj (cleanRecord r).

(** The entries a bulk scan reports for the items whose request failed,
    and the items whose request went through, by the failure schedule. *)
Fixpoint failed_items (items : list value) (fs : list (option string))
  : list value :=
  match items with
  | [] => []
  | b :: rest =>
      match fs with
      | Some message :: fs' =>
          VObj [("barcode", b); ("error", VStr message)]
          :: failed_items rest fs'
      | _ => failed_items rest (tl fs)
      end
  end.

Fixpoint saved_items (items : list value) (fs : list (option string))
  : list value :=
  match items with
  | [] => []
  | b :: rest =>
      match fs with
      | Some _ :: fs' => saved_items rest fs'
      | _ => b :: saved_items rest (tl fs)
      end
  end.

(** The requests a run sent to Airtable: what it added to [calls]. The
    request at position [i] met the entry at position [i] of the failure
    schedule the run started with. *)
Definition sent (before after : world) : list call :=
  skipn (length (calls before)) (calls after).

(** Whether a rejected request is caught before the [catch] of the route's
    handler: [findRecordByField] catches the failure of its query (the
    routes that call it send no other select), and the bulk scan wraps
    the work on each barcode in a [try] of its own. *)
Definition caught_inside (e : endpoint) (c : call) : bool :=
  match method e, path e with
  | POST, "/api/products/bulk" => true
  | POST, "/api/auth/register"
  | POST, "/api/auth/login"
  | GET, "/api/products/:barcode"
  | POST, "/api/products"
  | POST, "/api/products/:barcode/image"
  | DELETE, "/api/products/:barcode"
  | POST, "/api/settings" =>
      match c with
      | Select _ _ => true
      | _ => false
      end
  | _, _ => false
  end.

(** A computation that lets no rejected request pass, those in [inside]
    apart: it sends [made], consuming one entry of the failure schedule
    for each, and throws the message of a rejected request outside
    [inside]. *)
Definition loud {A} (inside : call -> bool) (m : M A) : Prop :=
  forall w, exists made,
    calls (snd (m w)) = calls w ++ made /\
    faults (snd (m w)) = skipn (length made) (faults w) /\
    forall i c message,
      nth_error made i = Some c ->
      nth_error (faults w) i = Some (Some message) ->
      inside c = false ->
      fst (m w) = Throw message.

(** What [findRecordByField] hands back, read off the state it runs in. *)
Definition lookup_result (t f : string) (v : value) (w : world) : value :=
  match next_fault w with
  | Some _ => VNull
  | None =>
      match lookup t f v w with
      | r :: _ => found r
      | [] => VNull
      end
  end.

(** The two failure answers of the lookups and of the login. *)
Definition not_found : response :=
  respond 404 [("error", VStr "Product not found")].

Definition invalid_credentials : response :=
  respond 401 [("error", VStr "Invalid credentials")].

(** The cells a bulk scan writes for one barcode at time [stamp], and the
    request it sends. *)
Definition bulk_row (JSON_stringify : value -> string)
  (lookupOpenFoodFacts lookupUPCItemDB lookupBarcodeLookup : value -> value)
  (req : request) (stamp : string) (barcode : value) : obj :=
  bulk_fields JSON_stringify req barcode
    (bulk_productData lookupOpenFoodFacts lookupUPCItemDB
       lookupBarcodeLookup barcode)
    (VStr stamp).

Definition bulk_call (JSON_stringify : value -> string)
  (lookupOpenFoodFacts lookupUPCItemDB lookupBarcodeLookup : value -> value)
  (req : request) (stamp : string) (barcode : value) : call :=
  Create PRODUCTS
    (bulk_row JSON_stringify lookupOpenFoodFacts lookupUPCItemDB
       lookupBarcodeLookup req stamp barcode).

(** What the loop of a bulk scan has done once it is through [items],
    writing [row b] for barcode [b]: [saved] are the results pushed and
    [created] the records added to Products. *)
Record bulk_done (row : value -> obj) (items : list value) (w w' : world)
  (saved : list value) (created : list rec) : Prop := {
  done_saved : length saved = length (saved_items items (faults w));
  done_calls :
    calls w' = calls w ++ map (fun b => Create PRODUCTS (row b)) items;
  done_clock : clock w' = clock w;
  done_faults : faults w' = skipn (length items) (faults w);
  done_products : tables w' PRODUCTS = tables w PRODUCTS ++ created;
  done_rows : map fields created = map row (saved_items items (faults w))
}.

(** The product records carrying barcode [b]. *)
Definition with_barcode (b : string) (w : world) : list rec :=
  lookup PRODUCTS "Barcode" (VStr b) w.

End Server.

(* ================================================================== *)
(** * Sample requests against a small base *)
(* ================================================================== *)

Module ServerSamples.
Import Server.

Definition sample_jwt_verify (token : value) : outcome value :=
  if strict_eq_str token "good-token"
  then Ok (VObj [("id", VStr "recU1"); ("email", VStr "ann@example.com")])
  else if strict_eq_str token "stale-token"
  then Ok (VObj [("id", VStr "recU9"); ("email", VStr "gone@example.com")])
  else Throw "jwt malformed".

Definition sample_jwt_sign (payload : obj) (issued : value) : string :=
  "signed at " ++ to_str issued.

Definition sample_bcrypt_compare (password hash : value) : outcome bool :=
  match password, hash with
  | VStr p, VStr h => Ok (String.eqb ("hash:" ++ p) h)
  | _, _ => Throw "Illegal arguments"
  end.

Definition sample_parse (v : value) : value :=
  match v with
  | VNum n => VNum n
  | _ => VNaN
  end.

Definition sample_stringify (v : value) : string := "{}".
Definition sample_provider (barcode : value) : value := VNull.

Definition ann : rec :=
  {| rec_id := "recU1";
     fields := [("Email", VStr "ann@example.com");
                ("Password", VStr "hash:secret");
                ("Name", VStr "Ann");
                ("Role", VStr "staff");
                ("TotalScans", VNum 4);
                ("LastActive", VStr "2024-04-30T09:00:00.000Z")] |}.

Definition lamp : rec :=
  {| rec_id := "recP1";
     fields := [("Barcode", VStr "0123456789012");
                ("Name", VStr "Desk lamp");
                ("Status", VStr "pending");
                ("ScannedAt", VStr "2024-04-30T09:00:00.000Z")] |}.

(** A base with one user and one product, about to meet the failures
    [fs]. *)
Definition sample_world (fs : list (option string)) : world :=
  {| tables := fun n =>
       if String.eqb n USERS then [ann]
       else if String.eqb n PRODUCTS then [lamp]
       else [];
     next_id := 2;
     faults := fs;
     calls := [];
     console := [];
     clock := "2024-05-01T12:00:00.000Z" |}.

(** A request about [barcode], as it reaches a handler behind
    [authenticateToken] with Ann's token. *)
Definition scan_request (barcode : string) : request :=
  {| headers := [("authorization", VStr "Bearer good-token")];
     query := [];
     params := [("barcode", VStr barcode)];
     body := [("barcode", VStr barcode); ("name", VStr "Desk lamp")];
     protocol := "https"; host := VStr "scanner.example.com";
     file := VUndefined;
     user := found ann |}.

Definition bulk_request (barcodes : list string) : request :=
  {| headers := [("authorization", VStr "Bearer good-token")];
     query := [];
     params := [];
     body := [("barcodes", VArr (map VStr barcodes))];
     protocol := "https"; host := VStr "scanner.example.com";
     file := VUndefined;
     user := found ann |}.

Definition login_request (email password : string) : request :=
  {| headers := [];
     query := [];
     params := [];
     body := [("email", VStr email); ("password", VStr password)];
     protocol := "https"; host := VStr "scanner.example.com";
     file := VUndefined;
     user := VUndefined |}.

(** A login that carries no password. *)
Definition login_without_password (email : string) : request :=
  {| headers := [];
     query := [];
     params := [];
     body := [("email", VStr email)];
     protocol := "https"; host := VStr "scanner.example.com";
     file := VUndefined;
     user := VUndefined |}.

Definition bare_request (authorization : obj) : request :=
  {| headers := authorization;
     query := [];
     params := [("barcode", VStr "0123456789012")];
     body := [];
     protocol := "https"; host := VStr "scanner.example.com";
     file := VUndefined;
     user := VUndefined |}.

Definition sample_bcrypt_hash (password : value) (rounds : nat)
  : outcome string :=
  match password with
  | VStr p => Ok ("hash:" ++ p)%string
  | _ => Throw "Illegal arguments"
  end.

Definition sample_start_of_day (stamp : string) : string :=
  String.substring 0 10 stamp ++ "T00:00:00.000Z".

(** The application with the sample libraries plugged in. *)
Definition sample_app : list endpoint :=
  app sample_jwt_sign sample_bcrypt_hash
    sample_bcrypt_compare sample_start_of_day sample_parse sample_parse
    sample_stringify sample_provider sample_provider sample_provider.

(** GET /api/products/:barcode, the fifth registration. *)
Definition product_route : endpoint :=
  nth 4 sample_app
    {| method := GET; path := ""; guarded := false; prints := None;
       try_body := fun _ => throw ""; run := get_product |}.

(** GET /api/stats, the ninth registration. *)
Definition stats_route : endpoint :=
  nth 8 sample_app
    {| method := GET; path := ""; guarded := false; prints := None;
       try_body := fun _ => throw ""; run := get_product |}.

End ServerSamples.

(* ================================================================== *)
(** * Further vocabulary for the automation script *)
(* ================================================================== *)

Module SyncMore.
Import Sync.

(** The values a run gives to the output variable [key]. *)
Definition outputs (key : string) (l : list effect) : list string :=
  flat_map (fun x => match x with
                     | OutputSet k v => if String.eqb k key then [v] else []
                     | _ => []
                     end) l.

Definition statuses (l : list effect) : list string := outputs "status" l.

(** A product whose sync timestamp cell holds text that is no date. *)
Definition garbled_record : record :=
  {| id := "recA2";
     getCellValue := fun f =>
       if String.eqb f "Last WooCommerce Sync" then VStr "yesterday"
       else VNull;
     getCellValueAsString := fun f => "" |}.

(** A product whose sync timestamp cell holds a number beyond the range
    of dates. *)
Definition far_record : record :=
  {| id := "recA3";
     getCellValue := fun f =>
       if String.eqb f "Last WooCommerce Sync" then VNum (10 ^ 16)
       else VNull;
     getCellValueAsString := fun f => "" |}.

End SyncMore.

(* ================================================================== *)
(** * Further vocabulary for the backend *)
(* ================================================================== *)

Module ServerMore.
Import Server.

(** ** What a run leaves behind *)

(** A property of the state after a computation, relative to the state
    before, whatever the computation returns or throws. *)
Definition holds {A} (Q : world -> world -> Prop) (m : M A) : Prop :=
  forall w, Q w (snd (m w)).

(** A relation between the tables before and after, as a relation between
    states. *)
Definition related
  (Rt : (string -> list rec) -> (string -> list rec) -> Prop)
  (w w' : world) : Prop :=
  Rt (tables w) (tables w').

(** The ids of the records of a table, in order. *)
Definition ids (rs : list rec) : list string := map rec_id rs.

(** Table [t] is the same after as before. *)
Definition untouched (t : string) (w w' : world) : Prop :=
  tables w' t = tables w t.

(** Every record of every table is still there after, under the same id
    and at the same place; records may have been added. *)
Definition keeps_records (w w' : world) : Prop :=
  forall t, exists added, ids (tables w' t) = ids (tables w t) ++ added.

(** What identifies a user and lets them in. *)
Definition credentials (r : rec) : string * value * value :=
  (rec_id r, obj_get "Email" (fields r), obj_get "Password" (fields r)).

(** The footprint of a route, read off its handler: the tables it may add
    a record to, those it may write over a record of, those it may delete
    from. *)
Definition creates (e : endpoint) : list string :=
  match method e, path e with
  | POST, "/api/auth/register" => [USERS]
  | POST, "/api/products" => [PRODUCTS; SCAN_HISTORY]
  | DELETE, "/api/products/:barcode" => [SCAN_HISTORY]
  | POST, "/api/products/bulk" => [PRODUCTS]
  | POST, "/api/settings" => [SETTINGS]
  | _, _ => []
  end.

Definition updates (e : endpoint) : list string :=
  match method e, path e with
  | POST, "/api/auth/login" => [USERS]
  | POST, "/api/products" => [PRODUCTS; USERS]
  | POST, "/api/products/:barcode/image" => [PRODUCTS]
  | POST, "/api/settings" => [SETTINGS]
  | _, _ => []
  end.

Definition deletes (e : endpoint) : list string :=
  match method e, path e with
  | DELETE, "/api/products/:barcode" => [PRODUCTS]
  | _, _ => []
  end.

Definition writes (e : endpoint) : list string :=
  creates e ++ updates e ++ deletes e.

(** The cells of a stored user the routes write over. *)
Definition user_cells : list string := ["TotalScans"; "LastActive"].

Definition is_delete (e : endpoint) : bool :=
  match method e with
  | DELETE => true
  | _ => false
  end.

(** A word: a string without a space. *)
Fixpoint no_space (s : string) : bool :=
  match s with
  | EmptyString => true
  | String c s' => negb (Ascii.eqb c " ") && no_space s'
  end.

(** A text that stands for itself between the quotes of a filter formula:
    it holds no quote, which would end the literal, and no backslash,
    which would escape what follows. The source interpolates the values
    it looks up into the formula text as they are; for a plain value the
    formula is the comparison [field_equals] stands for. *)
Fixpoint plain (s : string) : bool :=
  match s with
  | EmptyString => true
  | String c s' =>
      negb (Ascii.eqb c "'") && negb (Ascii.eqb c "\") && plain s'
  end.

(** The same base at another time. *)
Definition at_time (stamp : string) (w : world) : world :=
  {| tables := tables w; next_id := next_id w; faults := faults w;
     calls := calls w; console := console w; clock := stamp |}.

(** ** What the routes store *)

(** The cells of the user record a registration creates, for the password
    hash [h] at time [stamp]. *)
Definition account_cells (req : request) (h stamp : string) : obj :=
  [("Email", obj_get "email" (body req));
   ("Password", VStr h);
   ("Name", obj_get "name" (body req));
   ("Role", VStr "staff");
   ("CreatedAt", VStr stamp);
   ("TotalScans", VNum 0);
   ("LastActive", VStr stamp)].

Definition account (rid : string) (req : request) (h stamp : string) : rec :=
  {| rec_id := rid; fields := account_cells req h stamp |}.

(** A stored record has no cell named id (Airtable keeps the record id
    apart from the cells). *)
Definition no_id_cell (r : rec) : Prop :=
  existsb (String.eqb "id") (map fst (fields r)) = false.

(** The ScanHistory cells that record a deletion asked by [req] at time
    [stamp]. *)
Definition deletion_cells (req : request) (stamp : string) : obj :=
  [("User", VArr [prop (user req) "id"]);
   ("Barcode", obj_get "barcode" (params req));
   ("Action", VStr "delete");
   ("Timestamp", VStr stamp);
   ("UserEmail", prop (user req) "Email")].

(** The record belongs to the user of the request: its cell [field] reads
    as the e-mail of [req.user]. *)
Definition owned_by (field : string) (req : request) (r : rec) : Prop :=
  cell_text (obj_get field (fields r)) = to_str (prop (user req) "Email").

(** ** What a route answers *)

(** A property of the response of a computation, when it returns one. *)
Definition answers (P : response -> Prop) (m : M response) : Prop :=
  forall w, match fst (m w) with
            | Ok r => P r
            | Throw _ => True
            end.

(** The statuses, other than 200 and 500, a handler answers itself. *)
Definition refusals (e : endpoint) : list nat :=
  match method e, path e with
  | POST, "/api/auth/register" => [400%nat]
  | POST, "/api/auth/login" => [401%nat]
  | GET, "/api/products/:barcode" => [404%nat]
  | POST, "/api/products/:barcode/image" => [404%nat]
  | DELETE, "/api/products/:barcode" => [404%nat]
  | _, _ => []
  end.

(** The statuses of a route, 200 apart: those of its handler, 500 from
    its [catch], 401 and 403 from [authenticateToken] before it. *)
Definition failure_statuses (e : endpoint) : list nat :=
  500%nat :: refusals e ++ (if guarded e then [401%nat; 403%nat] else []).

(** The body of the response is [{ error: message }]. *)
Definition is_error (r : response) : Prop :=
  exists message, payload r = VObj [("error", VStr message)].

Definition well_answered (codes : list nat) (r : response) : Prop :=
  status r = 200%nat \/ (In (status r) codes /\ is_error r).

End ServerMore.

(* ================================================================== *)
(** * Further sample requests *)
(* ================================================================== *)

Module MoreSamples.
Import Server ServerSamples ServerMore.

Definition no_route : endpoint :=
  {| method := GET; path := ""; guarded := false; prints := None;
     try_body := fun _ => throw ""; run := fun _ w => (json VNull, w) |}.

(** POST /api/auth/login and POST /api/products, the second and the sixth
    registration. *)
Definition login_route : endpoint := nth 1 sample_app no_route.
Definition scan_route : endpoint := nth 5 sample_app no_route.

(** A registration of Bob, who is not in the sample base. *)
Definition bob_request : request :=
  {| headers := [];
     query := [];
     params := [];
     body := [("email", VStr "bob@example.com");
              ("password", VStr "hunter2");
              ("name", VStr "Bob")];
     protocol := "https"; host := VStr "scanner.example.com";
     file := VUndefined;
     user := VUndefined |}.

(** Ann scanning a lamp under somebody else's name. *)
Definition spoofed_scan : request :=
  {| headers := [("authorization", VStr "Bearer good-token")];
     query := [];
     params := [];
     body := [("barcode", VStr "0123456789012");
              ("ScannedByEmail", VStr "mallory@example.com")];
     protocol := "https"; host := VStr "scanner.example.com";
     file := VUndefined;
     user := found ann |}.

(** Ann uploading a picture of the lamp, as the upload middleware hands
    the request over. *)
Definition upload_request : request :=
  {| headers := [("authorization", VStr "Bearer good-token")];
     query := [];
     params := [("barcode", VStr "0123456789012")];
     body := [];
     protocol := "https"; host := VStr "scanner.example.com";
     file := VObj [("filename", VStr "image-1714564800000.jpg")];
     user := found ann |}.

(** Ann asking for page [page] of her scan history. *)
Definition history_request (page : Z) : request :=
  {| headers := [("authorization", VStr "Bearer good-token")];
     query := [("page", VNum page)];
     params := [];
     body := [];
     protocol := "https"; host := VStr "scanner.example.com";
     file := VUndefined;
     user := found ann |}.

(** The sample base once Ann has scanned the lamp and saved settings. *)
Definition ann_scan : rec :=
  {| rec_id := "recH1";
     fields := [("Barcode", VStr "0123456789012");
                ("Action", VStr "scan");
                ("Timestamp", VStr "2024-04-30T09:00:00.000Z");
                ("UserEmail", VStr "ann@example.com")] |}.

Definition ann_settings : rec :=
  {| rec_id := "recS1";
     fields := [("scanSound", VBool false);
                ("UserEmail", VStr "ann@example.com")] |}.

Definition busy_world : world :=
  {| tables := fun n =>
       if String.eqb n SCAN_HISTORY then [ann_scan]
       else if String.eqb n SETTINGS then [ann_settings]
       else tables (sample_world []) n;
     next_id := 2;
     faults := [];
     calls := [];
     console := [];
     clock := "2024-05-01T12:00:00.000Z" |}.

End MoreSamples.

(* ================================================================== *)
(** * Facts about JavaScript values *)
(* ================================================================== *)

Module JSFacts.

Lemma strict_eq_str_true v s : strict_eq_str v s = true <-> v = VStr s.
Proof.
  destruct v; simpl; split; intro H; try discriminate.
  - apply String.eqb_eq in H. now subst.
  - injection H as ->. apply String.eqb_refl.
Qed.

Lemma obj_get_set_same k v o : obj_get k (obj_set k v o) = v.
Proof.
  induction o as [|[k' v'] o IH]; simpl.
  - now rewrite String.eqb_refl.
  - destruct (String.eqb k k') eqn:E; simpl; rewrite E; auto.
Qed.

Lemma obj_get_set_other k k' v o :
  k <> k' -> obj_get k (obj_set k' v o) = obj_get k o.
Proof.
  intros Hne. induction o as [|[k2 v2] o IH]; simpl.
  - destruct (String.eqb k k') eqn:E; auto.
    apply String.eqb_eq in E. contradiction.
  - destruct (String.eqb k' k2) eqn:E2; simpl.
    + apply String.eqb_eq in E2. subst k2.
      destruct (String.eqb k k') eqn:E; auto.
      apply String.eqb_eq in E. contradiction.
    + destruct (String.eqb k k2); auto.
Qed.

Lemma obj_get_absent k (o : obj) :
  existsb (String.eqb k) (map fst o) = false -> obj_get k o = VUndefined.
Proof.
  induction o as [|[k' v'] o IH]; simpl; [reflexivity|].
  destruct (String.eqb k k'); simpl; [discriminate | exact IH].
Qed.

(** Reading a spread: the right operand wins where it has the property. *)
Lemma obj_get_spread k (b : obj) :
  forall a : obj,
    NoDup (map fst b) ->
    obj_get k (spread a b) =
      if existsb (String.eqb k) (map fst b) then obj_get k b else obj_get k a.
Proof.
  unfold spread.
  induction b as [|[k1 v1] b IH]; intros a Hnd; simpl; [reflexivity|].
  inversion Hnd as [|? ? Hnotin Hnd']; subst.
  rewrite (IH _ Hnd'). simpl.
  destruct (String.eqb_spec k k1) as [->|Hne]; simpl.
  - replace (existsb (String.eqb k1) (map fst b)) with false.
    + apply obj_get_set_same.
    + symmetry. apply not_true_is_false. intros H.
      apply existsb_exists in H. destruct H as [x [Hin Hx]].
      apply String.eqb_eq in Hx. subst x. contradiction.
  - destruct (existsb (String.eqb k) (map fst b)); [reflexivity|].
    now apply obj_get_set_other.
Qed.

End JSFacts.

(* ================================================================== *)
(** * The loop-suppression policy of the automation script *)
(* ================================================================== *)

Module SyncFacts.
Import Sync SyncSamples.

Section Policy.

Variable JSON_stringify : value -> string.
Variable Date_parse : string -> option Z.
Variable toFixed : Q -> nat -> string.

Local Abbreviation shouldSync := (Sync.shouldSync Date_parse toFixed).
Local Abbreviation main := (Sync.main JSON_stringify Date_parse toFixed).
Local Abbreviation new_Date := (Sync.new_Date Date_parse).
Local Abbreviation recent := (Sync.synced_within_a_minute Date_parse).
Local Abbreviation webhook_request := (Sync.webhook_request JSON_stringify).

(** Dividing a millisecond difference by [1000 * 60] and comparing with
    the threshold is comparing the difference with 60000. *)
Lemma minutes_lt_threshold (d : Z) :
  number_lt (number_div (Some (inject_Z d)) (inject_Z (1000 * 60)))
            SYNC_THRESHOLD_MINUTES
  = (d <? 60000)%Z.
Proof.
  unfold number_lt, number_div, SYNC_THRESHOLD_MINUTES, Qle_bool, Qdiv,
    Qmult, Qinv, inject_Z.
  simpl.
  destruct (Z.leb_spec 60000 (d * 1 * 1)); destruct (Z.ltb_spec d 60000);
    simpl; auto; lia.
Qed.

Lemma below_threshold_iff (now_ms : Z) (v : value) :
  number_lt (minutesSinceSync_of Date_parse now_ms v) SYNC_THRESHOLD_MINUTES
  = true
  <-> exists t, new_Date v = Some t /\ (now_ms - t < 60000)%Z.
Proof.
  unfold minutesSinceSync_of, date_sub.
  destruct (new_Date v) as [t|].
  - rewrite minutes_lt_threshold. rewrite Z.ltb_lt. split.
    + intro H. now exists t.
    + intros [t' [E H]]. now injection E as ->.
  - simpl. split; [discriminate | intros [t [E _]]; discriminate].
Qed.

(** The decision on anything but a create event. *)
Lemma shouldSync_not_create (tt : value) (now_ms : Z) (r : record) :
  strict_eq_str tt "create" = false ->
  (recent now_ms r -> snd (shouldSync tt now_ms r) = false) /\
  (~ recent now_ms r -> snd (shouldSync tt now_ms r) = true).
Proof.
  intros Hc. unfold Sync.shouldSync, synced_within_a_minute, last_sync.
  rewrite Hc.
  destruct (truthy (getCellValue r "Last WooCommerce Sync")) eqn:Ht.
  - destruct (number_lt _ _) eqn:Hlt; simpl.
    + split; auto. intros Hn. exfalso. apply Hn. split; auto.
      now apply below_threshold_iff.
    + split; auto. intros [_ Hex]. apply below_threshold_iff in Hex.
      congruence.
  - simpl. split; auto. intros [Hf _]. discriminate.
Qed.

Lemma shouldSync_create (now_ms : Z) (r : record) :
  shouldSync (VStr "create") now_ms r = ([], true).
Proof. reflexivity. Qed.

Lemma posts_app (a b : list effect) : posts (a ++ b) = posts a ++ posts b.
Proof. unfold posts. apply flat_map_app. Qed.

Lemma posts_after_fetch (o : fetch_outcome) :
  posts (after_fetch JSON_stringify o) = [].
Proof. destruct o as [[?|?]|?|?]; reflexivity. Qed.

Lemma posts_logged (tt : value) (now_ms : Z) (r : record) :
  posts (fst (shouldSync tt now_ms r)) = [].
Proof.
  unfold Sync.shouldSync.
  destruct (strict_eq_str tt "create"); [reflexivity|].
  destruct (truthy _); [|reflexivity].
  destruct (number_lt _ _); reflexivity.
Qed.

(** What a run sends, by the decision of [shouldSync]. *)
Lemma posts_main (e : env) (tt : string) (r : record) :
  event_of e tt r ->
  posts (main e) =
    if snd (shouldSync (VStr tt) (now e) r)
    then [webhook_request (webhookData (VStr tt) (base_id e) r)]
    else [].
Proof.
  intros (Ht & Hid & Hsel). unfold Sync.main.
  rewrite Hid, Hsel, Ht.
  pose proof (posts_logged (VStr tt) (now e) r) as Hl.
  destruct (shouldSync (VStr tt) (now e) r) as [logged [|]]; simpl in *;
    rewrite posts_app, Hl; simpl.
  - now rewrite posts_after_fetch.
  - reflexivity.
Qed.

(** C1 (as amended). An update event whose record is found is suppressed
    (shouldSync answers false and no webhook is posted) exactly when the
    record's Last WooCommerce Sync is set and less than one minute old, and
    is forwarded with one POST otherwise; a create event is always
    forwarded, whatever the timestamp. *)
Theorem echo_suppression_threshold (e : env) (tt : string) (r : record) :
  event_of e tt r ->
  (tt = "create" ->
     snd (shouldSync (VStr tt) (now e) r) = true /\
     length (posts (main e)) = 1%nat) /\
  (tt = "update" ->
     (recent (now e) r ->
        snd (shouldSync (VStr tt) (now e) r) = false /\ posts (main e) = []) /\
     (~ recent (now e) r ->
        snd (shouldSync (VStr tt) (now e) r) = true /\
        length (posts (main e)) = 1%nat)).
Proof.
  intros Hev. pose proof (posts_main e tt r Hev) as Hp. split.
  - intros ->. rewrite Hp. now rewrite shouldSync_create.
  - intros ->.
    destruct (shouldSync_not_create (VStr "update") (now e) r eq_refl)
      as [Hyes Hno].
    split; intros H.
    + rewrite Hp, (Hyes H). auto.
    + rewrite Hp, (Hno H). auto.
Qed.

(** C2. A run that is not suppressed posts exactly once, to the webhook
    URL, with the shared secret in X-Airtable-Signature and the envelope
    {type, base:{id}, record:{id, fields?}} as body: type is
    'record.' + triggerType + 'd', record.id is the record's id, and
    record.fields (Product Name, SKU, Stock Quantity) is there exactly when
    the trigger type is not 'delete'. *)
Theorem webhook_post_envelope (e : env) (tt : string) (r : record) :
  event_of e tt r ->
  snd (shouldSync (VStr tt) (now e) r) = true ->
  exists record_part : obj,
    posts (main e) =
      [ {| url := WEBHOOK_URL;
           method := "POST";
           headers := [("Content-Type", "application/json");
                       ("X-Airtable-Signature", WEBHOOK_SECRET)];
           body := JSON_stringify
                     (VObj [("type", VStr ("record." ++ tt ++ "d"));
                            ("base", VObj [("id", VStr (base_id e))]);
                            ("record", VObj record_part)]) |} ] /\
    obj_get "id" record_part = VStr (id r) /\
    (tt = "delete" -> record_part = [("id", VStr (id r))]) /\
    (tt <> "delete" ->
       record_part =
         [("id", VStr (id r));
          ("fields",
           VObj [("Product Name", VStr (getCellValueAsString r "Product Name"));
                 ("SKU", VStr (getCellValueAsString r "SKU"));
                 ("Stock Quantity", getCellValue r "Stock Quantity")])]) /\
    (obj_get "fields" record_part <> VUndefined <-> tt <> "delete").
Proof.
  intros Hev Hs. rewrite (posts_main e tt r Hev), Hs.
  unfold Sync.webhook_request, webhookData. simpl.
  destruct (String.eqb_spec tt "delete") as [->|Hne]; simpl.
  - eexists. split; [reflexivity|]. simpl.
    split; [reflexivity|]. split; [reflexivity|].
    split; [intros H; now elim H|].
    split; intros H; [now elim H | intros _; now apply H].
  - eexists. split; [reflexivity|]. simpl.
    split; [reflexivity|]. split; [intros E; now elim Hne|].
    split; [reflexivity|].
    split; [intros _; exact Hne | intros _; discriminate].
Qed.

(** C3. The decision on an update event is a function of the record's
    Last WooCommerce Sync value and of the current time alone: two changes
    to records with the same value get the same decision at the same time,
    whatever fields changed and whoever changed them. So the run triggered
    by a human edit less than a minute after a sync is suppressed, nothing
    being posted to the webhook, and the run triggered by an echo whose
    sync timestamp is more than a minute old forwards it with one POST. *)
Theorem suppression_ignores_origin :
  (forall (c1 c2 : change) (now_ms : Z),
     last_sync (changed_record c1) = last_sync (changed_record c2) ->
     decide_update Date_parse toFixed c1 now_ms
     = decide_update Date_parse toFixed c2 now_ms) /\
  (forall (c : change) (e : env),
     changed_by c = HumanEdit ->
     event_of e "update" (changed_record c) ->
     recent (now e) (changed_record c) ->
     snd (decide_update Date_parse toFixed c (now e)) = false /\
     posts (main e) = []) /\
  (forall (c : change) (e : env) (t : Z),
     changed_by c = WooCommerceEcho ->
     event_of e "update" (changed_record c) ->
     new_Date (last_sync (changed_record c)) = Some t ->
     (now e - t > 60000)%Z ->
     snd (decide_update Date_parse toFixed c (now e)) = true /\
     length (posts (main e)) = 1%nat).
Proof.
  split; [|split].
  - intros c1 c2 now_ms H. unfold decide_update, Sync.shouldSync. simpl.
    unfold last_sync in H. now rewrite H.
  - intros c e _ Hev H. unfold decide_update.
    destruct (shouldSync_not_create (VStr "update") (now e)
                (changed_record c) eq_refl) as [Hyes _].
    rewrite (posts_main e "update" _ Hev), (Hyes H). split; reflexivity.
  - intros c e t _ Hev Ht Hold. unfold decide_update.
    destruct (shouldSync_not_create (VStr "update") (now e)
                (changed_record c) eq_refl) as [_ Hno].
    assert (Hforward :
              snd (shouldSync (VStr "update") (now e) (changed_record c))
              = true).
    { apply Hno. intros [_ [t' [Ht' Hlt]]].
      rewrite Ht in Ht'. injection Ht' as <-. lia. }
    rewrite (posts_main e "update" _ Hev), Hforward. split; reflexivity.
Qed.

End Policy.

(** ** The theorems at the sample runs *)

Lemma sample_event (tt : string) (d : Z) :
  event_of (sample_env tt d) tt sample_record.
Proof. repeat split. Qed.

Lemma sample_recent (d : Z) :
  (d < 60000)%Z ->
  synced_within_a_minute sample_Date_parse (sample_sync_ms + d) sample_record.
Proof.
  intros H. split; [reflexivity|].
  exists sample_sync_ms. split; [reflexivity|lia].
Qed.

Lemma echo_suppression_threshold_witness :
  event_of (sample_env "update" 10000) "update" sample_record /\
  snd (shouldSync sample_Date_parse sample_toFixed (VStr "update")
         (now (sample_env "update" 10000)) sample_record) = false /\
  posts (main sample_stringify sample_Date_parse sample_toFixed
           (sample_env "update" 10000)) = [].
Proof.
  split; [apply sample_event|].
  apply (echo_suppression_threshold sample_stringify sample_Date_parse
           sample_toFixed (sample_env "update" 10000) "update" sample_record
           (sample_event "update" 10000)).
  - reflexivity.
  - apply sample_recent. lia.
Defined.

(** C1 as stated fails: a create event on a record synced ten seconds ago
    is forwarded, although its timestamp is set and less than a minute
    old. *)
Lemma create_event_ignores_threshold :
  ~ (forall (e : env) (tt : string) (r : record),
       tt = "create" \/ tt = "update" ->
       event_of e tt r ->
       (snd (shouldSync sample_Date_parse sample_toFixed (VStr tt) (now e) r)
        = false /\
        posts (main sample_stringify sample_Date_parse sample_toFixed e) = []
        <-> synced_within_a_minute sample_Date_parse (now e) r)).
Proof.
  intros H.
  destruct (H (sample_env "create" 10000) "create" sample_record
              (or_introl eq_refl) (sample_event "create" 10000)) as [_ Hback].
  destruct Hback as [Hs _]; [apply sample_recent; lia|].
  discriminate Hs.
Qed.

Lemma webhook_post_envelope_witness :
  event_of (sample_env "update" 90000) "update" sample_record /\
  snd (shouldSync sample_Date_parse sample_toFixed (VStr "update")
         (now (sample_env "update" 90000)) sample_record) = true /\
  exists record_part : obj,
    posts (main sample_stringify sample_Date_parse sample_toFixed
             (sample_env "update" 90000)) =
      [ {| url := WEBHOOK_URL;
           method := "POST";
           headers := [("Content-Type", "application/json");
                       ("X-Airtable-Signature", WEBHOOK_SECRET)];
           body := sample_stringify
                     (VObj [("type", VStr "record.updated");
                            ("base", VObj [("id", VStr "appB1")]);
                            ("record", VObj record_part)]) |} ] /\
    obj_get "id" record_part = VStr "recA1".
Proof.
  split; [apply sample_event|]. split; [reflexivity|].
  destruct (webhook_post_envelope sample_stringify sample_Date_parse
              sample_toFixed (sample_env "update" 90000) "update"
              sample_record (sample_event "update" 90000) eq_refl)
    as [record_part [Hposts [Hid _]]].
  exists record_part. split; [exact Hposts | exact Hid].
Defined.

Lemma suppression_ignores_origin_witness :
  changed_by (sample_change HumanEdit) = HumanEdit /\
  event_of (sample_env "update" 10000) "update"
    (changed_record (sample_change HumanEdit)) /\
  synced_within_a_minute sample_Date_parse (now (sample_env "update" 10000))
    (changed_record (sample_change HumanEdit)) /\
  snd (decide_update sample_Date_parse sample_toFixed
         (sample_change HumanEdit) (now (sample_env "update" 10000)))
  = false /\
  posts (main sample_stringify sample_Date_parse sample_toFixed
           (sample_env "update" 10000)) = [] /\
  changed_by (sample_change WooCommerceEcho) = WooCommerceEcho /\
  event_of (sample_env "update" 90000) "update"
    (changed_record (sample_change WooCommerceEcho)) /\
  (now (sample_env "update" 90000) - sample_sync_ms > 60000)%Z /\
  snd (decide_update sample_Date_parse sample_toFixed
         (sample_change WooCommerceEcho) (now (sample_env "update" 90000)))
  = true /\
  length (posts (main sample_stringify sample_Date_parse sample_toFixed
                   (sample_env "update" 90000))) = 1%nat /\
  decide_update sample_Date_parse sample_toFixed
    (sample_change HumanEdit) (sample_sync_ms + 10000)
  = decide_update sample_Date_parse sample_toFixed
      (sample_change WooCommerceEcho) (sample_sync_ms + 10000).
Proof.
  destruct (suppression_ignores_origin sample_stringify sample_Date_parse
              sample_toFixed) as [Hsame [Hhuman Hecho]].
  assert (Hrecent :
            synced_within_a_minute sample_Date_parse
              (now (sample_env "update" 10000))
              (changed_record (sample_change HumanEdit)))
    by (apply sample_recent; lia).
  assert (Hold : (now (sample_env "update" 90000) - sample_sync_ms
                  > 60000)%Z) by (simpl; lia).
  destruct (Hhuman (sample_change HumanEdit) (sample_env "update" 10000)
              eq_refl (sample_event "update" 10000) Hrecent)
    as [Hskip Hnone].
  destruct (Hecho (sample_change WooCommerceEcho) (sample_env "update" 90000)
              sample_sync_ms eq_refl (sample_event "update" 90000) eq_refl
              Hold)
    as [Hsend Hone].
  split; [reflexivity|].
  split; [apply sample_event|].
  split; [exact Hrecent|].
  split; [exact Hskip|].
  split; [exact Hnone|].
  split; [reflexivity|].
  split; [apply sample_event|].
  split; [exact Hold|].
  split; [exact Hsend|].
  split; [exact Hone|].
  apply Hsame. reflexivity.
Defined.

End SyncFacts.

(* ================================================================== *)
(** * The backend: lookups, authentication, product writes *)
(* ================================================================== *)

Module ServerFacts.
Import Server ServerSamples.
Local Open Scope js_scope.

(** ** One step of each Airtable helper *)

Lemma api_step {A} (c : call) (run : M A) (w : world) :
  api c run w =
    match next_fault w with
    | Some message => (Throw message, after_call c w)
    | None => run (after_call c w)
    end.
Proof.
  unfold api, next_fault, after_call.
  destruct (faults w) as [|[message|] rest]; reflexivity.
Qed.

Lemma selected_find_query (f : string) (v : value) (rs : list rec) :
  selected (find_query f v) rs = matching (field_equals f v) rs.
Proof. unfold selected. simpl. apply map_id. Qed.

Lemma findRecordByField_step (t f : string) (v : value) (w : world) :
  findRecordByField t f v w =
    match next_fault w with
    | Some message =>
        (Ok VNull,
         console_error ("Error finding record in " ++ t ++ ": " ++ message)
           (after_call (Select t (find_query f v)) w))
    | None =>
        (Ok (match lookup t f v w with
             | r :: _ => found r
             | [] => VNull
             end),
         after_call (Select t (find_query f v)) w)
    end.
Proof.
  unfold findRecordByField, try_catch, bind, firstPage.
  rewrite api_step. destruct (next_fault w); [reflexivity|].
  unfold lookup, lift. cbn [limit_of find_query maxRecords pageSize Z.leb].
  simpl. rewrite selected_find_query.
  destruct (matching (field_equals f v) (tables w t)); reflexivity.
Qed.

Lemma createRecord_step (t : string) (f : obj) (w : world) :
  createRecord t f w =
    match next_fault w with
    | Some message =>
        (Throw message,
         console_error ("Error creating record in " ++ t ++ ": " ++ message)
           (after_call (Create t f) w))
    | None =>
        let r := {| rec_id := fresh_id (next_id w); fields := f |} in
        (Ok (cleanRecord r),
         set_tables t (tables w t ++ [r]) (bump_id (after_call (Create t f) w)))
    end.
Proof.
  unfold createRecord, try_catch, bind, create.
  rewrite api_step. destruct (next_fault w); reflexivity.
Qed.

Lemma updateRecord_step (t : string) (rid : value) (f : obj) (w : world) :
  updateRecord t rid f w =
    match next_fault w with
    | Some message =>
        (Throw message,
         console_error ("Error updating record in " ++ t ++ ": " ++ message)
           (after_call (Update t rid f) w))
    | None =>
        match find (has_id rid) (tables w t) with
        | Some r =>
            let r' := {| rec_id := rec_id r; fields := spread (fields r) f |} in
            (Ok (cleanRecord r'),
             set_tables t (map (fun x => if has_id rid x then r' else x)
                             (tables w t))
               (after_call (Update t rid f) w))
        | None =>
            (Throw "Record not found",
             console_error
               ("Error updating record in " ++ t ++ ": Record not found")
               (after_call (Update t rid f) w))
        end
    end.
Proof.
  unfold updateRecord, try_catch, bind, update.
  rewrite api_step. destruct (next_fault w); [reflexivity|]. simpl.
  destruct (find (has_id rid) (tables w t)); reflexivity.
Qed.

Lemma found_truthy (r : rec) : truthy (found r) = true.
Proof. reflexivity. Qed.

Section Backend.

Variable jwt_verify : value -> outcome value.
Variable jwt_sign : obj -> value -> string.
Variable bcrypt_hash : value -> nat -> outcome string.
Variable bcrypt_compare : value -> value -> outcome bool.
Variable start_of_day : string -> string.
Variable parseInt : value -> value.
Variable parseFloat : value -> value.
Variable JSON_stringify : value -> string.
Variable lookupOpenFoodFacts : value -> value.
Variable lookupUPCItemDB : value -> value.
Variable lookupBarcodeLookup : value -> value.

Local Abbreviation authenticateToken := (Server.authenticateToken jwt_verify).
Local Abbreviation serve := (Server.serve jwt_verify).
Local Abbreviation login := (Server.login jwt_sign bcrypt_compare).
Local Abbreviation get_products := (Server.get_products parseInt).
Local Abbreviation post_products :=
  (Server.post_products parseInt parseFloat JSON_stringify).
Local Abbreviation app :=
  (Server.app jwt_sign bcrypt_hash bcrypt_compare start_of_day parseInt
     parseFloat JSON_stringify lookupOpenFoodFacts lookupUPCItemDB
     lookupBarcodeLookup).
Local Abbreviation bulk :=
  (Server.bulk JSON_stringify lookupOpenFoodFacts lookupUPCItemDB
     lookupBarcodeLookup).

(** ** Lookups *)

Lemma get_product_step (req : request) (w : world) :
  fst (get_product req w) =
    match next_fault w with
    | Some _ => not_found
    | None =>
        match lookup PRODUCTS "Barcode" (obj_get "barcode" (params req)) w with
        | r :: _ => json (found r)
        | [] => not_found
        end
    end.
Proof.
  unfold get_product, try_or_500, get_product_body, bind.
  rewrite findRecordByField_step.
  destruct (next_fault w); [reflexivity|].
  destruct (lookup _ _ _ w); reflexivity.
Qed.

(** C10. findRecordByField never throws: it returns null when no record
    matches and also when the Airtable query fails. GET
    /api/products/:barcode therefore answers 404 'Product not found' in both
    cases, and never answers 500. *)
Theorem lookup_failure_reads_as_not_found :
  (forall t f v w, exists r w', findRecordByField t f v w = (Ok r, w')) /\
  (forall t f v w,
     next_fault w = None -> lookup t f v w = [] ->
     fst (findRecordByField t f v w) = Ok VNull) /\
  (forall t f v w message,
     next_fault w = Some message ->
     fst (findRecordByField t f v w) = Ok VNull) /\
  (forall req w,
     next_fault w = None ->
     lookup PRODUCTS "Barcode" (obj_get "barcode" (params req)) w = [] ->
     fst (get_product req w) = not_found) /\
  (forall req w message,
     next_fault w = Some message ->
     fst (get_product req w) = not_found) /\
  (forall req w, status (fst (get_product req w)) <> 500%nat).
Proof.
  repeat split.
  - intros t f v w. rewrite findRecordByField_step.
    destruct (next_fault w); eauto.
  - intros t f v w Hf Hl. rewrite findRecordByField_step, Hf, Hl. reflexivity.
  - intros t f v w message Hf. rewrite findRecordByField_step, Hf. reflexivity.
  - intros req w Hf Hl. rewrite get_product_step, Hf, Hl. reflexivity.
  - intros req w message Hf. rewrite get_product_step, Hf. reflexivity.
  - intros req w. rewrite get_product_step.
    destruct (next_fault w); [discriminate|].
    destruct (lookup _ _ _ w); discriminate.
Qed.

(** ** Authentication *)

Lemma non_auth_routes_guarded (e : endpoint) :
  In e app -> is_auth_route e = false -> guarded e = true.
Proof.
  unfold Server.app. simpl.
  intros H Hp.
  repeat (destruct H as [<-|H]; [first [reflexivity | discriminate Hp]|]).
  contradiction.
Qed.

(** A request whose token verifies and names a stored user reaches the
    handler, with that user attached. *)
Lemma authenticated_request_passes (next : handler) (req : request)
  (w : world) (decoded : value) (u : rec) (others : list rec) :
  truthy (bearer_token req) = true ->
  jwt_verify (bearer_token req) = Ok decoded ->
  next_fault w = None ->
  lookup USERS "Email" (prop decoded "email") w = u :: others ->
  authenticateToken next req w
  = next (with_user (found u) req)
      (after_call (Select USERS (find_query "Email" (prop decoded "email")))
         w).
Proof.
  intros Ht Hv Hf Hl. unfold Server.authenticateToken.
  rewrite Ht. cbn [negb]. unfold bind, lift.
  rewrite Hv, findRecordByField_step, Hf, Hl. reflexivity.
Qed.

(** C7. Every route outside /api/auth runs behind authenticateToken. A
    request without a token is answered 401 'Access token required', one
    whose token does not verify is answered 403, in both cases leaving the
    base untouched; one whose token names a user absent from Users is
    answered 403 after the middleware's own lookup in Users and nothing
    else. The route's handler is not run in any of these cases. *)
Theorem guarded_routes_reject_unauthenticated :
  forall (e : endpoint) (req : request) (w : world),
    In e app -> is_auth_route e = false ->
    guarded e = true /\
    (truthy (bearer_token req) = false ->
       serve e req w =
         (respond 401 [("error", VStr "Access token required")], w)) /\
    (forall message,
       truthy (bearer_token req) = true ->
       jwt_verify (bearer_token req) = Throw message ->
       serve e req w = (respond 403 [("error", VStr "Invalid token")], w)) /\
    (forall decoded,
       truthy (bearer_token req) = true ->
       jwt_verify (bearer_token req) = Ok decoded ->
       lookup USERS "Email" (prop decoded "email") w = [] ->
       exists w',
         serve e req w = (respond 403 [("error", VStr "User not found")], w') /\
         tables w' = tables w /\
         calls w' =
           calls w ++ [Select USERS (find_query "Email" (prop decoded "email"))]).
Proof.
  intros e req w Hin Hp.
  pose proof (non_auth_routes_guarded e Hin Hp) as Hg.
  split; [exact Hg|].
  unfold Server.serve. rewrite Hg. unfold Server.authenticateToken.
  split; [|split].
  - intros Ht. now rewrite Ht.
  - intros message Ht Hv. rewrite Ht. simpl. unfold bind, lift.
    now rewrite Hv.
  - intros decoded Ht Hv Hl. rewrite Ht. simpl. unfold bind, lift.
    rewrite Hv, findRecordByField_step, Hl.
    destruct (next_fault w); simpl; eexists; repeat split.
Qed.

(** C9 (as amended). POST /api/auth/login answers 401 {error: 'Invalid
    credentials'} when no user has the submitted email, and the very same
    response when the user exists and [bcrypt.compare] reports that the
    password does not match. When [bcrypt.compare] throws instead (the
    password is missing or is not a string), the request for an existing
    user is answered 500 with the message of bcrypt, which differs from
    the 401 an unknown email gets. *)
Theorem login_failures_indistinguishable
  (req1 req2 : request) (w1 w2 : world) (u : rec) (others : list rec) :
  lookup USERS "Email" (obj_get "email" (body req1)) w1 = [] ->
  next_fault w2 = None ->
  lookup USERS "Email" (obj_get "email" (body req2)) w2 = u :: others ->
  fst (login req1 w1) = invalid_credentials /\
  (bcrypt_compare (obj_get "password" (body req2))
     (prop (found u) "Password") = Ok false ->
   fst (login req2 w2) = invalid_credentials /\
   fst (login req1 w1) = fst (login req2 w2)) /\
  (forall message,
     bcrypt_compare (obj_get "password" (body req2))
       (prop (found u) "Password") = Throw message ->
     fst (login req2 w2) = respond 500 [("error", VStr message)] /\
     fst (login req1 w1) <> fst (login req2 w2)).
Proof.
  intros Hnone Hf Hsome.
  assert (H1 : fst (login req1 w1) = invalid_credentials).
  { unfold Server.login, try_or_500, login_body, bind.
    rewrite findRecordByField_step, Hnone.
    destruct (next_fault w1); reflexivity. }
  split; [exact H1|]. split.
  - intros Hpw.
    assert (H2 : fst (login req2 w2) = invalid_credentials).
    { unfold Server.login, try_or_500, login_body, bind.
      rewrite findRecordByField_step, Hf, Hsome.
      rewrite found_truthy. cbn [negb]. unfold lift. rewrite Hpw.
      reflexivity. }
    split; [exact H2 | now rewrite H1, H2].
  - intros message Hpw.
    assert (H2 : fst (login req2 w2)
                 = respond 500 [("error", VStr message)]).
    { unfold Server.login, try_or_500, login_body, bind.
      rewrite findRecordByField_step, Hf, Hsome.
      rewrite found_truthy. cbn [negb]. unfold lift. rewrite Hpw.
      reflexivity. }
    split; [exact H2|]. rewrite H1, H2. discriminate.
Qed.

(** ** Listing products *)

(** C6 (what the code does instead). GET /api/products never reaches
    Airtable: building the options of [select] reads the unbound identifier
    [filterByFormula], and the handler answers 500 with that ReferenceError
    whatever the query parameters; so does every authenticated request to
    the route. *)
Theorem get_products_always_fails :
  (forall req w,
     get_products req w =
       (respond 500 [("error", VStr "filterByFormula is not defined")],
        console_error "Get products error: filterByFormula is not defined"
          w)) /\
  (forall req w decoded u others,
     truthy (bearer_token req) = true ->
     jwt_verify (bearer_token req) = Ok decoded ->
     next_fault w = None ->
     lookup USERS "Email" (prop decoded "email") w = u :: others ->
     fst (authenticateToken get_products req w)
     = respond 500 [("error", VStr "filterByFormula is not defined")]).
Proof.
  split; [reflexivity|].
  intros req w decoded u others Ht Hv Hf Hl.
  now rewrite (authenticated_request_passes _ req w decoded u others
                 Ht Hv Hf Hl).
Qed.

(** ** Bulk scan *)

Local Abbreviation bulk_loop :=
  (Server.bulk_loop JSON_stringify lookupOpenFoodFacts lookupUPCItemDB
     lookupBarcodeLookup).
Local Abbreviation bulk_row :=
  (Server.bulk_row JSON_stringify lookupOpenFoodFacts lookupUPCItemDB
     lookupBarcodeLookup).
Local Abbreviation bulk_call :=
  (Server.bulk_call JSON_stringify lookupOpenFoodFacts lookupUPCItemDB
     lookupBarcodeLookup).

Lemma failed_saved_length (items : list value) :
  forall fs,
    (length (saved_items items fs) + length (failed_items items fs))%nat
    = length items.
Proof.
  induction items as [|b items IH]; intros fs; simpl; [reflexivity|].
  destruct fs as [|[message|] fs']; simpl.
  - now rewrite (IH []).
  - rewrite <- (IH fs'). lia.
  - now rewrite (IH fs').
Qed.

Lemma saved_items_no_fault (items : list value) :
  saved_items items [] = items.
Proof. induction items as [|b items IH]; simpl; congruence. Qed.

Lemma bulk_loop_spec (req : request) (items : list value) :
  forall results errors w,
  exists saved created w',
    bulk_loop req items results errors w
    = (Ok (results ++ saved, errors ++ failed_items items (faults w)), w') /\
    bulk_done (bulk_row req (clock w)) items w w' saved created.
Proof.
  induction items as [|b items IH]; intros results errors w.
  - exists [], [], w. simpl. rewrite !app_nil_r.
    split; [reflexivity|].
    split; simpl; rewrite ?app_nil_r; reflexivity.
  - cbn [Server.bulk_loop]. unfold bind at 1. unfold try_catch.
    unfold bind at 1. unfold bulk_item, bind, now_iso.
    rewrite createRecord_step. unfold next_fault.
    destruct (faults w) as [|[message|] fs'] eqn:E; cbn [fst snd ret];
      match goal with
      | |- context [bulk_loop req items ?r ?e ?w1] =>
          destruct (IH r e w1) as (saved & created & w' & Hrun & Hdone)
      end;
      destruct Hdone as [Hsaved Hcalls Hclock Hfaults Hproducts Hrows];
      simpl in Hsaved, Hcalls, Hclock, Hfaults, Hproducts, Hrows;
      unfold after_call in *; rewrite E in *; simpl in *.
    + eexists (_ :: saved), (_ :: created), w'. rewrite Hrun.
      split; [now rewrite <- app_assoc|].
      split; rewrite ?E; simpl.
      * now rewrite Hsaved.
      * now rewrite Hcalls, <- app_assoc.
      * exact Hclock.
      * now rewrite Hfaults, skipn_nil.
      * now rewrite Hproducts, <- app_assoc.
      * now rewrite Hrows.
    + exists saved, created, w'. rewrite Hrun.
      split; [now rewrite <- app_assoc|].
      split; rewrite ?E; simpl.
      * exact Hsaved.
      * now rewrite Hcalls, <- app_assoc.
      * exact Hclock.
      * exact Hfaults.
      * exact Hproducts.
      * exact Hrows.
    + eexists (_ :: saved), (_ :: created), w'. rewrite Hrun.
      split; [now rewrite <- app_assoc|].
      split; rewrite ?E; simpl.
      * now rewrite Hsaved.
      * now rewrite Hcalls, <- app_assoc.
      * exact Hclock.
      * exact Hfaults.
      * now rewrite Hproducts, <- app_assoc.
      * now rewrite Hrows.
Qed.

(** A bulk scan over an array of barcodes: one create request per item,
    failed or not, and a report of both outcomes. *)
Lemma bulk_report_spec (req : request) (items : list value) (w : world) :
  obj_get "barcodes" (body req) = VArr items ->
  exists results created w',
    bulk req w
    = (json (VObj (bulk_report results (failed_items items (faults w)))), w') /\
    bulk_done (bulk_row req (clock w)) items w w' results created.
Proof.
  intros Hb.
  destruct (bulk_loop_spec req items [] [] w)
    as (saved & created & w' & Hrun & Hdone).
  exists saved, created, w'. split; [|exact Hdone].
  unfold Server.bulk, try_or_500, bulk_body, bind. rewrite Hb. simpl.
  rewrite Hrun. reflexivity.
Qed.

(** ** Errors reaching a handler *)

Lemma post_products_write_fault (req : request) (w : world)
  (message : string) (fs : list (option string)) :
  faults w = None :: Some message :: fs ->
  exists w',
    post_products req w = (respond 500 [("error", VStr message)], w') /\
    In ("Create/Update product error: " ++ message)%string (console w').
Proof.
  intros E.
  unfold Server.post_products, try_or_500, post_products_body, bind, now_iso.
  rewrite findRecordByField_step. unfold next_fault at 1. rewrite E.
  destruct (truthy _).
  - rewrite updateRecord_step. unfold next_fault, after_call. rewrite E.
    simpl. eexists. split; [reflexivity|]. simpl.
    apply in_or_app. right. now left.
  - rewrite createRecord_step. unfold next_fault, after_call. rewrite E.
    simpl. eexists. split; [reflexivity|]. simpl.
    apply in_or_app. right. now left.
Qed.

Lemma delete_product_write_fault (req : request) (w : world)
  (message : string) (fs : list (option string)) (p : rec) (ps : list rec) :
  faults w = None :: Some message :: fs ->
  lookup PRODUCTS "Barcode" (obj_get "barcode" (params req)) w = p :: ps ->
  exists w',
    delete_product req w = (respond 500 [("error", VStr message)], w') /\
    console w' = console w.
Proof.
  intros E Hl.
  unfold Server.delete_product, try_or_500, delete_product_body, bind.
  rewrite findRecordByField_step. unfold next_fault at 1. rewrite E, Hl.
  rewrite found_truthy. cbn [negb]. unfold destroy. rewrite api_step.
  unfold next_fault, after_call. rewrite E. simpl.
  eexists. split; reflexivity.
Qed.

(** ** Barcode uniqueness *)

Lemma bulk_row_barcode (req : request) (stamp b : string) :
  eval_formula (field_equals "Barcode" (VStr b))
    (bulk_row req stamp (VStr b)) = true.
Proof. simpl. apply String.eqb_refl. Qed.

(** C4 (the code at the failing inputs). A bulk scan never looks a barcode
    up in Products: when no request fails, every barcode of the list gets
    a new record, so more records carry it after the scan than before, and
    a barcode that was already there is carried by two records at least. *)
Theorem bulk_scan_duplicates_barcode
  (req : request) (items : list value) (w : world) (b : string) :
  obj_get "barcodes" (body req) = VArr items ->
  faults w = [] ->
  In (VStr b) items ->
  (length (with_barcode b w) < length (with_barcode b (snd (bulk req w))))%nat.
Proof.
  intros Hb Hf Hin.
  destruct (bulk_report_spec req items w Hb)
    as (results & created & w' & Hrun & Hdone).
  rewrite Hrun. cbn [snd].
  unfold with_barcode, lookup, matching.
  rewrite (done_products _ _ _ _ _ _ Hdone), filter_app, length_app.
  pose proof (done_rows _ _ _ _ _ _ Hdone) as Hrows.
  rewrite Hf, saved_items_no_fault in Hrows.
  assert (Hrow : In (bulk_row req (clock w) (VStr b)) (map fields created)).
  { rewrite Hrows. apply in_map. exact Hin. }
  apply in_map_iff in Hrow. destruct Hrow as (r & Hr & Hcreated).
  assert (Hkept :
            In r (filter (fun r => eval_formula
                                     (field_equals "Barcode" (VStr b))
                                     (fields r)) created)).
  { apply filter_In. split; [exact Hcreated|].
    rewrite Hr. apply bulk_row_barcode. }
  destruct (filter _ created); [contradiction|]. simpl. lia.
Qed.

(** ** Scan history and scan counts *)

Lemma bind_ok {A B} (m : M A) (k : A -> M B) (w w' : world) (b : B) :
  bind m k w = (Ok b, w') ->
  exists a w1, m w = (Ok a, w1) /\ k a w1 = (Ok b, w').
Proof.
  unfold bind. destruct (m w) as [[a|e] w1]; [eauto | discriminate].
Qed.

Lemma createRecord_ok (t : string) (f o : obj) (w w' : world) :
  createRecord t f w = (Ok o, w') ->
  forall n,
    tables w' n =
      if String.eqb n t
      then tables w t ++ [{| rec_id := fresh_id (next_id w); fields := f |}]
      else tables w n.
Proof.
  rewrite createRecord_step. destruct (next_fault w); [discriminate|].
  intros H n. injection H as _ <-. reflexivity.
Qed.

Lemma createRecord_clock (t : string) (f : obj) (w w' : world) (o : outcome obj) :
  createRecord t f w = (o, w') -> clock w' = clock w.
Proof.
  rewrite createRecord_step. destruct (next_fault w); intros H;
    injection H as _ <-; reflexivity.
Qed.

Lemma updateRecord_ok (t : string) (rid : value) (f o : obj) (w w' : world) :
  updateRecord t rid f w = (Ok o, w') ->
  exists r,
    find (has_id rid) (tables w t) = Some r /\
    forall n,
      tables w' n =
        if String.eqb n t
        then map (fun x => if has_id rid x
                           then {| rec_id := rec_id r;
                                   fields := spread (fields r) f |}
                           else x) (tables w t)
        else tables w n.
Proof.
  rewrite updateRecord_step. destruct (next_fault w); [discriminate|].
  destruct (find (has_id rid) (tables w t)) as [r|]; [|discriminate].
  intros H. exists r. split; [reflexivity|].
  intros n. injection H as _ <-. reflexivity.
Qed.

Lemma updateRecord_clock (t : string) (rid : value) (f : obj) (w w' : world)
  (o : outcome obj) :
  updateRecord t rid f w = (o, w') -> clock w' = clock w.
Proof.
  rewrite updateRecord_step. destruct (next_fault w).
  - intros H; injection H as _ <-; reflexivity.
  - destruct (find _ _); intros H; injection H as _ <-; reflexivity.
Qed.

Lemma findRecordByField_ok (t f : string) (v : value) (w : world) :
  exists w',
    findRecordByField t f v w = (Ok (lookup_result t f v w), w') /\
    tables w' = tables w /\ clock w' = clock w.
Proof.
  rewrite findRecordByField_step. unfold lookup_result.
  destruct (next_fault w); eexists; repeat split.
Qed.

Lemma increment_scans (n : Z) :
  add (or_else (VNum n) (VNum 0)) (VNum 1) = VNum (n + 1).
Proof.
  unfold or_else. simpl. destruct (Z.eqb_spec n 0) as [->|]; reflexivity.
Qed.

Lemma clean_field (k : string) (r : rec) :
  k <> "id" -> NoDup (map fst (fields r)) ->
  prop (found r) k = obj_get k (fields r).
Proof.
  intros Hk Hnd. unfold found, cleanRecord. simpl.
  rewrite JSFacts.obj_get_spread by exact Hnd.
  destruct (existsb (String.eqb k) (map fst (fields r))) eqn:E;
    [reflexivity|].
  rewrite (JSFacts.obj_get_absent _ _ E). simpl.
  destruct (String.eqb_spec k "id"); [contradiction | reflexivity].
Qed.

(** C8 (as amended). A POST /api/products request answered 200 appends
    exactly one ScanHistory record. Its Action is 'update' when the barcode
    lookup returned a product, which the request has then updated, and
    'scan' when the lookup returned null (no such product, or the lookup
    failed), in which case one product record was created. The request
    also sets the requesting user's TotalScans to one more than it was and
    LastActive to the current time. *)
Theorem post_products_bookkeeping
  (req : request) (w w' : world) (r : response) :
  post_products req w = (r, w') ->
  status r = 200%nat ->
  let existing :=
    lookup_result PRODUCTS "Barcode" (obj_get "barcode" (body req)) w in
  (exists h,
     tables w' SCAN_HISTORY = tables w SCAN_HISTORY ++ [h] /\
     obj_get "Action" (fields h)
     = VStr (if truthy existing then "update" else "scan")) /\
  length (tables w' PRODUCTS)
  = (if truthy existing then length (tables w PRODUCTS)
     else S (length (tables w PRODUCTS))) /\
  (exists u u',
     find (has_id (prop (user req) "id")) (tables w USERS) = Some u /\
     tables w' USERS
     = map (fun x => if has_id (prop (user req) "id") x then u' else x)
         (tables w USERS) /\
     rec_id u' = rec_id u /\
     obj_get "LastActive" (fields u') = VStr (clock w) /\
     obj_get "TotalScans" (fields u')
     = add (or_else (prop (user req) "TotalScans") (VNum 0)) (VNum 1) /\
     (forall n,
        prop (user req) "TotalScans" = VNum n ->
        obj_get "TotalScans" (fields u') = VNum (n + 1)) /\
     (forall n,
        user req = found u -> NoDup (map fst (fields u)) ->
        obj_get "TotalScans" (fields u) = VNum n ->
        obj_get "TotalScans" (fields u') = VNum (n + 1))).
Proof.
  intros Hrun H200 existing.
  unfold Server.post_products, try_or_500 in Hrun.
  destruct (post_products_body _ _ _ req w) as [[r0|e] w0] eqn:Hbody;
    injection Hrun as <- <-; [|discriminate H200].
  unfold post_products_body in Hbody.
  apply bind_ok in Hbody as (modified & w1 & Hnow & Hbody).
  injection Hnow as <- <-.
  apply bind_ok in Hbody as (found_product & w2 & Hfind & Hbody).
  destruct (findRecordByField_ok PRODUCTS "Barcode"
              (obj_get "barcode" (body req)) w) as (w2' & Hf & Htab2 & Hclk2).
  rewrite Hf in Hfind. injection Hfind as <- <-.
  fold existing in Hbody.
  apply bind_ok in Hbody as (product & w3 & Hprod & Hbody).
  apply bind_ok in Hbody as (stamp & w3' & Hnow & Hbody).
  injection Hnow as <- <-.
  apply bind_ok in Hbody as (entry & w4 & Hhist & Hbody).
  apply bind_ok in Hbody as (active & w4' & Hnow & Hbody).
  injection Hnow as <- <-.
  apply bind_ok in Hbody as (counted & w5 & Hupd & Hret).
  injection Hret as _ <-.
  assert (Hprod_tables :
            tables w3 SCAN_HISTORY = tables w SCAN_HISTORY /\
            tables w3 USERS = tables w USERS /\
            clock w3 = clock w /\
            length (tables w3 PRODUCTS)
            = if truthy existing then length (tables w PRODUCTS)
              else S (length (tables w PRODUCTS))).
  { destruct (truthy existing).
    - pose proof (updateRecord_clock _ _ _ _ _ _ Hprod) as Hc.
      apply updateRecord_ok in Hprod as (p & _ & Ht).
      rewrite !Ht, Htab2. simpl. rewrite length_map.
      repeat split. congruence.
    - apply bind_ok in Hprod as (scanned & w2'' & Hnow & Hprod).
      injection Hnow as <- <-.
      pose proof (createRecord_clock _ _ _ _ _ Hprod) as Hc.
      pose proof (createRecord_ok _ _ _ _ _ Hprod) as Ht.
      rewrite !Ht, Htab2. simpl. rewrite length_app. simpl.
      repeat split; [congruence | lia]. }
  destruct Hprod_tables as (Hh3 & Hu3 & Hc3 & Hp3).
  pose proof (createRecord_clock _ _ _ _ _ Hhist) as Hc4.
  pose proof (createRecord_ok _ _ _ _ _ Hhist) as Ht4.
  apply updateRecord_ok in Hupd as (u & Hu & Ht5).
  rewrite (Ht4 USERS) in Hu. simpl in Hu. rewrite Hu3 in Hu.
  split; [|split].
  - eexists. rewrite (Ht5 SCAN_HISTORY). simpl.
    rewrite (Ht4 SCAN_HISTORY). simpl. rewrite Hh3.
    split; reflexivity.
  - rewrite (Ht5 PRODUCTS). simpl. rewrite (Ht4 PRODUCTS). simpl. exact Hp3.
  - exists u,
      {| rec_id := rec_id u;
         fields :=
           spread (fields u)
             [("TotalScans",
               add (or_else (prop (user req) "TotalScans") (VNum 0)) (VNum 1));
              ("LastActive", VStr (clock w))] |}.
    split; [exact Hu|].
    split; [rewrite (Ht5 USERS); simpl; rewrite (Ht4 USERS); simpl;
            rewrite Hu3, Hc4, Hc3; reflexivity|].
    split; [reflexivity|].
    assert (Hscans :
              forall x y (o : obj),
                obj_get "TotalScans"
                  (spread o [("TotalScans", x); ("LastActive", y)]) = x).
    { intros x y o. unfold spread. simpl.
      rewrite JSFacts.obj_get_set_other by discriminate.
      apply JSFacts.obj_get_set_same. }
    split; [|split; [|split]].
    + simpl. unfold spread. simpl. apply JSFacts.obj_get_set_same.
    + cbn [fields]. apply Hscans.
    + intros n Hn. cbn [fields]. rewrite Hscans, Hn. apply increment_scans.
    + intros n Hreq Hnd Hn. cbn [fields]. rewrite Hscans, Hreq.
      rewrite (clean_field "TotalScans" u) by (discriminate || exact Hnd).
      rewrite Hn. apply increment_scans.
Qed.

End Backend.

(** ** Rejected requests *)

Lemma sent_app (w w' : world) (made : list call) :
  calls w' = calls w ++ made -> sent w w' = made.
Proof.
  unfold sent. intros ->.
  rewrite skipn_app, skipn_all, Nat.sub_diag. reflexivity.
Qed.

Lemma first_fault (w : world) (message : string) :
  nth_error (faults w) 0 = Some (Some message) ->
  next_fault w = Some message.
Proof.
  unfold next_fault. destruct (faults w) as [|[m|] fs]; simpl; congruence.
Qed.

Section Loud.

Context {A B : Type}.
Variable inside : call -> bool.

(** A computation that sends nothing. *)
Lemma loud_silent (m : M A) :
  (forall w, calls (snd (m w)) = calls w /\ faults (snd (m w)) = faults w) ->
  loud inside m.
Proof.
  intros H w. exists []. destruct (H w) as [Hc Hf].
  rewrite Hc, Hf, app_nil_r. repeat split.
  intros [|i] c message Hi; discriminate Hi.
Qed.

Lemma loud_bind (m : M A) (k : A -> M B) :
  loud inside m -> (forall a, loud inside (k a)) -> loud inside (bind m k).
Proof.
  intros Hm Hk w. unfold bind.
  destruct (Hm w) as (made1 & Hc1 & Hf1 & H1).
  destruct (m w) as [[a|e] w1]; cbn [fst snd] in *.
  - destruct (Hk a w1) as (made2 & Hc2 & Hf2 & H2).
    exists (made1 ++ made2). split; [|split].
    + now rewrite Hc2, Hc1, app_assoc.
    + rewrite Hf2, Hf1, skipn_skipn, length_app. f_equal. lia.
    + intros i c message Hi Hfault Hin.
      destruct (Nat.lt_ge_cases i (length made1)) as [Hlt|Hge].
      * rewrite nth_error_app1 in Hi by exact Hlt.
        discriminate (H1 i c message Hi Hfault Hin).
      * rewrite nth_error_app2 in Hi by exact Hge.
        apply (H2 _ c message Hi); [|exact Hin].
        rewrite Hf1, nth_error_skipn. rewrite <- Hfault. f_equal. lia.
  - exists made1. split; [exact Hc1|]. split; [exact Hf1|].
    intros i c message Hi Hfault Hin.
    specialize (H1 i c message Hi Hfault Hin). congruence.
Qed.

End Loud.

Section LoudSteps.

Variable inside : call -> bool.

Local Ltac one_request :=
  split; [reflexivity|]; split; [reflexivity|];
  intros ? ?; cbn [fst]; first [congruence | discriminate].

Lemma loud_ret {A} (a : A) : loud inside (ret a).
Proof. apply loud_silent. now intros w. Qed.

Lemma loud_throw {A} (message : string) : loud inside (@throw A message).
Proof. apply loud_silent. now intros w. Qed.

Lemma loud_lift {A} (o : outcome A) : loud inside (lift o).
Proof. apply loud_silent. now intros w. Qed.

Lemma loud_now_iso : loud inside now_iso.
Proof. apply loud_silent. now intros w. Qed.

Lemma loud_member (v : value) (k : string) : loud inside (member v k).
Proof. apply loud_silent. intros w. now destruct v. Qed.

Lemma loud_iterate (name : string) (v : value) : loud inside (iterate name v).
Proof. apply loud_silent. intros w. now destruct v. Qed.

Lemma loud_lookup_ident {A} (scope : list (string * A)) (x : string) :
  loud inside (lookup_ident scope x).
Proof.
  apply loud_silent. intros w.
  induction scope as [|[y a] scope IH]; simpl; [now split|].
  now destruct (String.eqb x y).
Qed.

(** One request whose rejection is thrown on. *)
Lemma loud_request {A} (c : call) (m : M A) :
  (forall w,
     calls (snd (m w)) = calls w ++ [c] /\
     faults (snd (m w)) = tl (faults w) /\
     forall message,
       next_fault w = Some message -> fst (m w) = Throw message) ->
  loud inside m.
Proof.
  intros H w. destruct (H w) as (Hc & Hf & Hthrow). exists [c].
  split; [exact Hc|]. split; [rewrite Hf; now destruct (faults w)|].
  intros [|i] c' message Hi Hfault _.
  - apply Hthrow. now apply first_fault.
  - destruct i; discriminate Hi.
Qed.

Lemma loud_firstPage (t : string) (opts : select_opts) :
  loud inside (firstPage t opts).
Proof.
  apply (loud_request (Select t opts)). intros w.
  unfold firstPage. rewrite api_step.
  destruct (next_fault w) as [m|]; [one_request|].
  unfold bind, lift.
  destruct (limit_of (maxRecords opts) None);
    [destruct (limit_of (pageSize opts) (Some 100%nat))|];
    one_request.
Qed.

Lemma loud_allPages (t : string) (opts : select_opts) :
  loud inside (allPages t opts).
Proof.
  apply (loud_request (SelectAll t opts)). intros w.
  unfold allPages. rewrite api_step.
  destruct (next_fault w) as [m|]; [one_request|].
  unfold bind, lift.
  destruct (limit_of (maxRecords opts) None); one_request.
Qed.

Lemma loud_createRecord (t : string) (f : obj) :
  loud inside (createRecord t f).
Proof.
  apply (loud_request (Create t f)). intros w.
  rewrite createRecord_step.
  destruct (next_fault w) as [m|]; one_request.
Qed.

Lemma loud_updateRecord (t : string) (rid : value) (f : obj) :
  loud inside (updateRecord t rid f).
Proof.
  apply (loud_request (Update t rid f)). intros w.
  rewrite updateRecord_step.
  destruct (next_fault w) as [m|]; [one_request|].
  destruct (find (has_id rid) (tables w t)); one_request.
Qed.

Lemma loud_destroy (t : string) (rid : value) : loud inside (destroy t rid).
Proof.
  apply (loud_request (Destroy t rid)). intros w.
  unfold destroy. rewrite api_step.
  destruct (next_fault w) as [m|]; [one_request|].
  destruct (find (has_id rid) (tables (after_call (Destroy t rid) w) t));
    one_request.
Qed.

(** The lookup of [findRecordByField] is sent, and its rejection stays
    inside. *)
Lemma loud_findRecordByField (t f : string) (v : value) :
  inside (Select t (find_query f v)) = true ->
  loud inside (findRecordByField t f v).
Proof.
  intros Hin w. exists [Select t (find_query f v)].
  rewrite findRecordByField_step.
  assert (Htl : tl (faults w) = skipn 1 (faults w))
    by now destruct (faults w).
  destruct (next_fault w) as [m|]; cbn [fst snd];
    (split; [reflexivity|]); (split; [exact Htl|]);
    intros [|i] c message Hi; try (destruct i; discriminate Hi);
    injection Hi as <-; congruence.
Qed.

End LoudSteps.

Section LoudHandlers.

Variable jwt_verify : value -> outcome value.
Variable jwt_sign : obj -> value -> string.
Variable bcrypt_hash : value -> nat -> outcome string.
Variable bcrypt_compare : value -> value -> outcome bool.
Variable start_of_day : string -> string.
Variable parseInt : value -> value.
Variable parseFloat : value -> value.
Variable JSON_stringify : value -> string.
Variable lookupOpenFoodFacts : value -> value.
Variable lookupUPCItemDB : value -> value.
Variable lookupBarcodeLookup : value -> value.

Local Abbreviation app :=
  (Server.app jwt_sign bcrypt_hash bcrypt_compare start_of_day parseInt
     parseFloat JSON_stringify lookupOpenFoodFacts lookupUPCItemDB
     lookupBarcodeLookup).
Local Abbreviation bulk_loop :=
  (Server.bulk_loop JSON_stringify lookupOpenFoodFacts lookupUPCItemDB
     lookupBarcodeLookup).

Variable inside : call -> bool.

(** One step through the body of a handler. *)
Local Ltac loud_step :=
  cbv beta zeta;
  lazymatch goal with
  | |- loud _ (bind _ _) => apply loud_bind; [|intros ?]
  | |- loud _ (ret _) => apply loud_ret
  | |- loud _ (throw _) => apply loud_throw
  | |- loud _ (lift _) => apply loud_lift
  | |- loud _ now_iso => apply loud_now_iso
  | |- loud _ (member _ _) => apply loud_member
  | |- loud _ (iterate _ _) => apply loud_iterate
  | |- loud _ (lookup_ident _ _) => apply loud_lookup_ident
  | |- loud _ (firstPage _ _) => apply loud_firstPage
  | |- loud _ (allPages _ _) => apply loud_allPages
  | |- loud _ (findRecordByField _ _ _) =>
      apply loud_findRecordByField; auto
  | |- loud _ (createRecord _ _) => apply loud_createRecord
  | |- loud _ (updateRecord _ _ _) => apply loud_updateRecord
  | |- loud _ (destroy _ _) => apply loud_destroy
  | |- loud _ (if ?b then _ else _) => destruct b
  | |- loud _ (match ?x with _ => _ end) => destruct x
  | |- loud _ (fun w => _) =>
      apply loud_silent; intros ?; split; reflexivity
  end.

Hypothesis lookups_inside : forall t opts, inside (Select t opts) = true.

Lemma register_loud (req : request) :
  loud inside (register_body jwt_sign bcrypt_hash req).
Proof. unfold register_body. repeat loud_step. Qed.

Lemma login_loud (req : request) :
  loud inside (login_body jwt_sign bcrypt_compare req).
Proof. unfold login_body. repeat loud_step. Qed.

Lemma get_product_loud (req : request) : loud inside (get_product_body req).
Proof. unfold get_product_body. repeat loud_step. Qed.

Lemma post_products_loud (req : request) :
  loud inside (post_products_body parseInt parseFloat JSON_stringify req).
Proof. unfold post_products_body. repeat loud_step. Qed.

Lemma upload_image_loud (req : request) :
  loud inside (upload_image_body req).
Proof. unfold upload_image_body. repeat loud_step. Qed.

Lemma delete_product_loud (req : request) :
  loud inside (delete_product_body req).
Proof. unfold delete_product_body. repeat loud_step. Qed.

Lemma post_settings_loud (req : request) :
  loud inside (post_settings_body req).
Proof. unfold post_settings_body. repeat loud_step. Qed.

Lemma lookup_product_loud (req : request) :
  loud inside
    (lookup_product_body lookupOpenFoodFacts lookupUPCItemDB
       lookupBarcodeLookup req).
Proof. unfold lookup_product_body. repeat loud_step. Qed.

Lemma get_products_loud (req : request) :
  loud inside (get_products_body parseInt req).
Proof. unfold get_products_body. repeat loud_step. Qed.

Lemma count_by_status_loud (statuses : list string) :
  forall statusCounts, loud inside (count_by_status statuses statusCounts).
Proof.
  induction statuses as [|status rest IH]; intros statusCounts; simpl.
  - loud_step.
  - loud_step; [loud_step | apply IH].
Qed.

Lemma stats_loud (req : request) :
  loud inside (stats_body start_of_day req).
Proof.
  unfold stats_body.
  repeat first [apply count_by_status_loud | loud_step].
Qed.

Lemma history_loud (req : request) :
  loud inside (history_body parseInt req).
Proof. unfold history_body. repeat loud_step. Qed.

Lemma export_csv_loud (req : request) : loud inside (export_csv_body req).
Proof. unfold export_csv_body. repeat loud_step. Qed.

Lemma get_settings_loud (req : request) :
  loud inside (get_settings_body req).
Proof. unfold get_settings_body. repeat loud_step. Qed.

Hypothesis all_inside : forall c, inside c = true.

(** The loop of the bulk scan sends one request per item and throws
    nothing. *)
Lemma bulk_loop_loud (req : request) (items results errors : list value) :
  loud inside (bulk_loop req items results errors).
Proof.
  intros w.
  destruct (bulk_loop_spec JSON_stringify lookupOpenFoodFacts
              lookupUPCItemDB lookupBarcodeLookup req items results errors w)
    as (saved & created & w' & Hrun & Hdone).
  rewrite Hrun. cbn [fst snd]. eexists. split; [|split].
  - apply (done_calls _ _ _ _ _ _ Hdone).
  - rewrite length_map. apply (done_faults _ _ _ _ _ _ Hdone).
  - intros i c message _ _ Hc. rewrite all_inside in Hc. discriminate Hc.
Qed.

Lemma bulk_loud (req : request) :
  loud inside
    (bulk_body JSON_stringify lookupOpenFoodFacts lookupUPCItemDB
       lookupBarcodeLookup req).
Proof.
  unfold bulk_body. repeat first [apply bulk_loop_loud | loud_step].
Qed.

End LoudHandlers.

Section LoudRoutes.

Variable jwt_sign : obj -> value -> string.
Variable bcrypt_hash : value -> nat -> outcome string.
Variable bcrypt_compare : value -> value -> outcome bool.
Variable start_of_day : string -> string.
Variable parseInt : value -> value.
Variable parseFloat : value -> value.
Variable JSON_stringify : value -> string.
Variable lookupOpenFoodFacts : value -> value.
Variable lookupUPCItemDB : value -> value.
Variable lookupBarcodeLookup : value -> value.

Local Abbreviation app :=
  (Server.app jwt_sign bcrypt_hash bcrypt_compare start_of_day parseInt
     parseFloat JSON_stringify lookupOpenFoodFacts lookupUPCItemDB
     lookupBarcodeLookup).

(** The body of every handler throws the message of a rejected request,
    those caught inside the route apart. *)
Lemma try_body_loud (e : endpoint) (req : request) :
  In e app -> loud (caught_inside e) (try_body e req).
Proof.
  intros Hin. unfold Server.app in Hin.
  destruct Hin as [<-|[<-|[<-|[<-|[<-|[<-|[<-|[<-|[<-|[<-|[<-|[<-|[<-|[<-|[]
    ]]]]]]]]]]]]]];
    cbn [try_body].
  - apply register_loud. reflexivity.
  - apply login_loud. reflexivity.
  - apply lookup_product_loud.
  - apply get_products_loud.
  - apply get_product_loud. reflexivity.
  - apply post_products_loud. reflexivity.
  - apply upload_image_loud. reflexivity.
  - apply delete_product_loud. reflexivity.
  - apply stats_loud.
  - apply history_loud.
  - apply export_csv_loud.
  - apply bulk_loud. reflexivity.
  - apply get_settings_loud.
  - apply post_settings_loud. reflexivity.
Qed.

Lemma run_try_body (e : endpoint) (req : request) (w : world) :
  In e app -> run e req w = try_or_500 (prints e) (try_body e req) w.
Proof.
  intros Hin. unfold Server.app in Hin.
  destruct Hin as [<-|[<-|[<-|[<-|[<-|[<-|[<-|[<-|[<-|[<-|[<-|[<-|[<-|[<-|[]
    ]]]]]]]]]]]]]];
    reflexivity.
Qed.

(** A rejected request that is not caught inside the route is answered
    500 with its message. *)
Lemma rejected_request_is_answered_500 (e : endpoint) (req : request)
  (w : world) (i : nat) (c : call) (message : string) :
  In e app ->
  nth_error (sent w (snd (run e req w))) i = Some c ->
  nth_error (faults w) i = Some (Some message) ->
  caught_inside e c = false ->
  exists w',
    try_body e req w = (Throw message, w') /\
    fst (run e req w) = respond 500 [("error", VStr message)].
Proof.
  intros Hin Hsent Hfault Hout.
  rewrite (run_try_body e req w Hin) in *.
  destruct (try_body_loud e req Hin w) as (made & Hcalls & _ & Hthrow).
  unfold try_or_500 in *.
  destruct (try_body e req w) as [[r|e0] w'] eqn:Hbody; cbn [fst snd] in *.
  - rewrite (sent_app _ _ _ Hcalls) in Hsent.
    discriminate (Hthrow i c message Hsent Hfault Hout).
  - assert (Hsame : sent w (match prints e with
                            | Some l => console_error (l ++ " " ++ e0) w'
                            | None => w'
                            end) = made).
    { apply sent_app. now destruct (prints e). }
    rewrite Hsame in Hsent.
    specialize (Hthrow i c message Hsent Hfault Hout).
    injection Hthrow as ->. now exists w'.
Qed.

Local Abbreviation post_products :=
  (Server.post_products parseInt parseFloat JSON_stringify).
Local Abbreviation bulk :=
  (Server.bulk JSON_stringify lookupOpenFoodFacts lookupUPCItemDB
     lookupBarcodeLookup).
Local Abbreviation bulk_call :=
  (Server.bulk_call JSON_stringify lookupOpenFoodFacts lookupUPCItemDB
     lookupBarcodeLookup).


End LoudRoutes.


(** ** The theorems at the sample base *)

Local Abbreviation sample_post_products :=
  (Server.post_products sample_parse sample_parse sample_stringify).
Local Abbreviation sample_bulk :=
  (Server.bulk sample_stringify sample_provider sample_provider
     sample_provider).
Local Abbreviation sample_login :=
  (Server.login sample_jwt_sign sample_bcrypt_compare).

Lemma lookup_failure_reads_as_not_found_witness :
  next_fault (sample_world [Some "ETIMEDOUT"]) = Some "ETIMEDOUT" /\
  fst (get_product (scan_request "0123456789012")
         (sample_world [Some "ETIMEDOUT"])) = not_found /\
  next_fault (sample_world []) = None /\
  lookup PRODUCTS "Barcode" (VStr "999") (sample_world []) = [] /\
  fst (get_product (scan_request "999") (sample_world [])) = not_found /\
  fst (findRecordByField PRODUCTS "Barcode" (VStr "0123456789012")
         (sample_world [Some "ETIMEDOUT"])) = Ok VNull.
Proof.
  destruct lookup_failure_reads_as_not_found
    as (_ & _ & Hnull & Hnone & Hfault & _).
  split; [reflexivity|].
  split; [apply (Hfault _ _ "ETIMEDOUT"); reflexivity|].
  split; [reflexivity|].
  split; [reflexivity|].
  split; [apply Hnone; reflexivity|].
  apply (Hnull _ _ _ _ "ETIMEDOUT"). reflexivity.
Defined.

Lemma guarded_routes_reject_unauthenticated_witness :
  In product_route sample_app /\
  is_auth_route product_route = false /\
  truthy (bearer_token (bare_request [])) = false /\
  Server.serve sample_jwt_verify product_route
    (bare_request []) (sample_world [])
  = (respond 401 [("error", VStr "Access token required")], sample_world []) /\
  sample_jwt_verify
    (bearer_token (bare_request [("authorization", VStr "Bearer forged")]))
  = Throw "jwt malformed" /\
  Server.serve sample_jwt_verify product_route
    (bare_request [("authorization", VStr "Bearer forged")]) (sample_world [])
  = (respond 403 [("error", VStr "Invalid token")], sample_world []) /\
  lookup USERS "Email" (VStr "gone@example.com") (sample_world []) = [] /\
  fst (Server.serve sample_jwt_verify product_route
         (bare_request [("authorization", VStr "Bearer stale-token")])
         (sample_world []))
  = respond 403 [("error", VStr "User not found")].
Proof.
  assert (Hin : In product_route sample_app)
    by (do 4 right; left; reflexivity).
  pose proof (fun req =>
                guarded_routes_reject_unauthenticated sample_jwt_verify
                  sample_jwt_sign sample_bcrypt_hash sample_bcrypt_compare
                  sample_start_of_day sample_parse sample_parse
                  sample_stringify sample_provider sample_provider
                  sample_provider product_route req (sample_world [])
                  Hin eq_refl) as Hauth.
  split; [exact Hin|]. split; [reflexivity|]. split; [reflexivity|].
  split; [apply Hauth; reflexivity|].
  split; [reflexivity|].
  split; [apply Hauth with (message := "jwt malformed"); reflexivity|].
  split; [reflexivity|].
  destruct (Hauth (bare_request [("authorization",
                                  VStr "Bearer stale-token")]))
    as (_ & _ & _ & Hgone).
  destruct (Hgone _ eq_refl eq_refl eq_refl) as (w' & Hrun & _).
  now rewrite Hrun.
Defined.

Lemma login_failures_indistinguishable_witness :
  lookup USERS "Email" (VStr "nobody@example.com") (sample_world []) = [] /\
  next_fault (sample_world []) = None /\
  lookup USERS "Email" (VStr "ann@example.com") (sample_world []) = [ann] /\
  sample_bcrypt_compare (VStr "wrong") (prop (found ann) "Password")
  = Ok false /\
  fst (sample_login (login_request "nobody@example.com" "secret")
         (sample_world []))
  = fst (sample_login (login_request "ann@example.com" "wrong")
           (sample_world [])) /\
  sample_bcrypt_compare
    (obj_get "password" (body (login_without_password "ann@example.com")))
    (prop (found ann) "Password")
  = Throw "Illegal arguments" /\
  fst (sample_login (login_without_password "ann@example.com")
         (sample_world []))
  = respond 500 [("error", VStr "Illegal arguments")].
Proof.
  destruct (login_failures_indistinguishable sample_jwt_sign
              sample_bcrypt_compare
              (login_request "nobody@example.com" "secret")
              (login_request "ann@example.com" "wrong")
              (sample_world []) (sample_world []) ann []
              eq_refl eq_refl eq_refl) as (_ & Hwrong & _).
  destruct (login_failures_indistinguishable sample_jwt_sign
              sample_bcrypt_compare
              (login_request "nobody@example.com" "secret")
              (login_without_password "ann@example.com")
              (sample_world []) (sample_world []) ann []
              eq_refl eq_refl eq_refl) as (_ & _ & Hthrows).
  split; [reflexivity|]. split; [reflexivity|]. split; [reflexivity|].
  split; [reflexivity|].
  split; [apply Hwrong; reflexivity|].
  split; [reflexivity|].
  apply (Hthrows "Illegal arguments"). reflexivity.
Defined.

(** C9 as stated fails: a login that carries no password is answered 401
    when no user has the e-mail and 500 when one has, [bcrypt.compare]
    throwing on the missing password; the two responses differ although
    the password matched in neither case. *)
Lemma missing_password_reveals_the_account :
  ~ (forall req1 req2 w1 w2 u others,
       lookup USERS "Email" (obj_get "email" (body req1)) w1 = [] ->
       next_fault w2 = None ->
       lookup USERS "Email" (obj_get "email" (body req2)) w2 = u :: others ->
       sample_bcrypt_compare (obj_get "password" (body req2))
         (prop (found u) "Password") <> Ok true ->
       fst (sample_login req1 w1) = fst (sample_login req2 w2)).
Proof.
  intros H.
  specialize (H (login_without_password "nobody@example.com")
                (login_without_password "ann@example.com")
                (sample_world []) (sample_world []) ann []
                eq_refl eq_refl eq_refl).
  assert (Hdiff :
            fst (sample_login (login_without_password "nobody@example.com")
                   (sample_world []))
            <> fst (sample_login (login_without_password "ann@example.com")
                      (sample_world [])))
    by (vm_compute; discriminate).
  apply Hdiff, H. vm_compute. discriminate.
Qed.

Lemma get_products_always_fails_witness :
  truthy (bearer_token (scan_request "0123456789012")) = true /\
  sample_jwt_verify (bearer_token (scan_request "0123456789012"))
  = Ok (VObj [("id", VStr "recU1"); ("email", VStr "ann@example.com")]) /\
  lookup USERS "Email" (VStr "ann@example.com") (sample_world []) = [ann] /\
  fst (Server.authenticateToken sample_jwt_verify
         (Server.get_products sample_parse)
         (scan_request "0123456789012") (sample_world []))
  = respond 500 [("error", VStr "filterByFormula is not defined")].
Proof.
  split; [reflexivity|]. split; [reflexivity|]. split; [reflexivity|].
  destruct (get_products_always_fails sample_jwt_verify sample_parse)
    as [_ Hauth].
  apply (Hauth _ _ (VObj [("id", VStr "recU1");
                          ("email", VStr "ann@example.com")]) ann []);
    reflexivity.
Defined.

Lemma bulk_scan_duplicates_barcode_witness :
  obj_get "barcodes" (body (bulk_request ["0123456789012"]))
  = VArr [VStr "0123456789012"] /\
  faults (sample_world []) = [] /\
  In (VStr "0123456789012") [VStr "0123456789012"] /\
  with_barcode "0123456789012" (sample_world []) = [lamp] /\
  status (fst (sample_bulk (bulk_request ["0123456789012"])
                 (sample_world []))) = 200%nat /\
  (1 < length (with_barcode "0123456789012"
                 (snd (sample_bulk (bulk_request ["0123456789012"])
                         (sample_world [])))))%nat.
Proof.
  split; [reflexivity|]. split; [reflexivity|].
  split; [now left|]. split; [reflexivity|]. split; [reflexivity|].
  apply (bulk_scan_duplicates_barcode sample_stringify sample_provider
           sample_provider sample_provider (bulk_request ["0123456789012"])
           [VStr "0123456789012"] (sample_world []) "0123456789012");
    [reflexivity | reflexivity | now left].
Defined.



Lemma post_products_bookkeeping_witness :
  let run :=
    sample_post_products (scan_request "0123456789012") (sample_world []) in
  status (fst run) = 200%nat /\
  (exists h,
     tables (snd run) SCAN_HISTORY
     = tables (sample_world []) SCAN_HISTORY ++ [h] /\
     obj_get "Action" (fields h) = VStr "update") /\
  length (tables (snd run) PRODUCTS) = 1%nat /\
  (exists u',
     tables (snd run) USERS = [u'] /\
     obj_get "TotalScans" (fields ann) = VNum 4 /\
     obj_get "TotalScans" (fields u') = VNum 5).
Proof.
  intros run.
  assert (H200 : status (fst run) = 200%nat) by (vm_compute; reflexivity).
  subst run.
  destruct (sample_post_products (scan_request "0123456789012")
              (sample_world [])) as [r w'] eqn:Hrun.
  cbn [fst snd] in *.
  pose proof (post_products_bookkeeping sample_parse sample_parse
                sample_stringify (scan_request "0123456789012")
                (sample_world []) w' r Hrun H200) as Hbook.
  cbv zeta in Hbook.
  destruct Hbook
    as (Hhist & Hprod & (u & u' & Hu & Htab & _ & _ & _ & _ & Hscans)).
  split; [exact H200|].
  split; [exact Hhist|].
  split; [exact Hprod|].
  exists u'. injection Hu as <-.
  split; [exact Htab|]. split; [reflexivity|].
  apply (Hscans 4%Z); [reflexivity | | reflexivity].
  repeat constructor; simpl; intuition discriminate.
Defined.

(** C8 as stated fails: when the barcode lookup throws, a request about a
    barcode that is already in Products is answered 200 with a history
    record whose Action is 'scan'. *)
Lemma failed_lookup_is_logged_as_scan :
  ~ (forall req w r w',
       sample_post_products req w = (r, w') ->
       status r = 200%nat ->
       lookup PRODUCTS "Barcode" (obj_get "barcode" (body req)) w <> [] ->
       exists h,
         tables w' SCAN_HISTORY = tables w SCAN_HISTORY ++ [h] /\
         obj_get "Action" (fields h) = VStr "update").
Proof.
  intros H.
  destruct (sample_post_products (scan_request "0123456789012")
              (sample_world [Some "ETIMEDOUT"])) as [r w'] eqn:Hrun.
  assert (Hhist : status r = 200%nat /\
                  map (fun h => obj_get "Action" (fields h))
                    (tables w' SCAN_HISTORY) = [VStr "scan"]).
  { vm_compute in Hrun. injection Hrun as <- <-. split; reflexivity. }
  destruct Hhist as [H200 Hhist].
  destruct (H _ _ _ _ Hrun H200) as (h & Htab & Haction).
  - discriminate.
  - rewrite Htab in Hhist. simpl in Hhist. congruence.
Qed.

End ServerFacts.

(* ================================================================== *)
(** * The automation script: outputs and edge cases *)
(* ================================================================== *)

Module SyncExtras.
Import Sync SyncSamples SyncMore.

Section Runs.

Variable JSON_stringify : value -> string.
Variable Date_parse : string -> option Z.
Variable toFixed : Q -> nat -> string.

Local Abbreviation shouldSync := (Sync.shouldSync Date_parse toFixed).
Local Abbreviation main := (Sync.main JSON_stringify Date_parse toFixed).
Local Abbreviation new_Date := (Sync.new_Date Date_parse).
Local Abbreviation webhook_request := (Sync.webhook_request JSON_stringify).
Local Abbreviation after_fetch := (Sync.after_fetch JSON_stringify).

Lemma outputs_app (key : string) (a b : list effect) :
  outputs key (a ++ b) = outputs key a ++ outputs key b.
Proof. unfold outputs. apply flat_map_app. Qed.

Lemma outputs_logged (key : string) (tt : value) (now_ms : Z) (r : record) :
  outputs key (fst (shouldSync tt now_ms r)) = [].
Proof.
  unfold Sync.shouldSync.
  destruct (strict_eq_str tt "create"); [reflexivity|].
  destruct (truthy _); [|reflexivity].
  destruct (number_lt _ _); reflexivity.
Qed.

Lemma statuses_after_fetch (o : fetch_outcome) :
  statuses (after_fetch o) = ["success"] \/ statuses (after_fetch o) = ["error"].
Proof. destruct o as [[?|?]|?|?]; simpl; auto. Qed.

(** X1. Whatever the input variables, the table and the webhook do, a run
    sets the output [status] exactly once. The status is 'skipped',
    'record_not_found' or 'no_record_id' when nothing was posted, and
    'success' or 'error' when exactly one webhook call was made; no run
    posts twice. *)
Theorem run_sets_status_once (e : env) :
  exists s,
    statuses (main e) = [s] /\
    ((In s ["skipped"; "record_not_found"; "no_record_id"] /\
      posts (main e) = []) \/
     (In s ["success"; "error"] /\ length (posts (main e)) = 1%nat)).
Proof.
  unfold Sync.main.
  destruct (truthy (obj_get "recordId" (inputConfig e)));
    [|exists "no_record_id"; simpl; intuition].
  destruct (selectRecordAsync e _) as [r|];
    [|exists "record_not_found"; simpl; intuition].
  pose proof (outputs_logged "status"
                (obj_get "triggerType" (inputConfig e)) (now e) r) as Hl.
  pose proof (SyncFacts.posts_logged Date_parse toFixed
                (obj_get "triggerType" (inputConfig e)) (now e) r) as Hp.
  destruct (shouldSync _ (now e) r) as [logged [|]]; simpl in Hl, Hp;
    unfold statuses; rewrite outputs_app, SyncFacts.posts_app, Hl, Hp; simpl.
  - rewrite SyncFacts.posts_after_fetch.
    destruct (statuses_after_fetch
                (fetch e (webhook_request
                            (webhookData
                               (obj_get "triggerType" (inputConfig e))
                               (base_id e) r)))) as [H|H];
      unfold statuses in H; rewrite H;
      [exists "success" | exists "error"]; simpl; intuition.
  - exists "skipped". simpl. intuition.
Qed.

(** X2. A failing webhook never aborts the run: whether [fetch] rejects,
    the endpoint answers with an error status or its body is not JSON, the
    run ends with status 'error' and the error text in the output [error];
    only a successful answer whose body parses gives status 'success' and
    the output [response]. *)
Theorem webhook_answer_is_reported (e : env) (tt : string) (r : record) :
  event_of e tt r ->
  snd (shouldSync (VStr tt) (now e) r) = true ->
  match fetch e (webhook_request (webhookData (VStr tt) (base_id e) r)) with
  | ResponseOk (inl result) =>
      statuses (main e) = ["success"] /\
      outputs "response" (main e) = [JSON_stringify result] /\
      outputs "error" (main e) = []
  | ResponseOk (inr error) | ResponseNotOk error | FetchThrows error =>
      statuses (main e) = ["error"] /\
      outputs "error" (main e) = [error] /\
      outputs "response" (main e) = []
  end.
Proof.
  intros (Ht & Hid & Hsel) Hs. unfold Sync.main, statuses.
  rewrite Hid, Hsel, Ht.
  pose proof (fun key => outputs_logged key (VStr tt) (now e) r) as Hl.
  destruct (shouldSync (VStr tt) (now e) r) as [logged sync].
  simpl in Hs, Hl. subst sync. simpl.
  rewrite !outputs_app, !Hl. simpl.
  destruct (fetch e _) as [[result|error]|error|error]; simpl; auto.
Qed.

(** X3. Only the trigger type 'create' bypasses the timestamp check: any
    other trigger type (delete, or a misspelt one) is decided exactly as an
    update. For those, a cell that gives no valid date never suppresses
    (a text that does not parse, or a number beyond the 8.64e15
    milliseconds a date can hold), a timestamp at or after the current
    time always suppresses, and a timestamp exactly one minute old does
    not. *)
Theorem only_create_bypasses_the_check :
  (forall (tt : value) (now_ms : Z) (r : record),
     strict_eq_str tt "create" = false ->
     shouldSync tt now_ms r = shouldSync (VStr "update") now_ms r) /\
  (forall (tt : value) (now_ms : Z) (r : record),
     strict_eq_str tt "create" = false ->
     new_Date (last_sync r) = None ->
     snd (shouldSync tt now_ms r) = true) /\
  (forall (tt : value) (now_ms t : Z) (r : record),
     strict_eq_str tt "create" = false ->
     truthy (last_sync r) = true ->
     new_Date (last_sync r) = Some t ->
     (now_ms <= t)%Z ->
     snd (shouldSync tt now_ms r) = false) /\
  (forall (tt : value) (now_ms t : Z) (r : record),
     strict_eq_str tt "create" = false ->
     new_Date (last_sync r) = Some t ->
     (now_ms - t = 60000)%Z ->
     snd (shouldSync tt now_ms r) = true) /\
  (forall (tt : value) (now_ms n : Z) (r : record),
     strict_eq_str tt "create" = false ->
     last_sync r = VNum n ->
     (Z.abs n > MAX_TIME)%Z ->
     snd (shouldSync tt now_ms r) = true).
Proof.
  split; [|split; [|split; [|split]]].
  - intros tt now_ms r Hc. unfold Sync.shouldSync. now rewrite Hc.
  - intros tt now_ms r Hc Hd.
    apply (SyncFacts.shouldSync_not_create Date_parse toFixed tt now_ms r Hc).
    intros [_ [t [Ht _]]]. congruence.
  - intros tt now_ms t r Hc Hset Hd Hle.
    apply (SyncFacts.shouldSync_not_create Date_parse toFixed tt now_ms r Hc).
    split; [exact Hset|]. exists t. split; [exact Hd | lia].
  - intros tt now_ms t r Hc Hd Hage.
    apply (SyncFacts.shouldSync_not_create Date_parse toFixed tt now_ms r Hc).
    intros [_ [t' [Ht' Hlt]]]. rewrite Hd in Ht'. injection Ht' as <-. lia.
  - intros tt now_ms n r Hc Hcell Hfar.
    apply (SyncFacts.shouldSync_not_create Date_parse toFixed tt now_ms r Hc).
    intros [_ [t [Ht _]]]. rewrite Hcell in Ht.
    unfold Sync.new_Date, time_value, time_clip in Ht. simpl in Ht.
    destruct (Z.leb_spec (Z.abs n) MAX_TIME); [lia | discriminate].
Qed.

End Runs.

(** ** The theorems at the sample runs *)

Lemma webhook_answer_is_reported_witness :
  let e := sample_env "update" 90000 in
  event_of e "update" sample_record /\
  snd (Sync.shouldSync sample_Date_parse sample_toFixed (VStr "update")
         (now e) sample_record) = true /\
  statuses (Sync.main sample_stringify sample_Date_parse sample_toFixed e)
  = ["success"].
Proof.
  intros e. split; [apply SyncFacts.sample_event|]. split; [reflexivity|].
  apply (webhook_answer_is_reported sample_stringify sample_Date_parse
           sample_toFixed e "update" sample_record
           (SyncFacts.sample_event "update" 90000) eq_refl).
Defined.

Lemma only_create_bypasses_the_check_witness :
  strict_eq_str (VStr "delete") "create" = false /\
  truthy (last_sync sample_record) = true /\
  Sync.new_Date sample_Date_parse (last_sync sample_record)
  = Some sample_sync_ms /\
  (sample_sync_ms - 5000 <= sample_sync_ms)%Z /\
  snd (Sync.shouldSync sample_Date_parse sample_toFixed (VStr "delete")
         (sample_sync_ms - 5000) sample_record) = false /\
  (sample_sync_ms + 60000 - sample_sync_ms = 60000)%Z /\
  snd (Sync.shouldSync sample_Date_parse sample_toFixed (VStr "delete")
         (sample_sync_ms + 60000) sample_record) = true /\
  Sync.new_Date sample_Date_parse (last_sync garbled_record) = None /\
  snd (Sync.shouldSync sample_Date_parse sample_toFixed (VStr "update")
         sample_sync_ms garbled_record) = true /\
  last_sync far_record = VNum (10 ^ 16) /\
  (Z.abs (10 ^ 16) > MAX_TIME)%Z /\
  snd (Sync.shouldSync sample_Date_parse sample_toFixed (VStr "update")
         sample_sync_ms far_record) = true.
Proof.
  destruct (only_create_bypasses_the_check sample_Date_parse sample_toFixed)
    as (_ & Hnan & Hfuture & Hedge & Hfar).
  split; [reflexivity|]. split; [reflexivity|]. split; [reflexivity|].
  split; [unfold sample_sync_ms; lia|].
  split; [apply (Hfuture _ _ sample_sync_ms); try reflexivity;
          unfold sample_sync_ms; lia|].
  split; [lia|].
  split; [apply (Hedge _ _ sample_sync_ms); try reflexivity; lia|].
  split; [reflexivity|].
  split; [apply Hnan; reflexivity|].
  split; [reflexivity|].
  split; [reflexivity|].
  apply (Hfar _ _ (10 ^ 16)%Z); reflexivity.
Defined.

End SyncExtras.

(* ================================================================== *)
(** * The backend: what the routes leave behind *)
(* ================================================================== *)

Module ServerExtras.
Import Server ServerSamples ServerMore MoreSamples.
Local Open Scope js_scope.

(** ** Objects and records *)

(** Reading a spread: the left operand where the right one lacks the
    property. *)
Lemma obj_get_spread_absent (k : string) (b : obj) :
  forall a : obj,
    existsb (String.eqb k) (map fst b) = false ->
    obj_get k (spread a b) = obj_get k a.
Proof.
  unfold spread.
  induction b as [|[k1 v1] b IH]; intros a Hk; simpl in *; [reflexivity|].
  apply orb_false_elim in Hk. destruct Hk as [Hk1 Hk].
  rewrite (IH _ Hk). simpl. apply JSFacts.obj_get_set_other.
  intros ->. now rewrite String.eqb_refl in Hk1.
Qed.

Lemma absent_outside (k : string) (keys allowed : list string) :
  incl keys allowed -> ~ In k allowed ->
  existsb (String.eqb k) keys = false.
Proof.
  intros Hincl Hk. apply not_true_is_false. intros H.
  apply existsb_exists in H. destruct H as [x [Hin Hx]].
  apply String.eqb_eq in Hx. subst x. auto.
Qed.

Lemma same_id_same_record (l : list rec) (x y : rec) :
  NoDup (ids l) -> In x l -> In y l -> rec_id x = rec_id y -> x = y.
Proof.
  unfold ids. induction l as [|a l IH]; simpl; [tauto|].
  intros Hnd Hx Hy Hid. inversion Hnd as [|? ? Hnotin Hnd']; subst.
  destruct Hx as [->|Hx], Hy as [->|Hy]; auto.
  - elim Hnotin. rewrite Hid. now apply in_map.
  - elim Hnotin. rewrite <- Hid. now apply in_map.
Qed.

Lemma has_id_same (rid : value) (x y : rec) :
  has_id rid x = true -> has_id rid y = true -> rec_id x = rec_id y.
Proof.
  unfold has_id. intros Hx Hy.
  apply JSFacts.strict_eq_str_true in Hx, Hy. congruence.
Qed.

Lemma ids_of_credentials (l : list rec) :
  ids l = map (fun c => fst (fst c)) (map credentials l).
Proof. unfold ids. rewrite map_map. reflexivity. Qed.

(** Writing cells other than Email and Password over the record an id
    names leaves everyone's credentials as they were. *)
Lemma credentials_updated (rid : value) (r : rec) (f : obj) (l : list rec) :
  NoDup (ids l) ->
  find (has_id rid) l = Some r ->
  incl (map fst f) user_cells ->
  map credentials
    (map (fun x => if has_id rid x
                   then {| rec_id := rec_id r;
                           fields := spread (fields r) f |}
                   else x) l)
  = map credentials l.
Proof.
  intros Hnd Hfind Hf. rewrite map_map. apply map_ext_in.
  intros x Hx. destruct (has_id rid x) eqn:Hid; [|reflexivity].
  apply find_some in Hfind. destruct Hfind as [Hr Hrid].
  assert (x = r) as ->
    by (apply (same_id_same_record l); auto; now apply (has_id_same rid)).
  unfold credentials. simpl.
  rewrite !obj_get_spread_absent; [reflexivity| |];
    apply (absent_outside _ _ user_cells Hf);
    simpl; intros [H|[H|[]]]; discriminate H.
Qed.

(** ** Composing properties of runs *)

Section Holds.

Context {A B : Type}.

Lemma holds_ret (Q : world -> world -> Prop) (a : A) :
  (forall w, Q w w) -> holds Q (ret a).
Proof. intros Hrefl w. apply Hrefl. Qed.

Lemma holds_throw (Q : world -> world -> Prop) (message : string) :
  (forall w, Q w w) -> holds Q (@throw A message).
Proof. intros Hrefl w. apply Hrefl. Qed.

Lemma holds_lift (Q : world -> world -> Prop) (o : outcome A) :
  (forall w, Q w w) -> holds Q (lift o).
Proof. intros Hrefl w. apply Hrefl. Qed.

(** [m] and then [k]: the property of the whole is the composition of the
    properties of the parts. *)
Lemma holds_bind (Q1 Q2 Q3 : world -> world -> Prop)
  (m : M A) (k : A -> M B) :
  (forall w w1, Q1 w w1 -> Q3 w w1) ->
  (forall w w1 w2, Q1 w w1 -> Q2 w1 w2 -> Q3 w w2) ->
  holds Q1 m -> (forall a, holds Q2 (k a)) -> holds Q3 (bind m k).
Proof.
  intros Hsub Hcomp Hm Hk w. unfold bind.
  specialize (Hm w). destruct (m w) as [[a|e] w1]; simpl in *.
  - eapply Hcomp; [exact Hm | apply Hk].
  - now apply Hsub.
Qed.

Lemma holds_try_catch (Q : world -> world -> Prop)
  (m : M A) (h : string -> M A) :
  (forall w w1 w2, Q w w1 -> Q w1 w2 -> Q w w2) ->
  holds Q m -> (forall e, holds Q (h e)) -> holds Q (try_catch m h).
Proof.
  intros Htrans Hm Hh w. unfold try_catch.
  specialize (Hm w). destruct (m w) as [[a|e] w1]; simpl in *.
  - exact Hm.
  - eapply Htrans; [exact Hm | apply Hh].
Qed.

End Holds.

(** ** The tables a route writes *)

Section Footprint.

Variable jwt_verify : value -> outcome value.
Variable jwt_sign : obj -> value -> string.
Variable bcrypt_hash : value -> nat -> outcome string.
Variable bcrypt_compare : value -> value -> outcome bool.
Variable start_of_day : string -> string.
Variable parseInt : value -> value.
Variable parseFloat : value -> value.
Variable JSON_stringify : value -> string.
Variable lookupOpenFoodFacts : value -> value.
Variable lookupUPCItemDB : value -> value.
Variable lookupBarcodeLookup : value -> value.

Local Abbreviation app :=
  (Server.app jwt_sign bcrypt_hash bcrypt_compare start_of_day parseInt
     parseFloat JSON_stringify lookupOpenFoodFacts lookupUPCItemDB
     lookupBarcodeLookup).
Local Abbreviation serve := (Server.serve jwt_verify).

(** A relation between the tables before and after that every read
    respects, with the writes it lets a computation make: the cells it may
    create a record with in a table, the cells it may write over a record
    of a table, the tables it may delete from. *)
Variable Rt : (string -> list rec) -> (string -> list rec) -> Prop.
Variable creatable updatable : string -> obj -> Prop.
Variable deletable : string -> Prop.

Hypothesis Rt_refl : forall tb, Rt tb tb.
Hypothesis Rt_trans : forall a b c, Rt a b -> Rt b c -> Rt a c.
Hypothesis Rt_create :
  forall tb t rid f,
    creatable t f ->
    Rt tb (fun n => if String.eqb n t
                    then tb t ++ [{| rec_id := rid; fields := f |}]
                    else tb n).
Hypothesis Rt_update :
  forall tb t rid r f,
    updatable t f ->
    find (has_id rid) (tb t) = Some r ->
    Rt tb (fun n =>
             if String.eqb n t
             then map (fun x => if has_id rid x
                                then {| rec_id := rec_id r;
                                        fields := spread (fields r) f |}
                                else x) (tb t)
             else tb n).
Hypothesis Rt_destroy :
  forall tb t rid,
    deletable t ->
    Rt tb (fun n =>
             if String.eqb n t
             then filter (fun x => negb (has_id rid x)) (tb t)
             else tb n).

Local Abbreviation keeps := (holds (related Rt)).

Lemma related_refl (w : world) : related Rt w w.
Proof. apply Rt_refl. Qed.

(** The tables are the very same: only the bookkeeping moved. *)
Local Ltac same_tables := unfold related; simpl; apply Rt_refl.

Lemma related_trans (w w1 w2 : world) :
  related Rt w w1 -> related Rt w1 w2 -> related Rt w w2.
Proof. apply Rt_trans. Qed.

Lemma keeps_bind {A B} (m : M A) (k : A -> M B) :
  keeps m -> (forall a, keeps (k a)) -> keeps (bind m k).
Proof.
  apply (holds_bind (related Rt) (related Rt) (related Rt)).
  - auto.
  - apply related_trans.
Qed.

Lemma keeps_now_iso : keeps now_iso.
Proof. intros w. same_tables. Qed.

Lemma keeps_log_error (line : string) : keeps (log_error line).
Proof. intros w. same_tables. Qed.

Lemma keeps_member (v : value) (k : string) : keeps (member v k).
Proof. intros w. destruct v; same_tables. Qed.

Lemma keeps_iterate (name : string) (v : value) : keeps (iterate name v).
Proof. intros w. destruct v; same_tables. Qed.

Lemma keeps_lookup_ident {A} (scope : list (string * A)) (x : string) :
  keeps (lookup_ident scope x).
Proof.
  intros w. induction scope as [|[y a] scope IH]; simpl.
  - same_tables.
  - destruct (String.eqb x y); [same_tables | exact IH].
Qed.

Lemma keeps_firstPage (t : string) (opts : select_opts) :
  keeps (firstPage t opts).
Proof.
  intros w. unfold firstPage. rewrite ServerFacts.api_step.
  destruct (next_fault w); [same_tables|].
  unfold bind, lift.
  destruct (limit_of (maxRecords opts) None); [|same_tables].
  destruct (limit_of (pageSize opts) (Some 100%nat)); same_tables.
Qed.

Lemma keeps_allPages (t : string) (opts : select_opts) :
  keeps (allPages t opts).
Proof.
  intros w. unfold allPages. rewrite ServerFacts.api_step.
  destruct (next_fault w); [same_tables|].
  unfold bind, lift.
  destruct (limit_of (maxRecords opts) None); same_tables.
Qed.

Lemma keeps_findRecordByField (t f : string) (v : value) :
  keeps (findRecordByField t f v).
Proof.
  intros w. rewrite ServerFacts.findRecordByField_step.
  destruct (next_fault w); same_tables.
Qed.

Lemma keeps_createRecord (t : string) (f : obj) :
  creatable t f -> keeps (createRecord t f).
Proof.
  intros Hw w. rewrite ServerFacts.createRecord_step.
  destruct (next_fault w); [same_tables|].
  apply (Rt_create (tables w) t _ f Hw).
Qed.

Lemma keeps_updateRecord (t : string) (rid : value) (f : obj) :
  updatable t f -> keeps (updateRecord t rid f).
Proof.
  intros Hw w. rewrite ServerFacts.updateRecord_step.
  destruct (next_fault w); [same_tables|].
  destruct (find (has_id rid) (tables w t)) as [r|] eqn:E;
    [|same_tables].
  apply (Rt_update (tables w) t rid r f Hw E).
Qed.

Lemma keeps_destroy (t : string) (rid : value) :
  deletable t -> keeps (destroy t rid).
Proof.
  intros Hd w. unfold destroy. rewrite ServerFacts.api_step.
  destruct (next_fault w); [same_tables|].
  destruct (find (has_id rid) _); [|same_tables].
  apply (Rt_destroy (tables w) t rid Hd).
Qed.

Lemma keeps_try_or_500 (label : option string) (m : M response) :
  keeps m -> forall w, related Rt w (snd (try_or_500 label m w)).
Proof.
  intros Hm w. unfold try_or_500. specialize (Hm w).
  destruct (m w) as [[r|e] w1]; simpl in *; [exact Hm|].
  destruct label; exact Hm.
Qed.

(** One step through the body of a handler. *)
Local Ltac keeps_step :=
  cbv beta zeta;
  lazymatch goal with
  | |- holds _ (bind _ _) => apply keeps_bind; [|intros ?]
  | |- holds _ (ret _) => intros ?; same_tables
  | |- holds _ (throw _) => intros ?; same_tables
  | |- holds _ (lift _) => intros ?; same_tables
  | |- holds _ now_iso => apply keeps_now_iso
  | |- holds _ (member _ _) => apply keeps_member
  | |- holds _ (iterate _ _) => apply keeps_iterate
  | |- holds _ (lookup_ident _ _) => apply keeps_lookup_ident
  | |- holds _ (firstPage _ _) => apply keeps_firstPage
  | |- holds _ (allPages _ _) => apply keeps_allPages
  | |- holds _ (findRecordByField _ _ _) => apply keeps_findRecordByField
  | |- holds _ (createRecord _ _) => apply keeps_createRecord; auto
  | |- holds _ (updateRecord _ _ _) => apply keeps_updateRecord; auto
  | |- holds _ (destroy _ _) => apply keeps_destroy; assumption
  | |- holds _ (if ?b then _ else _) => destruct b
  | |- holds _ (match ?x with _ => _ end) => destruct x
  | |- holds _ (fun w => _) => intros ?; same_tables
  end.

Lemma register_keeps (req : request) :
  (forall f, creatable USERS f) ->
  keeps (register_body jwt_sign bcrypt_hash req).
Proof. intros Hu. unfold register_body. repeat keeps_step. Qed.

Lemma login_keeps (req : request) :
  (forall stamp, updatable USERS [("LastActive", stamp)]) ->
  keeps (login_body jwt_sign bcrypt_compare req).
Proof. intros Hu. unfold login_body. repeat keeps_step. Qed.

Lemma lookup_product_keeps (req : request) :
  keeps (lookup_product_body lookupOpenFoodFacts lookupUPCItemDB
           lookupBarcodeLookup req).
Proof. unfold lookup_product_body. repeat keeps_step. Qed.

Lemma get_products_keeps (req : request) :
  keeps (get_products_body parseInt req).
Proof. unfold get_products_body. repeat keeps_step. Qed.

Lemma get_product_keeps (req : request) : keeps (get_product_body req).
Proof. unfold get_product_body. repeat keeps_step. Qed.

Lemma post_products_keeps (req : request) :
  (forall f, creatable PRODUCTS f) ->
  (forall f, updatable PRODUCTS f) ->
  (forall f, creatable SCAN_HISTORY f) ->
  (forall scans stamp,
     updatable USERS [("TotalScans", scans); ("LastActive", stamp)]) ->
  keeps (post_products_body parseInt parseFloat JSON_stringify req).
Proof.
  intros Hc Hp Hh Hu. unfold post_products_body. repeat keeps_step.
Qed.

Lemma upload_image_keeps (req : request) :
  (forall f, updatable PRODUCTS f) -> keeps (upload_image_body req).
Proof. intros Hp. unfold upload_image_body. repeat keeps_step. Qed.

Lemma delete_product_keeps (req : request) :
  deletable PRODUCTS -> (forall f, creatable SCAN_HISTORY f) ->
  keeps (delete_product_body req).
Proof. intros Hp Hh. unfold delete_product_body. repeat keeps_step. Qed.

Lemma count_by_status_keeps (statuses : list string) :
  forall statusCounts, keeps (count_by_status statuses statusCounts).
Proof.
  induction statuses as [|status rest IH]; intros statusCounts; simpl.
  - keeps_step.
  - keeps_step; [keeps_step | apply IH].
Qed.

Lemma stats_keeps (req : request) : keeps (stats_body start_of_day req).
Proof.
  unfold stats_body.
  repeat first [apply count_by_status_keeps | keeps_step].
Qed.

Lemma history_keeps (req : request) : keeps (history_body parseInt req).
Proof. unfold history_body. repeat keeps_step. Qed.

Lemma export_csv_keeps (req : request) : keeps (export_csv_body req).
Proof. unfold export_csv_body. repeat keeps_step. Qed.

Lemma bulk_loop_keeps (req : request) (barcodes : list value) :
  (forall f, creatable PRODUCTS f) ->
  forall results errors,
    keeps (bulk_loop JSON_stringify lookupOpenFoodFacts lookupUPCItemDB
             lookupBarcodeLookup req barcodes results errors).
Proof.
  intros Hp. induction barcodes as [|barcode rest IH];
    intros results errors; simpl.
  - keeps_step.
  - keeps_step; [|apply IH].
    apply holds_try_catch; [apply related_trans | |intros ?; keeps_step].
    unfold bulk_item. repeat keeps_step.
Qed.

Lemma bulk_keeps (req : request) :
  (forall f, creatable PRODUCTS f) ->
  keeps (bulk_body JSON_stringify lookupOpenFoodFacts lookupUPCItemDB
           lookupBarcodeLookup req).
Proof.
  intros Hp. unfold bulk_body.
  repeat first [apply bulk_loop_keeps; assumption | keeps_step].
Qed.

Lemma get_settings_keeps (req : request) : keeps (get_settings_body req).
Proof. unfold get_settings_body. repeat keeps_step. Qed.

Lemma post_settings_keeps (req : request) :
  (forall f, creatable SETTINGS f) -> (forall f, updatable SETTINGS f) ->
  keeps (post_settings_body req).
Proof. intros Hc Hs. unfold post_settings_body. repeat keeps_step. Qed.

(** Every handler respects the relation as long as the writes of its
    footprint are allowed; of a user record the handlers only write the
    cells [user_cells]. *)
Lemma run_keeps (e : endpoint) (req : request) (w : world) :
  In e app ->
  (forall t f, In t (creates e) -> creatable t f) ->
  (forall t f,
     In t (updates e) ->
     (t = USERS -> incl (map fst f) user_cells) ->
     updatable t f) ->
  (forall t, In t (deletes e) -> deletable t) ->
  related Rt w (snd (run e req w)).
Proof.
  intros Hin Hcreate Hwrite Hdelete. unfold Server.app in Hin.
  assert (Hother :
            forall t f,
              In t (updates e) -> t <> USERS -> updatable t f)
    by (intros t f Ht Hne; apply Hwrite; [exact Ht | intros ->; now elim Hne]).
  destruct Hin as [<-|[<-|[<-|[<-|[<-|[<-|[<-|[<-|[<-|[<-|[<-|[<-|[<-|[<-|[]
    ]]]]]]]]]]]]]];
    cbn [run]; apply keeps_try_or_500.
  - apply register_keeps. intros f. apply Hcreate. now left.
  - apply login_keeps. intros stamp.
    apply Hwrite; [now left | intros _ k [<-|[]]; simpl; auto].
  - apply lookup_product_keeps.
  - apply get_products_keeps.
  - apply get_product_keeps.
  - apply post_products_keeps.
    + intros f. apply Hcreate. now left.
    + intros f. apply Hother; [now left | discriminate].
    + intros f. apply Hcreate. right. now left.
    + intros scans stamp.
      apply Hwrite; [right; now left | intros _ k [<-|[<-|[]]]; simpl; auto].
  - apply upload_image_keeps. intros f.
    apply Hother; [now left | discriminate].
  - apply delete_product_keeps;
      [apply Hdelete; now left | intros f; apply Hcreate; now left].
  - apply stats_keeps.
  - apply history_keeps.
  - apply export_csv_keeps.
  - apply bulk_keeps. intros f. apply Hcreate. now left.
  - apply get_settings_keeps.
  - apply post_settings_keeps; intros f;
      [apply Hcreate; now left | apply Hother; [now left | discriminate]].
Qed.

Lemma authenticateToken_keeps (next : handler) (req : request) (w : world) :
  (forall req' w', related Rt w' (snd (next req' w'))) ->
  related Rt w (snd (Server.authenticateToken jwt_verify next req w)).
Proof.
  intros Hnext. unfold Server.authenticateToken.
  destruct (negb (truthy (bearer_token req))); [same_tables|].
  match goal with
  | |- context [match ?m w with _ => _ end] =>
      assert (Hm : keeps m) by repeat keeps_step;
      specialize (Hm w); destruct (m w) as [[[r|u]|e] w1]
  end; simpl in *; try exact Hm.
  eapply related_trans; [exact Hm | apply Hnext].
Qed.

Lemma serve_keeps (e : endpoint) (req : request) (w : world) :
  In e app ->
  (forall t f, In t (creates e) -> creatable t f) ->
  (forall t f,
     In t (updates e) ->
     (t = USERS -> incl (map fst f) user_cells) ->
     updatable t f) ->
  (forall t, In t (deletes e) -> deletable t) ->
  related Rt w (snd (serve e req w)).
Proof.
  intros Hin Hc Hw Hd. unfold Server.serve.
  destruct (guarded e).
  - apply authenticateToken_keeps. intros req' w'. now apply run_keeps.
  - now apply run_keeps.
Qed.

End Footprint.

Section Routes.

Variable jwt_verify : value -> outcome value.
Variable jwt_sign : obj -> value -> string.
Variable bcrypt_hash : value -> nat -> outcome string.
Variable bcrypt_compare : value -> value -> outcome bool.
Variable start_of_day : string -> string.
Variable parseInt : value -> value.
Variable parseFloat : value -> value.
Variable JSON_stringify : value -> string.
Variable lookupOpenFoodFacts : value -> value.
Variable lookupUPCItemDB : value -> value.
Variable lookupBarcodeLookup : value -> value.

Local Abbreviation app :=
  (Server.app jwt_sign bcrypt_hash bcrypt_compare start_of_day parseInt
     parseFloat JSON_stringify lookupOpenFoodFacts lookupUPCItemDB
     lookupBarcodeLookup).
Local Abbreviation serve := (Server.serve jwt_verify).
Local Abbreviation serve_keeps :=
  (serve_keeps jwt_verify jwt_sign bcrypt_hash bcrypt_compare start_of_day
     parseInt parseFloat JSON_stringify lookupOpenFoodFacts lookupUPCItemDB
     lookupBarcodeLookup).

Lemma get_routes_write_nothing (e : endpoint) :
  In e app -> method e = GET -> writes e = [].
Proof.
  unfold Server.app. intros Hin Hget.
  destruct Hin as [<-|[<-|[<-|[<-|[<-|[<-|[<-|[<-|[<-|[<-|[<-|[<-|[<-|[<-|[]
    ]]]]]]]]]]]]]];
    first [discriminate Hget | reflexivity].
Qed.

(** X4. Serving a request changes no table outside the footprint of its
    route: register and login write Users only, POST /api/products writes
    Products, ScanHistory and Users, the image and bulk routes Products,
    DELETE removes from Products and writes ScanHistory, POST /api/settings
    writes Settings. In particular a GET request never changes any table,
    whatever Airtable and the token check do. *)
Theorem routes_write_only_their_tables :
  (forall (e : endpoint) (req : request) (w : world) (t : string),
     In e app ->
     ~ In t (writes e) ->
     untouched t w (snd (serve e req w))) /\
  (forall (e : endpoint) (req : request) (w : world) (t : string),
     In e app ->
     method e = GET ->
     untouched t w (snd (serve e req w))).
Proof.
  assert (Hmain :
            forall e req w t,
              In e app -> ~ In t (writes e) ->
              untouched t w (snd (serve e req w))).
  { intros e req w t Hin Hout.
    apply (serve_keeps (fun tb tb' => tb' t = tb t)
             (fun n _ => n <> t) (fun n _ => n <> t) (fun n => n <> t)).
    - reflexivity.
    - intros a b c Hab Hbc. congruence.
    - intros tb n rid f Hn.
      destruct (String.eqb_spec t n); [now subst | reflexivity].
    - intros tb n rid r f Hn _.
      destruct (String.eqb_spec t n); [now subst | reflexivity].
    - intros tb n rid Hn.
      destruct (String.eqb_spec t n); [now subst | reflexivity].
    - exact Hin.
    - intros n f Hn ->. apply Hout. unfold writes.
      apply in_or_app. now left.
    - intros n f Hn _ ->. apply Hout. unfold writes.
      apply in_or_app. right. apply in_or_app. now left.
    - intros n Hn ->. apply Hout. unfold writes.
      apply in_or_app. right. apply in_or_app. now right. }
  split; [exact Hmain|].
  intros e req w t Hin Hget. apply Hmain; [exact Hin|].
  rewrite (get_routes_write_nothing e Hin Hget). simpl. tauto.
Qed.

Lemma ids_updated (rid : value) (r : rec) (f : obj) (l : list rec) :
  has_id rid r = true ->
  ids (map (fun x => if has_id rid x
                     then {| rec_id := rec_id r;
                             fields := spread (fields r) f |}
                     else x) l)
  = ids l.
Proof.
  intros Hr. unfold ids. rewrite map_map. apply map_ext_in.
  intros x _. destruct (has_id rid x) eqn:Hx; [|reflexivity]. simpl.
  unfold has_id in *.
  apply JSFacts.strict_eq_str_true in Hr, Hx. congruence.
Qed.

(** X5. Only DELETE /api/products/:barcode ever removes a record: after
    any other request every record of every table is still there, under
    the same id and in the same order; records can only have been added
    after them. *)
Theorem only_delete_removes_records
  (e : endpoint) (req : request) (w : world) :
  In e app ->
  is_delete e = false ->
  keeps_records w (snd (serve e req w)).
Proof.
  intros Hin Hnd.
  apply (serve_keeps
           (fun tb tb' =>
              forall t, exists added, ids (tb' t) = ids (tb t) ++ added)
           (fun _ _ => True) (fun _ _ => True) (fun _ => False)).
  - intros tb t. exists []. now rewrite app_nil_r.
  - intros a b c Hab Hbc t.
    destruct (Hab t) as [x Hx]. destruct (Hbc t) as [y Hy].
    exists (x ++ y). now rewrite Hy, Hx, app_assoc.
  - intros tb n rid f _ t. destruct (String.eqb t n) eqn:E.
    + apply String.eqb_eq in E. subst n. exists [rid].
      unfold ids. now rewrite map_app.
    + exists []. now rewrite app_nil_r.
  - intros tb n rid r f _ Hfind t. destruct (String.eqb t n) eqn:E.
    + exists []. rewrite app_nil_r.
      apply String.eqb_eq in E. subst n.
      apply ids_updated. now apply find_some in Hfind.
    + exists []. now rewrite app_nil_r.
  - intros tb n rid [].
  - exact Hin.
  - auto.
  - auto.
  - intros n Hn. unfold deletes, is_delete in *.
    destruct (method e); first [discriminate Hnd | destruct Hn].
Qed.


End Routes.

(** ** Accounts *)

Lemma quiet_next (w : world) : faults w = [] -> next_fault w = None.
Proof. unfold next_fault. now intros ->. Qed.

Lemma quiet_after_call (c : call) (w : world) :
  faults w = [] -> faults (after_call c w) = [].
Proof. unfold after_call. simpl. now intros ->. Qed.

Lemma lookup_app (t f : string) (v : value) (w : world) (l1 l2 : list rec) :
  tables w t = l1 ++ l2 ->
  lookup t f v w
  = matching (field_equals f v) l1 ++ matching (field_equals f v) l2.
Proof. unfold lookup, matching. intros ->. apply filter_app. Qed.

Section Accounts.

Variable jwt_sign : obj -> value -> string.
Variable bcrypt_hash : value -> nat -> outcome string.
Variable bcrypt_compare : value -> value -> outcome bool.

Local Abbreviation register := (Server.register jwt_sign bcrypt_hash).
Local Abbreviation login := (Server.login jwt_sign bcrypt_compare).

(** X7. A registration adds at most one user, and only when it answers
    200: the record then holds the e-mail and name of the body, the bcrypt
    hash of the password (never the password), TotalScans 0 and the role
    'staff', whatever else the body carries. Any other answer (400, 500)
    leaves every table as it was. *)
Theorem registration_adds_one_hashed_staff_account
  (req : request) (w : world) :
  (status (fst (register req w)) <> 200%nat /\
   tables (snd (register req w)) = tables w) \/
  (exists h,
     bcrypt_hash (obj_get "password" (body req)) 10 = Ok h /\
     status (fst (register req w)) = 200%nat /\
     forall t,
       tables (snd (register req w)) t =
         if String.eqb t USERS
         then tables w USERS
                ++ [account (fresh_id (next_id w)) req h (clock w)]
         else tables w t).
Proof.
  unfold Server.register, try_or_500, register_body, bind.
  rewrite ServerFacts.findRecordByField_step.
  destruct (next_fault w) as [message|];
    [|destruct (lookup USERS "Email" (obj_get "email" (body req)) w)
        as [|u us]];
    cbn [truthy found];
    try (left; split; [discriminate | reflexivity]);
    unfold lift;
    (destruct (bcrypt_hash (obj_get "password" (body req)) 10) as [h|e];
     [|left; split; [discriminate | reflexivity]]);
    unfold now_iso; rewrite ServerFacts.createRecord_step;
    match goal with
    | |- context [next_fault ?x] => destruct (next_fault x)
    end;
    try (left; split; [discriminate | reflexivity]);
    right; exists h; (split; [reflexivity|]); (split; [reflexivity|]);
    intros t; reflexivity.
Qed.


(** What a registration that goes through answers and leaves behind. *)
Lemma register_new (req : request) (w : world) (em h : string) :
  obj_get "email" (body req) = VStr em ->
  faults w = [] ->
  lookup USERS "Email" (VStr em) w = [] ->
  bcrypt_hash (obj_get "password" (body req)) 10 = Ok h ->
  exists w1,
    register req w
    = (json (VObj (session jwt_sign (VStr (clock w))
                     (found (account (fresh_id (next_id w)) req h (clock w))))),
       w1) /\
    faults w1 = [] /\
    tables w1 USERS
    = tables w USERS ++ [account (fresh_id (next_id w)) req h (clock w)].
Proof.
  intros Hem Hf Hnew Hhash.
  unfold Server.register, try_or_500, register_body, bind.
  rewrite ServerFacts.findRecordByField_step, (quiet_next w Hf), Hem, Hnew.
  cbn [truthy]. unfold lift. rewrite <- Hem, Hhash. unfold now_iso.
  rewrite ServerFacts.createRecord_step, quiet_next
    by (apply quiet_after_call; exact Hf).
  eexists. split; [reflexivity|]. split.
  - simpl. now rewrite Hf.
  - reflexivity.
Qed.

Lemma account_matches (rid : string) (req : request) (h stamp em : string) :
  obj_get "email" (body req) = VStr em ->
  matching (field_equals "Email" (VStr em)) [account rid req h stamp]
  = [account rid req h stamp].
Proof.
  intros Hem. unfold matching, account, account_cells. simpl.
  rewrite Hem. simpl. now rewrite String.eqb_refl.
Qed.


(** X9. The duplicate check of the registration depends on its lookup
    going through. For an e-mail that is registered already: when the
    lookup is answered, the registration is refused with 400 and nothing
    is written; when the lookup fails, the failure reads as 'no such user'
    and a second account with the same e-mail is created and answered
    200. *)
Theorem registration_check_fails_open
  (req : request) (w : world) (em : string) (u : rec) (us : list rec) :
  obj_get "email" (body req) = VStr em ->
  lookup USERS "Email" (VStr em) w = u :: us ->
  (faults w = [] ->
   fst (register req w)
   = respond 400 [("error", VStr "User already exists")] /\
   tables (snd (register req w)) = tables w) /\
  (forall message h,
     faults w = [Some message] ->
     bcrypt_hash (obj_get "password" (body req)) 10 = Ok h ->
     status (fst (register req w)) = 200%nat /\
     lookup USERS "Email" (VStr em) (snd (register req w))
     = u :: us ++ [account (fresh_id (next_id w)) req h (clock w)]).
Proof.
  intros Hem Hl. split.
  - intros Hf.
    unfold Server.register, try_or_500, register_body, bind.
    rewrite ServerFacts.findRecordByField_step, (quiet_next w Hf), Hem, Hl.
    split; reflexivity.
  - intros message h Hf Hhash.
    unfold Server.register, try_or_500, register_body, bind.
    rewrite ServerFacts.findRecordByField_step.
    unfold next_fault at 1. rewrite Hf. cbn [truthy].
    unfold lift. rewrite Hhash. unfold now_iso.
    rewrite ServerFacts.createRecord_step.
    unfold next_fault, after_call. simpl. rewrite Hf. simpl.
    split; [reflexivity|].
    unfold lookup in *. simpl. unfold matching in *.
    rewrite filter_app, Hl. simpl. rewrite Hem. simpl.
    rewrite String.eqb_refl.
    unfold account, account_cells. now rewrite Hem.
Qed.

End Accounts.

(** ** Deleting a product *)

Lemma clean_id (r : rec) :
  no_id_cell r -> prop (found r) "id" = VStr (rec_id r).
Proof.
  intros Hno. unfold found, cleanRecord. cbn [prop].
  now rewrite obj_get_spread_absent.
Qed.

Lemma destroy_step (t : string) (rid : value) (w : world) :
  destroy t rid w =
    match next_fault w with
    | Some message => (Throw message, after_call (Destroy t rid) w)
    | None =>
        match find (has_id rid) (tables w t) with
        | Some _ =>
            (Ok tt,
             set_tables t
               (filter (fun x => negb (has_id rid x)) (tables w t))
               (after_call (Destroy t rid) w))
        | None => (Throw "Record not found", after_call (Destroy t rid) w)
        end
    end.
Proof.
  unfold destroy. rewrite ServerFacts.api_step.
  destruct (next_fault w); reflexivity.
Qed.

Lemma has_own_id (r : rec) : has_id (VStr (rec_id r)) r = true.
Proof. unfold has_id. simpl. apply String.eqb_refl. Qed.

Lemma find_own_id (r : rec) (l : list rec) :
  In r l -> exists r', find (has_id (VStr (rec_id r))) l = Some r'.
Proof.
  intros Hin. destruct (find _ l) eqn:Hfind; [eauto|].
  pose proof (find_none _ _ Hfind _ Hin) as Hno.
  now rewrite has_own_id in Hno.
Qed.

Lemma lookup_in (t f : string) (v : value) (w : world) (r : rec)
  (rs : list rec) :
  lookup t f v w = r :: rs -> In r (tables w t).
Proof.
  unfold lookup, matching. intros H.
  assert (Hin : In r (r :: rs)) by now left.
  rewrite <- H in Hin. now apply filter_In in Hin.
Qed.

Lemma ids_filter_NoDup (p : rec -> bool) (l : list rec) :
  NoDup (ids l) -> NoDup (ids (filter p l)).
Proof.
  unfold ids. induction l as [|a l IH]; simpl; intros Hnd; [constructor|].
  inversion Hnd as [|? ? Hnotin Hnd']; subst.
  destruct (p a); simpl; [|now apply IH].
  constructor; [|now apply IH].
  intros Hin. apply Hnotin. apply in_map_iff in Hin.
  destruct Hin as (x & Hx & Hin). apply filter_In in Hin.
  rewrite <- Hx. apply in_map. tauto.
Qed.

Lemma ids_after_destroy (i : string) (l : list rec) :
  ids (filter (fun x => negb (has_id (VStr i) x)) l)
  = filter (fun j => negb (String.eqb j i)) (ids l).
Proof.
  unfold ids. induction l as [|a l IH]; cbn [filter map]; [reflexivity|].
  unfold has_id at 1. cbn [strict_eq_str]. rewrite String.eqb_sym.
  destruct (String.eqb (rec_id a) i); cbn [negb map]; now rewrite IH.
Qed.

(** Removing the first record a query selects, by its id, leaves the
    other records the query selects. *)
Lemma lookup_after_destroy (phi : formula) (l : list rec) (p : rec)
  (ps : list rec) :
  NoDup (ids l) ->
  matching phi l = p :: ps ->
  matching phi (filter (fun x => negb (has_id (VStr (rec_id p)) x)) l) = ps.
Proof.
  intros Hnd Hl. unfold matching in *.
  assert (Hnd' : NoDup (ids (p :: ps)))
    by (rewrite <- Hl; now apply ids_filter_NoDup).
  assert (Hswap :
            forall l' : list rec,
              filter (fun r => eval_formula phi (fields r))
                (filter (fun x => negb (has_id (VStr (rec_id p)) x)) l')
              = filter (fun x => negb (has_id (VStr (rec_id p)) x))
                  (filter (fun r => eval_formula phi (fields r)) l')).
  { induction l' as [|a l' IH]; cbn [filter]; [reflexivity|].
    destruct (has_id (VStr (rec_id p)) a) eqn:Ha,
             (eval_formula phi (fields a)) eqn:Hphi;
      cbn [filter negb]; rewrite ?Ha, ?Hphi; cbn [filter negb];
      now rewrite IH. }
  rewrite Hswap, Hl. cbn [filter]. rewrite has_own_id. cbn [negb].
  inversion Hnd' as [|? ? Hnotin _]; subst.
  clear - Hnotin. induction ps as [|a ps IH]; cbn [filter]; [reflexivity|].
  simpl in Hnotin.
  destruct (has_id (VStr (rec_id p)) a) eqn:Ha; cbn [negb].
  - unfold has_id in Ha. simpl in Ha. apply String.eqb_eq in Ha.
    elim Hnotin. now left.
  - f_equal. apply IH. tauto.
Qed.

(** X10. DELETE /api/products/:barcode removes one record per request.
    When Airtable answers every request, the product the lookup finds has
    no cell named id (which would stand for its record id in what
    [cleanRecord] returns) and the record ids of Products are distinct:
    that product is removed (its id disappears from Products, all other
    ids stay in order), the other products carrying the barcode are still
    found afterwards, one 'delete' entry with the barcode and the
    requesting user is appended to ScanHistory, and the answer is 200. *)
Theorem delete_removes_one_record
  (req : request) (w : world) (p : rec) (ps : list rec) :
  faults w = [] ->
  lookup PRODUCTS "Barcode" (obj_get "barcode" (params req)) w = p :: ps ->
  no_id_cell p ->
  NoDup (ids (tables w PRODUCTS)) ->
  fst (delete_product req w)
  = json (VObj [("message", VStr "Product deleted successfully")]) /\
  lookup PRODUCTS "Barcode" (obj_get "barcode" (params req))
    (snd (delete_product req w)) = ps /\
  ids (tables (snd (delete_product req w)) PRODUCTS)
  = filter (fun i => negb (String.eqb i (rec_id p)))
      (ids (tables w PRODUCTS)) /\
  tables (snd (delete_product req w)) SCAN_HISTORY
  = tables w SCAN_HISTORY
      ++ [{| rec_id := fresh_id (next_id w);
             fields := deletion_cells req (clock w) |}].
Proof.
  intros Hf Hl Hno Hnd.
  destruct (find_own_id p (tables w PRODUCTS) (lookup_in _ _ _ _ _ _ Hl))
    as [p' Hfind].
  unfold delete_product, try_or_500, delete_product_body, bind.
  rewrite ServerFacts.findRecordByField_step, (quiet_next w Hf), Hl.
  rewrite ServerFacts.found_truthy. cbn [negb].
  rewrite (clean_id p Hno), destroy_step, quiet_next
    by (apply quiet_after_call; exact Hf).
  change (tables (after_call _ w) PRODUCTS) with (tables w PRODUCTS).
  rewrite Hfind. unfold now_iso.
  rewrite ServerFacts.createRecord_step, quiet_next
    by (simpl; now rewrite Hf).
  split; [reflexivity|]. split; [|split].
  - unfold lookup. simpl. now apply lookup_after_destroy.
  - cbn [snd tables set_tables bump_id after_call set_faults record_call].
    cbn [String.eqb Ascii.eqb Bool.eqb PRODUCTS SCAN_HISTORY].
    apply ids_after_destroy.
  - reflexivity.
Qed.

(** ** Requests that fail half way *)

Section Rollback.

Variable parseInt : value -> value.
Variable parseFloat : value -> value.
Variable JSON_stringify : value -> string.

Local Abbreviation post_products :=
  (Server.post_products parseInt parseFloat JSON_stringify).

(** X11. Nothing is rolled back. When the write to ScanHistory fails
    after the lookup and the first write went through, POST /api/products
    for a barcode the lookup did not find answers 500 although the new
    product has been stored (and the user's scan count is left alone),
    and DELETE /api/products/:barcode, for a product found that has no
    cell named id, answers 500 although the product is gone; in both
    cases ScanHistory has no trace of it. *)
Theorem failed_requests_keep_their_writes
  (req : request) (w : world) (message : string) :
  faults w = [None; None; Some message] ->
  (lookup PRODUCTS "Barcode" (obj_get "barcode" (body req)) w = [] ->
   fst (post_products req w) = respond 500 [("error", VStr message)] /\
   (exists p,
      tables (snd (post_products req w)) PRODUCTS
      = tables w PRODUCTS ++ [p] /\
      rec_id p = fresh_id (next_id w)) /\
   untouched SCAN_HISTORY w (snd (post_products req w)) /\
   untouched USERS w (snd (post_products req w))) /\
  (forall p ps,
     lookup PRODUCTS "Barcode" (obj_get "barcode" (params req)) w = p :: ps ->
     no_id_cell p ->
     fst (delete_product req w) = respond 500 [("error", VStr message)] /\
     ids (tables (snd (delete_product req w)) PRODUCTS)
     = filter (fun i => negb (String.eqb i (rec_id p)))
         (ids (tables w PRODUCTS)) /\
     untouched SCAN_HISTORY w (snd (delete_product req w))).
Proof.
  intros Hf. split.
  - intros Hl.
    assert (Hrun :
              exists w',
                post_products req w
                = (respond 500 [("error", VStr message)], w') /\
                (exists p,
                   tables w' PRODUCTS = tables w PRODUCTS ++ [p] /\
                   rec_id p = fresh_id (next_id w)) /\
                untouched SCAN_HISTORY w w' /\ untouched USERS w w').
    { unfold Server.post_products, try_or_500, post_products_body, bind,
        now_iso.
      rewrite ServerFacts.findRecordByField_step. unfold next_fault at 1.
      rewrite Hf, Hl. cbn [truthy].
      rewrite ServerFacts.createRecord_step. unfold next_fault at 1.
      unfold after_call at 1. cbn [faults set_faults record_call].
      rewrite Hf. cbn [tl].
      rewrite ServerFacts.createRecord_step. unfold next_fault at 1.
      cbn [faults set_tables bump_id after_call set_faults record_call].
      rewrite Hf. cbn [tl].
      eexists. split; [reflexivity|]. split; [|split; reflexivity].
      eexists. split; reflexivity. }
    destruct Hrun as (w' & -> & Hp & Hh & Hu). auto.
  - intros p ps Hl Hno.
    destruct (find_own_id p (tables w PRODUCTS) (lookup_in _ _ _ _ _ _ Hl))
      as [p' Hfind].
    assert (Hrun :
              exists w',
                delete_product req w
                = (respond 500 [("error", VStr message)], w') /\
                tables w' PRODUCTS
                = filter (fun x => negb (has_id (VStr (rec_id p)) x))
                    (tables w PRODUCTS) /\
                untouched SCAN_HISTORY w w').
    { unfold delete_product, try_or_500, delete_product_body, bind.
      rewrite ServerFacts.findRecordByField_step. unfold next_fault at 1.
      rewrite Hf, Hl, ServerFacts.found_truthy. cbn [negb].
      rewrite (clean_id p Hno), destroy_step. unfold next_fault at 1.
      unfold after_call at 1. cbn [faults set_faults record_call].
      rewrite Hf. cbn [tl].
      change (tables (after_call _ w) PRODUCTS) with (tables w PRODUCTS).
      rewrite Hfind. unfold now_iso.
      rewrite ServerFacts.createRecord_step. unfold next_fault at 1.
      cbn [faults set_tables after_call set_faults record_call].
      rewrite Hf. cbn [tl].
      eexists. split; [reflexivity|]. split; reflexivity. }
    destruct Hrun as (w' & -> & Hp & Hh). cbn [fst snd].
    split; [reflexivity|]. split; [|exact Hh].
    rewrite Hp. apply ids_after_destroy.
Qed.

End Rollback.

(** ** Objects with unique keys *)

Lemma keys_obj_set (k : string) (v : value) (o : obj) :
  map fst (obj_set k v o)
  = if existsb (String.eqb k) (map fst o) then map fst o
    else map fst o ++ [k].
Proof.
  induction o as [|[k' v'] o IH]; simpl; [reflexivity|].
  destruct (String.eqb k k') eqn:E; simpl; [reflexivity|].
  rewrite IH. now destruct (existsb (String.eqb k) (map fst o)).
Qed.

Lemma NoDup_obj_set (k : string) (v : value) (o : obj) :
  NoDup (map fst o) -> NoDup (map fst (obj_set k v o)).
Proof.
  intros Hnd. rewrite keys_obj_set.
  destruct (existsb (String.eqb k) (map fst o)) eqn:E; [exact Hnd|].
  apply NoDup_app; [exact Hnd | repeat constructor; intros [] |].
  intros x Hx [<-|[]].
  assert (existsb (String.eqb k) (map fst o) = true); [|congruence].
  apply existsb_exists. exists k. split; [exact Hx | apply String.eqb_refl].
Qed.

Lemma NoDup_spread (b : obj) :
  forall a : obj, NoDup (map fst a) -> NoDup (map fst (spread a b)).
Proof.
  unfold spread. induction b as [|[k v] b IH]; intros a Hnd; simpl;
    [exact Hnd|].
  apply IH. now apply NoDup_obj_set.
Qed.

(** ** Reading one page of a lookup *)

Lemma firstPage_find (t f : string) (v : value) (w : world) :
  firstPage t (find_query f v) w =
    match next_fault w with
    | Some message =>
        (Throw message, after_call (Select t (find_query f v)) w)
    | None =>
        (Ok (firstn 1 (lookup t f v w)),
         after_call (Select t (find_query f v)) w)
    end.
Proof.
  unfold firstPage. rewrite ServerFacts.api_step.
  destruct (next_fault w); [reflexivity|].
  unfold bind, lift, lookup.
  cbn [limit_of find_query maxRecords pageSize Z.leb Z.compare take].
  cbn [tables after_call set_faults record_call].
  rewrite ServerFacts.selected_find_query.
  destruct (matching (field_equals f v) (tables w t)) as [|r [|r' rs]];
    reflexivity.
Qed.

(** ** Settings *)

(** The record an update writes becomes the first one its own query
    selects, where the record the query selected first was the one
    updated. *)
Lemma updated_comes_first (phi : formula) (rid : value) (r' : rec)
  (l : list rec) (r : rec) (rs : list rec) :
  matching phi l = r :: rs ->
  has_id rid r = true ->
  eval_formula phi (fields r') = true ->
  exists rest,
    matching phi (map (fun x => if has_id rid x then r' else x) l)
    = r' :: rest.
Proof.
  unfold matching. intros Hl Hr Hphi. revert Hl.
  induction l as [|a l IH]; cbn [filter map]; [discriminate|].
  destruct (has_id rid a) eqn:Ha.
  - intros _. rewrite Hphi. eauto.
  - destruct (eval_formula phi (fields a)) eqn:Hphia.
    + intros Hl. injection Hl as -> _. congruence.
    + exact IH.
Qed.

(** X12. Settings are read back as saved. When Airtable answers every
    request, the e-mail of the user is a text without quote or backslash,
    the body has unique keys and no stored Settings record has a cell
    named id: POST /api/settings is answered 200, whether the user had
    settings or not, and a GET /api/settings of the same user right after
    returns exactly what the POST returned. *)
Theorem saved_settings_are_read_back
  (req back : request) (w : world) (em : string) :
  plain em = true ->
  faults w = [] ->
  prop (user req) "Email" = VStr em ->
  user back = user req ->
  NoDup (map fst (body req)) ->
  (forall r, In r (tables w SETTINGS) -> no_id_cell r) ->
  status (fst (post_settings req w)) = 200%nat /\
  fst (get_settings back (snd (post_settings req w)))
  = fst (post_settings req w).
Proof.
  intros _ Hf Hem Hback Hbody Hno.
  set (settingsData :=
         spread (body req)
           [("User", VArr [prop (user req) "id"]);
            ("UserEmail", VStr em);
            ("UpdatedAt", VStr (clock w))]).
  assert (Hkeys : NoDup (map fst settingsData))
    by (apply NoDup_spread; exact Hbody).
  assert (Hmail : obj_get "UserEmail" settingsData = VStr em).
  { unfold settingsData. rewrite JSFacts.obj_get_spread; [reflexivity|].
    simpl. repeat constructor; simpl; intuition discriminate. }
  assert (Hget :
            forall r' rest w1,
              faults w1 = [] ->
              lookup SETTINGS "UserEmail" (VStr em) w1 = r' :: rest ->
              fst (get_settings back w1) = json (found r')).
  { intros r' rest w1 Hf1 Hl1.
    unfold get_settings, try_or_500, get_settings_body, bind, by_user.
    rewrite Hback, Hem.
    change {| filterByFormula := field_equals "UserEmail" (VStr em);
              maxRecords := VNum 1; pageSize := VUndefined;
              sort := []; columns := None |}
      with (find_query "UserEmail" (VStr em)).
    rewrite firstPage_find, (quiet_next w1 Hf1), Hl1. reflexivity. }
  assert (Hrun :
            exists r' rest w1,
              post_settings req w = (json (found r'), w1) /\
              faults w1 = [] /\
              lookup SETTINGS "UserEmail" (VStr em) w1 = r' :: rest).
  { unfold post_settings, try_or_500, post_settings_body, bind, now_iso.
    rewrite ServerFacts.findRecordByField_step, (quiet_next w Hf), Hem.
    change (clock (after_call _ w)) with (clock w).
    fold settingsData. clearbody settingsData.
    destruct (lookup SETTINGS "UserEmail" (VStr em) w) as [|r rs] eqn:Hl.
    - cbn [truthy].
      rewrite ServerFacts.createRecord_step, quiet_next
        by (apply quiet_after_call; exact Hf).
      eexists. exists []. eexists. split; [reflexivity|]. split.
      + simpl. now rewrite Hf.
      + unfold lookup in *. simpl. unfold matching in *.
        rewrite filter_app, Hl. simpl. rewrite Hmail. simpl.
        now rewrite String.eqb_refl.
    - rewrite ServerFacts.found_truthy.
      assert (Hin : In r (tables w SETTINGS))
        by exact (lookup_in _ _ _ _ _ _ Hl).
      rewrite (clean_id r (Hno r Hin)).
      destruct (find_own_id r (tables w SETTINGS) Hin) as [r0 Hfind].
      rewrite ServerFacts.updateRecord_step, quiet_next
        by (apply quiet_after_call; exact Hf).
      change (tables (after_call _ w) SETTINGS) with (tables w SETTINGS).
      rewrite Hfind.
      destruct (updated_comes_first
                  (field_equals "UserEmail" (VStr em)) (VStr (rec_id r))
                  {| rec_id := rec_id r0;
                     fields := spread (fields r0) settingsData |}
                  (tables w SETTINGS) r rs Hl (has_own_id r))
        as [rest Hrest].
      { simpl. rewrite JSFacts.obj_get_spread by exact Hkeys.
        replace (existsb (String.eqb "UserEmail") (map fst settingsData))
          with true.
        - rewrite Hmail. simpl. apply String.eqb_refl.
        - symmetry.
          destruct (existsb (String.eqb "UserEmail") (map fst settingsData))
            eqn:E; [reflexivity|].
          rewrite (JSFacts.obj_get_absent _ _ E) in Hmail. discriminate. }
      eexists. exists rest. eexists. split; [reflexivity|]. split.
      + simpl. now rewrite Hf.
      + unfold lookup. simpl. exact Hrest. }
  destruct Hrun as (r' & rest & w1 & Hrun & Hf1 & Hl1).
  rewrite Hrun. cbn [fst snd]. split; [reflexivity|].
  exact (Hget r' rest w1 Hf1 Hl1).
Qed.

(** ** Counting and listing products *)

Lemma firstPage_quiet (t : string) (opts : select_opts) (w : world)
  (top page : option nat) :
  faults w = [] ->
  limit_of (maxRecords opts) None = Ok top ->
  limit_of (pageSize opts) (Some 100%nat) = Ok page ->
  firstPage t opts w
  = (Ok (take page (take top (selected opts (tables w t)))),
     after_call (Select t opts) w).
Proof.
  intros Hf Htop Hpage. unfold firstPage.
  rewrite ServerFacts.api_step, (quiet_next w Hf).
  unfold bind, lift. now rewrite Htop, Hpage.
Qed.

Lemma allPages_quiet (t : string) (opts : select_opts) (w : world)
  (top : option nat) :
  faults w = [] ->
  limit_of (maxRecords opts) None = Ok top ->
  allPages t opts w
  = (Ok (take top (selected opts (tables w t))),
     after_call (SelectAll t opts) w).
Proof.
  intros Hf Htop. unfold allPages.
  rewrite ServerFacts.api_step, (quiet_next w Hf).
  unfold bind, lift. now rewrite Htop.
Qed.

Lemma matching_all (l : list rec) : matching FTrue l = l.
Proof.
  unfold matching. induction l as [|a l IH]; simpl; [reflexivity|].
  f_equal. exact IH.
Qed.

Lemma length_insert_by (k : string * direction) (r : rec) (l : list rec) :
  length (insert_by k r l) = S (length l).
Proof.
  induction l as [|a l IH]; simpl; [reflexivity|].
  destruct (before k r a); simpl; [reflexivity | now rewrite IH].
Qed.

Lemma length_sort_by (k : string * direction) (l : list rec) :
  length (sort_by k l) = length l.
Proof.
  unfold sort_by. induction l as [|a l IH]; simpl; [reflexivity|].
  now rewrite length_insert_by, IH.
Qed.

Lemma length_sorted (keys : list (string * direction)) (l : list rec) :
  length (sorted keys l) = length l.
Proof.
  unfold sorted. induction keys as [|k keys IH]; simpl; [reflexivity|].
  now rewrite length_sort_by.
Qed.

Lemma length_selected_all (opts : select_opts) (l : list rec) :
  filterByFormula opts = FTrue ->
  length (selected opts l) = length l.
Proof.
  intros Hphi. unfold selected.
  now rewrite length_map, length_sorted, Hphi, matching_all.
Qed.

Lemma Permutation_insert_by (k : string * direction) (r : rec)
  (l : list rec) :
  Permutation (insert_by k r l) (r :: l).
Proof.
  induction l as [|a l IH]; simpl; [reflexivity|].
  destruct (before k r a); [reflexivity|].
  rewrite IH. apply perm_swap.
Qed.

Lemma Permutation_sort_by (k : string * direction) (l : list rec) :
  Permutation (sort_by k l) l.
Proof.
  unfold sort_by. induction l as [|a l IH]; simpl; [reflexivity|].
  now rewrite Permutation_insert_by, IH.
Qed.

Lemma Permutation_sorted (keys : list (string * direction)) (l : list rec) :
  Permutation (sorted keys l) l.
Proof.
  unfold sorted. induction keys as [|k keys IH]; simpl; [reflexivity|].
  now rewrite Permutation_sort_by.
Qed.

Section Counts.

Variable start_of_day : string -> string.

Local Abbreviation stats := (Server.stats start_of_day).

(** X13. The statistics count one page, the export lists everything:
    when Airtable answers every request, totalProducts of GET /api/stats
    is the number of products capped at 100 (the size of the first page),
    while the file of GET /api/export/csv is the header line followed by
    the line of each product, all the products of the table being listed
    once each, the latest ScannedAt first. *)
Theorem stats_count_one_page_export_lists_all
  (req : request) (w : world) :
  faults w = [] ->
  prop (payload (fst (stats req w))) "totalProducts"
  = VNum (Z.of_nat (Nat.min 100 (length (tables w PRODUCTS)))) /\
  let listed := sorted [("ScannedAt", Desc)] (tables w PRODUCTS) in
  Permutation listed (tables w PRODUCTS) /\
  payload (fst (export_csv req w))
  = VStr (String.concat newline
            (csv_header :: map csv_line (map cleanRecord listed))).
Proof.
  intros Hf. split.
  - unfold Server.stats, try_or_500, stats_body, bind.
    cbn [count_by_status]. unfold bind, ret.
    repeat (erewrite firstPage_quiet;
            [|repeat apply quiet_after_call; exact Hf
             |reflexivity|reflexivity]; cbv beta iota).
    cbn [fst payload json prop obj_get String.eqb Ascii.eqb Bool.eqb].
    unfold count_of. cbn [take].
    change (tables (after_call _ _) PRODUCTS) with (tables w PRODUCTS).
    rewrite length_firstn, length_selected_all by reflexivity.
    reflexivity.
  - split; [apply Permutation_sorted|].
    unfold export_csv, try_or_500, export_csv_body, bind.
    erewrite allPages_quiet; [|exact Hf|reflexivity].
    cbn [fst payload send take]. unfold selected.
    cbn [columns sort filterByFormula project].
    change (tables (after_call _ w) PRODUCTS) with (tables w PRODUCTS).
    now rewrite map_id, matching_all.
Qed.

End Counts.

(** ** Scan history *)

Lemma length_take (n : nat) (l : list rec) :
  (length (take (Some n) l) <= n)%nat.
Proof. unfold take. apply firstn_le_length. Qed.

Section History.

Variable parseInt : value -> value.

Local Abbreviation history := (Server.history parseInt).


End History.

(** ** Who scanned *)

Lemma has_key_set_same (k : string) (v : value) (o : obj) :
  existsb (String.eqb k) (map fst (obj_set k v o)) = true.
Proof.
  rewrite keys_obj_set.
  destruct (existsb (String.eqb k) (map fst o)) eqn:E; [exact E|].
  rewrite map_app || idtac. rewrite existsb_app. simpl.
  now rewrite String.eqb_refl, orb_true_r.
Qed.

Lemma has_key_set_other (k k' : string) (v : value) (o : obj) :
  existsb (String.eqb k) (map fst o) = true ->
  existsb (String.eqb k) (map fst (obj_set k' v o)) = true.
Proof.
  intros Hk. rewrite keys_obj_set.
  destruct (existsb (String.eqb k') (map fst o)); [exact Hk|].
  rewrite existsb_app, Hk. reflexivity.
Qed.

(** The cells the server adds to the body of a scan. *)
Lemma server_cells (o : obj) (by_id by_email modified : value) :
  let productData :=
    spread o [("ScannedBy", by_id); ("ScannedByEmail", by_email);
              ("LastModified", modified)] in
  forall k v,
    In (k, v) [("ScannedBy", by_id); ("ScannedByEmail", by_email);
               ("LastModified", modified)] ->
    existsb (String.eqb k) (map fst productData) = true /\
    obj_get k productData = v.
Proof.
  intros productData k v Hin. unfold productData, spread. simpl.
  destruct Hin as [H|[H|[H|[]]]]; injection H as <- <-; split.
  - do 2 apply has_key_set_other. apply has_key_set_same.
  - rewrite !JSFacts.obj_get_set_other by discriminate.
    apply JSFacts.obj_get_set_same.
  - apply has_key_set_other. apply has_key_set_same.
  - rewrite JSFacts.obj_get_set_other by discriminate.
    apply JSFacts.obj_get_set_same.
  - apply has_key_set_same.
  - apply JSFacts.obj_get_set_same.
Qed.

Section Scans.

Variable parseInt : value -> value.
Variable parseFloat : value -> value.
Variable JSON_stringify : value -> string.

Local Abbreviation post_products :=
  (Server.post_products parseInt parseFloat JSON_stringify).

(** X15. A scan is attributed to the requester. When POST /api/products
    answers 200, the product it answers is a record now stored in
    Products, and its ScannedBy, ScannedByEmail and LastModified cells are
    the id and e-mail of the authenticated user and the current time,
    whatever the body of the request says about them (objects having
    unique keys). *)
Theorem scans_are_attributed_to_the_requester
  (req : request) (w w' : world) (r : response) :
  post_products req w = (r, w') ->
  status r = 200%nat ->
  NoDup (map fst (body req)) ->
  (forall p, In p (tables w PRODUCTS) -> NoDup (map fst (fields p))) ->
  (exists p, In p (tables w' PRODUCTS) /\ payload r = found p) /\
  prop (payload r) "ScannedBy" = VArr [prop (user req) "id"] /\
  prop (payload r) "ScannedByEmail" = prop (user req) "Email" /\
  prop (payload r) "LastModified" = VStr (clock w).
Proof.
  intros Hrun H200 Hbody_keys Hstored.
  unfold Server.post_products, try_or_500 in Hrun.
  destruct (post_products_body _ _ _ req w) as [[r0|e] w0] eqn:Hbody;
    injection Hrun as <- <-; [|discriminate H200].
  unfold post_products_body in Hbody.
  apply ServerFacts.bind_ok in Hbody as (modified & w1 & Hnow & Hbody).
  injection Hnow as <- <-.
  apply ServerFacts.bind_ok in Hbody as (existing & w2 & Hfind & Hbody).
  destruct (ServerFacts.findRecordByField_ok PRODUCTS "Barcode"
              (obj_get "barcode" (body req)) w) as (w2' & Hf & Htab2 & Hclk2).
  rewrite Hf in Hfind. injection Hfind as <- <-.
  apply ServerFacts.bind_ok in Hbody as (product & w3 & Hprod & Hbody).
  apply ServerFacts.bind_ok in Hbody as (stamp & w3' & Hnow & Hbody).
  injection Hnow as <- <-.
  apply ServerFacts.bind_ok in Hbody as (entry & w4 & Hhist & Hbody).
  apply ServerFacts.bind_ok in Hbody as (active & w4' & Hnow & Hbody).
  injection Hnow as <- <-.
  apply ServerFacts.bind_ok in Hbody as (counted & w5 & Hupd & Hret).
  injection Hret as <- <-.
  pose proof (ServerFacts.createRecord_ok _ _ _ _ _ Hhist PRODUCTS) as Ht4.
  apply ServerFacts.updateRecord_ok in Hupd as (u & _ & Ht5).
  specialize (Ht5 PRODUCTS). simpl in Ht4, Ht5. rewrite Ht4 in Ht5.
  clear Hhist Ht4.
  set (productData :=
         spread (body req)
           [("ScannedBy", VArr [prop (user req) "id"]);
            ("ScannedByEmail", prop (user req) "Email");
            ("LastModified", VStr (clock w))]) in *.
  pose proof (server_cells (body req) (VArr [prop (user req) "id"])
                (prop (user req) "Email") (VStr (clock w))) as Hcells.
  cbv zeta in Hcells. fold productData in Hcells.
  assert (Hkeys : NoDup (map fst productData))
    by (apply NoDup_spread; exact Hbody_keys).
  assert (Hmain :
            exists p,
              In p (tables w3 PRODUCTS) /\ product = cleanRecord p /\
              NoDup (map fst (fields p)) /\
              forall k v,
                In (k, v) [("ScannedBy", VArr [prop (user req) "id"]);
                           ("ScannedByEmail", prop (user req) "Email");
                           ("LastModified", VStr (clock w))] ->
                obj_get k (fields p) = v).
  { clearbody productData.
    destruct (truthy _) in Hprod.
    - rewrite ServerFacts.updateRecord_step in Hprod.
      destruct (next_fault w2'); [discriminate|].
      destruct (find _ _) as [p0|] eqn:Hp0 in Hprod; [|discriminate].
      injection Hprod as <- <-.
      eexists. split; [|split; [reflexivity|split]].
      + cbn [tables set_tables]. rewrite String.eqb_refl.
        apply find_some in Hp0. destruct Hp0 as [Hin Hid].
        apply in_map_iff. exists p0. split; [now rewrite Hid | exact Hin].
      + cbn [fields]. apply NoDup_spread. apply Hstored.
        apply find_some in Hp0. destruct Hp0 as [Hin _].
        change (tables (after_call _ w2') PRODUCTS)
          with (tables w2' PRODUCTS) in Hin.
        now rewrite Htab2 in Hin.
      + intros k v Hin. cbn [fields].
        destruct (Hcells k v Hin) as [Hk Hv].
        now rewrite JSFacts.obj_get_spread, Hk by exact Hkeys.
    - apply ServerFacts.bind_ok in Hprod as (scanned & w2'' & Hnow & Hprod).
      injection Hnow as <- <-.
      rewrite ServerFacts.createRecord_step in Hprod.
      destruct (next_fault w2'); [discriminate|].
      injection Hprod as <- <-.
      eexists. split; [|split; [reflexivity|split]].
      + cbn [tables set_tables]. rewrite String.eqb_refl.
        apply in_or_app. right. now left.
      + cbn [fields]. unfold new_product_fields. apply NoDup_spread.
        simpl. repeat constructor; simpl; intuition discriminate.
      + intros k v Hin. cbn [fields]. unfold new_product_fields.
        destruct (Hcells k v Hin) as [Hk Hv].
        rewrite JSFacts.obj_get_spread
          by (apply NoDup_obj_set; exact Hkeys).
        rewrite (has_key_set_other _ _ _ _ Hk).
        rewrite JSFacts.obj_get_set_other; [exact Hv|].
        destruct Hin as [H|[H|[H|[]]]]; injection H as <- _; discriminate. }
  destruct Hmain as (p & Hin & -> & Hnd & Hp).
  split.
  - exists p. split; [|reflexivity].
    rewrite Ht5. exact Hin.
  - cbn [payload json].
    change (VObj (cleanRecord p)) with (found p).
    rewrite !ServerFacts.clean_field by (discriminate || exact Hnd).
    repeat split; apply Hp; simpl; auto.
Qed.

End Scans.

(** ** The Authorization header *)

Lemma split_on_word (a b : string) :
  no_space a = true ->
  split_on " " (a ++ String " " b) = a :: split_on " " b.
Proof.
  induction a as [|c a IH]; simpl; [reflexivity|].
  intros H. apply andb_prop in H. destruct H as [Hc Ha].
  apply negb_true_iff in Hc. rewrite Hc, (IH Ha). reflexivity.
Qed.

Lemma split_on_last_word (a : string) :
  no_space a = true -> split_on " " a = [a].
Proof.
  induction a as [|c a IH]; simpl; [reflexivity|].
  intros H. apply andb_prop in H. destruct H as [Hc Ha].
  apply negb_true_iff in Hc. rewrite Hc, (IH Ha). reflexivity.
Qed.

Section Bearer.

Variable jwt_verify : value -> outcome value.

Local Abbreviation authenticateToken := (Server.authenticateToken jwt_verify).

(** X16. [authenticateToken] takes the second word of the
    Authorization header as the token: after any first word (the scheme is
    not checked) and whatever follows the token. A header of one word
    carries no token and is answered 401 without the handler being
    run. *)
Theorem token_is_the_second_word (req : request) :
  (forall scheme token rest,
     no_space scheme = true ->
     no_space token = true ->
     obj_get "authorization" (headers req)
     = VStr (scheme ++ " " ++ token) \/
     obj_get "authorization" (headers req)
     = VStr (scheme ++ " " ++ token ++ " " ++ rest) ->
     bearer_token req = VStr token) /\
  (forall word next w,
     no_space word = true ->
     obj_get "authorization" (headers req) = VStr word ->
     authenticateToken next req w
     = (respond 401 [("error", VStr "Access token required")], w)).
Proof.
  split.
  - intros scheme token rest Hs Ht Hh.
    assert (Htruthy : forall s, truthy (VStr (scheme ++ " " ++ s)) = true).
    { intros s. simpl. destruct scheme; reflexivity. }
    unfold bearer_token, and_then, second_word.
    destruct Hh as [-> | ->]; rewrite Htruthy.
    + change (scheme ++ " " ++ token)%string
        with (scheme ++ String " " token)%string.
      rewrite (split_on_word _ _ Hs), (split_on_last_word _ Ht).
      reflexivity.
    + change (scheme ++ " " ++ token ++ " " ++ rest)%string
        with (scheme ++ String " " (token ++ String " " rest))%string.
      rewrite (split_on_word _ _ Hs), (split_on_word _ _ Ht).
      reflexivity.
  - intros word next w Hw Hh.
    unfold Server.authenticateToken, bearer_token, and_then, second_word.
    rewrite Hh, (split_on_last_word _ Hw). cbn [nth_error].
    destruct (truthy (VStr word)) eqn:E; [reflexivity|].
    now rewrite E.
Qed.

End Bearer.

(** ** Uploading an image *)

(** X17. The handler of POST /api/products/:barcode/image, once the upload
    middleware has let the request through, for a stored product without
    a cell named id, Airtable answering every request. When the
    middleware has set no [req.file] (the request carried no file) the
    answer is 500 with the TypeError of reading [req.file.filename], and
    nothing is written. When it has set one and the Images cell of the
    product is an array or is empty, the answer is 200, imageUrl is
    protocol://host/uploads/filename, and a stored product with the same
    id holds the former images with that one URL appended. What the
    middleware answers itself when it refuses a file is not covered. *)
Theorem upload_needs_a_file_and_appends_one_image
  (req : request) (w : world) (p : rec) (ps : list rec) :
  faults w = [] ->
  lookup PRODUCTS "Barcode" (obj_get "barcode" (params req)) w = p :: ps ->
  no_id_cell p ->
  (file req = VUndefined ->
   fst (upload_image req w)
   = respond 500
       [("error",
         VStr "Cannot read properties of undefined (reading 'filename')")] /\
   tables (snd (upload_image req w)) = tables w) /\
  (forall f images,
     file req = VObj f ->
     or_else (prop (found p) "Images") (VArr []) = VArr images ->
     let imageUrl :=
       VStr (protocol req ++ "://" ++ to_str (host req) ++ "/uploads/"
             ++ to_str (obj_get "filename" f)) in
     status (fst (upload_image req w)) = 200%nat /\
     prop (payload (fst (upload_image req w))) "imageUrl" = imageUrl /\
     exists p',
       In p' (tables (snd (upload_image req w)) PRODUCTS) /\
       rec_id p' = rec_id p /\
       obj_get "Images" (fields p')
       = VArr (images ++ [VObj [("url", imageUrl)]])).
Proof.
  intros Hf Hl Hno.
  assert (Hin : In p (tables w PRODUCTS)) by exact (lookup_in _ _ _ _ _ _ Hl).
  split.
  - intros Hfile.
    unfold upload_image, try_or_500, upload_image_body, bind.
    rewrite ServerFacts.findRecordByField_step, (quiet_next w Hf), Hl.
    rewrite ServerFacts.found_truthy, Hfile. split; reflexivity.
  - intros f images Hfile Himages imageUrl.
    destruct (find (has_id (VStr (rec_id p))) (tables w PRODUCTS))
      as [p0|] eqn:Hfind;
      [|pose proof (find_none _ _ Hfind _ Hin) as Hnone;
        now rewrite has_own_id in Hnone].
    assert (Hrun :
              exists w',
                upload_image req w
                = (json (VObj
                     [("imageUrl", imageUrl);
                      ("product",
                       VObj (cleanRecord
                               {| rec_id := rec_id p0;
                                  fields :=
                                    spread (fields p0)
                                      [("Images",
                                        VArr (images
                                              ++ [VObj [("url", imageUrl)]]))]
                               |}))]), w') /\
                tables w' PRODUCTS
                = map (fun x =>
                         if has_id (VStr (rec_id p)) x
                         then {| rec_id := rec_id p0;
                                 fields :=
                                   spread (fields p0)
                                     [("Images",
                                       VArr (images
                                             ++ [VObj [("url", imageUrl)]]))]
                              |}
                         else x) (tables w PRODUCTS)).
    { unfold upload_image, try_or_500, upload_image_body, bind.
      rewrite ServerFacts.findRecordByField_step, (quiet_next w Hf), Hl.
      rewrite ServerFacts.found_truthy, Hfile. cbn [negb member prop].
      unfold ret at 1. cbv beta iota.
      rewrite Himages. unfold ret at 1. cbv beta iota.
      rewrite (clean_id p Hno).
      rewrite ServerFacts.updateRecord_step, quiet_next
        by (apply quiet_after_call; exact Hf).
      change (tables (after_call _ w) PRODUCTS) with (tables w PRODUCTS).
      rewrite Hfind. eexists. split; [reflexivity|].
      cbn [tables set_tables]. now rewrite String.eqb_refl. }
    destruct Hrun as (w' & -> & Htab). cbn [fst snd].
    split; [reflexivity|]. split; [reflexivity|].
    apply find_some in Hfind. destruct Hfind as [Hin0 Hid0].
    eexists. split; [|split].
    + rewrite Htab. apply in_map_iff. exists p0.
      split; [now rewrite Hid0 | exact Hin0].
    + cbn [rec_id]. symmetry. apply (has_id_same (VStr (rec_id p)));
        [apply has_own_id | exact Hid0].
    + cbn [fields]. unfold spread. simpl.
      apply JSFacts.obj_get_set_same.
Qed.

(** ** Reading back a scan *)

Lemma lacks_key_set_other (k k' : string) (v : value) (o : obj) :
  k <> k' ->
  existsb (String.eqb k) (map fst o) = false ->
  existsb (String.eqb k) (map fst (obj_set k' v o)) = false.
Proof.
  intros Hne Hk. rewrite keys_obj_set.
  destruct (existsb (String.eqb k') (map fst o)); [exact Hk|].
  rewrite existsb_app, Hk. simpl.
  destruct (String.eqb_spec k k'); [contradiction | reflexivity].
Qed.

Section RoundTrip.

Variable parseInt : value -> value.
Variable parseFloat : value -> value.
Variable JSON_stringify : value -> string.

Local Abbreviation post_products :=
  (Server.post_products parseInt parseFloat JSON_stringify).

(** X18. A created product is found by its barcode: when POST
    /api/products is answered 200 for a barcode, a text without quote or
    backslash, that was not in Products (Airtable answering every
    request, the body having no cell named Barcode of its own), GET
    /api/products/:barcode for that barcode answers right after with the
    very product the POST answered. *)
Theorem created_product_is_found_by_its_barcode
  (req back : request) (w : world) (b : string) :
  plain b = true ->
  faults w = [] ->
  status (fst (post_products req w)) = 200%nat ->
  obj_get "barcode" (body req) = VStr b ->
  existsb (String.eqb "Barcode") (map fst (body req)) = false ->
  lookup PRODUCTS "Barcode" (VStr b) w = [] ->
  obj_get "barcode" (params back) = VStr b ->
  fst (get_product back (snd (post_products req w)))
  = json (payload (fst (post_products req w))).
Proof.
  intros _ Hf H200 Hb Hkey Hl Hback.
  set (productData :=
         obj_set "ScannedAt" (VStr (clock w))
           (spread (body req)
              [("ScannedBy", VArr [prop (user req) "id"]);
               ("ScannedByEmail", prop (user req) "Email");
               ("LastModified", VStr (clock w))])).
  assert (Hlacks : existsb (String.eqb "Barcode") (map fst productData)
                   = false).
  { unfold productData, spread. cbn [fold_left fst snd].
    repeat (apply lacks_key_set_other; [discriminate|]). exact Hkey. }
  assert (Hbarcode : obj_get "barcode" productData = VStr b).
  { unfold productData, spread. cbn [fold_left fst snd].
    rewrite !JSFacts.obj_get_set_other by discriminate. exact Hb. }
  set (p := {| rec_id := fresh_id (next_id w);
               fields := new_product_fields parseInt parseFloat
                           JSON_stringify productData |}).
  assert (Hcell : obj_get "Barcode" (fields p) = VStr b).
  { unfold p. cbn [fields]. unfold new_product_fields.
    rewrite obj_get_spread_absent by exact Hlacks.
    cbn [obj_get String.eqb Ascii.eqb Bool.eqb]. exact Hbarcode. }
  assert (Hrun :
            exists w',
              post_products req w = (json (found p), w') /\
              faults w' = [] /\
              tables w' PRODUCTS = tables w PRODUCTS ++ [p]).
  { revert H200.
    unfold Server.post_products, try_or_500, post_products_body, bind,
      now_iso.
    rewrite ServerFacts.findRecordByField_step, (quiet_next w Hf), Hb, Hl.
    cbn [truthy].
    change (clock (after_call _ w)) with (clock w).
    fold productData. clearbody productData.
    rewrite ServerFacts.createRecord_step, quiet_next
      by (apply quiet_after_call; exact Hf).
    cbv beta iota zeta.
    change (next_id (after_call _ w)) with (next_id w). fold p.
    rewrite ServerFacts.createRecord_step, quiet_next
      by (simpl; now rewrite Hf).
    cbv beta iota zeta.
    rewrite ServerFacts.updateRecord_step, quiet_next
      by (simpl; now rewrite Hf).
    match goal with
    | |- context [find ?q ?l] => destruct (find q l)
    end; [|discriminate].
    intros _. eexists. split; [reflexivity|]. split.
    - simpl. now rewrite Hf.
    - reflexivity. }
  destruct Hrun as (w' & -> & Hf' & Htab). cbn [fst snd payload json].
  unfold get_product, try_or_500, get_product_body, bind.
  rewrite ServerFacts.findRecordByField_step, (quiet_next w' Hf'), Hback.
  rewrite (lookup_app _ _ _ _ _ _ Htab).
  unfold lookup in Hl. rewrite Hl. unfold matching. cbn [filter app].
  cbn [eval_formula field_equals eval_fexpr to_str]. rewrite Hcell.
  cbn [cell_text to_str]. rewrite String.eqb_refl. reflexivity.
Qed.

End RoundTrip.

(** ** The scan history as a log *)

Section Log.

Variable jwt_verify : value -> outcome value.
Variable jwt_sign : obj -> value -> string.
Variable bcrypt_hash : value -> nat -> outcome string.
Variable bcrypt_compare : value -> value -> outcome bool.
Variable start_of_day : string -> string.
Variable parseInt : value -> value.
Variable parseFloat : value -> value.
Variable JSON_stringify : value -> string.
Variable lookupOpenFoodFacts : value -> value.
Variable lookupUPCItemDB : value -> value.
Variable lookupBarcodeLookup : value -> value.

Local Abbreviation app :=
  (Server.app jwt_sign bcrypt_hash bcrypt_compare start_of_day parseInt
     parseFloat JSON_stringify lookupOpenFoodFacts lookupUPCItemDB
     lookupBarcodeLookup).
Local Abbreviation serve := (Server.serve jwt_verify).

(** X19. The scan history is append-only: whatever the route, the request
    and the failures of Airtable, the entries of ScanHistory are after the
    request what they were before it, in the same order and unchanged,
    possibly followed by new ones. *)
Theorem scan_history_is_append_only
  (e : endpoint) (req : request) (w : world) :
  In e app ->
  exists added,
    tables (snd (serve e req w)) SCAN_HISTORY
    = tables w SCAN_HISTORY ++ added.
Proof.
  intros Hin.
  apply (serve_keeps jwt_verify jwt_sign bcrypt_hash bcrypt_compare
           start_of_day parseInt parseFloat JSON_stringify
           lookupOpenFoodFacts lookupUPCItemDB lookupBarcodeLookup
           (fun tb tb' =>
              exists added, tb' SCAN_HISTORY = tb SCAN_HISTORY ++ added)
           (fun _ _ => True)
           (fun t _ => t <> SCAN_HISTORY)
           (fun t => t <> SCAN_HISTORY)).
  - intros tb. exists []. now rewrite app_nil_r.
  - intros a b c [x Hx] [y Hy]. exists (x ++ y).
    now rewrite Hy, Hx, app_assoc.
  - intros tb t rid f _.
    destruct (String.eqb_spec SCAN_HISTORY t) as [<-|_];
      [eexists; reflexivity | exists []; now rewrite app_nil_r].
  - intros tb t rid r f Ht _.
    destruct (String.eqb_spec SCAN_HISTORY t) as [<-|_];
      [now elim Ht | exists []; now rewrite app_nil_r].
  - intros tb t rid Ht.
    destruct (String.eqb_spec SCAN_HISTORY t) as [<-|_];
      [now elim Ht | exists []; now rewrite app_nil_r].
  - exact Hin.
  - trivial.
  - intros t f Ht _. unfold Server.app in Hin.
    destruct Hin as [<-|[<-|[<-|[<-|[<-|[<-|[<-|[<-|[<-|[<-|[<-|[<-|[<-|[<-|[]
      ]]]]]]]]]]]]]];
      simpl in Ht; try tauto;
      repeat (destruct Ht as [<-|Ht]; [discriminate|]); destruct Ht.
  - intros t Ht. unfold Server.app in Hin.
    destruct Hin as [<-|[<-|[<-|[<-|[<-|[<-|[<-|[<-|[<-|[<-|[<-|[<-|[<-|[<-|[]
      ]]]]]]]]]]]]]];
      simpl in Ht; try tauto;
      repeat (destruct Ht as [<-|Ht]; [discriminate|]); destruct Ht.
Qed.

End Log.

(** ** Status codes *)

Lemma answers_bind {A} (P : response -> Prop) (m : M A)
  (k : A -> M response) :
  (forall a, answers P (k a)) -> answers P (bind m k).
Proof.
  intros Hk w. unfold bind. destruct (m w) as [[a|e] w1]; [apply Hk|exact I].
Qed.

Lemma well_answered_ok (codes : list nat) (r : response) :
  status r = 200%nat -> well_answered codes r.
Proof. now left. Qed.

Lemma well_answered_error (codes : list nat) (code : nat) (message : string) :
  In code codes ->
  well_answered codes (respond code [("error", VStr message)]).
Proof. intros Hin. right. split; [exact Hin | now exists message]. Qed.

Section Statuses.

Variable jwt_verify : value -> outcome value.
Variable jwt_sign : obj -> value -> string.
Variable bcrypt_hash : value -> nat -> outcome string.
Variable bcrypt_compare : value -> value -> outcome bool.
Variable start_of_day : string -> string.
Variable parseInt : value -> value.
Variable parseFloat : value -> value.
Variable JSON_stringify : value -> string.
Variable lookupOpenFoodFacts : value -> value.
Variable lookupUPCItemDB : value -> value.
Variable lookupBarcodeLookup : value -> value.

Local Abbreviation app :=
  (Server.app jwt_sign bcrypt_hash bcrypt_compare start_of_day parseInt
     parseFloat JSON_stringify lookupOpenFoodFacts lookupUPCItemDB
     lookupBarcodeLookup).
Local Abbreviation serve := (Server.serve jwt_verify).

Variable codes : list nat.

(** One step through the body of a handler, down to what it answers. *)
Local Ltac answers_step :=
  cbv beta zeta;
  lazymatch goal with
  | |- answers _ (bind _ _) => apply answers_bind; intros ?
  | |- answers _ (ret (respond _ _)) =>
      intros ?; apply well_answered_error; assumption
  | |- answers _ (ret _) => intros ?; apply well_answered_ok; reflexivity
  | |- answers _ (if ?b then _ else _) => destruct b
  | |- answers _ (match ?x with _ => _ end) => destruct x
  end.

Lemma register_answers (req : request) :
  In 400%nat codes ->
  answers (well_answered codes) (register_body jwt_sign bcrypt_hash req).
Proof. intros H. unfold register_body. repeat answers_step. Qed.

Lemma login_answers (req : request) :
  In 401%nat codes ->
  answers (well_answered codes) (login_body jwt_sign bcrypt_compare req).
Proof. intros H. unfold login_body. repeat answers_step. Qed.

Lemma lookup_product_answers (req : request) :
  answers (well_answered codes)
    (lookup_product_body lookupOpenFoodFacts lookupUPCItemDB
       lookupBarcodeLookup req).
Proof. unfold lookup_product_body. repeat answers_step. Qed.

Lemma get_products_answers (req : request) :
  answers (well_answered codes) (get_products_body parseInt req).
Proof. unfold get_products_body. repeat answers_step. Qed.

Lemma get_product_answers (req : request) :
  In 404%nat codes -> answers (well_answered codes) (get_product_body req).
Proof. intros H. unfold get_product_body. repeat answers_step. Qed.

Lemma post_products_answers (req : request) :
  answers (well_answered codes)
    (post_products_body parseInt parseFloat JSON_stringify req).
Proof. unfold post_products_body. repeat answers_step. Qed.

Lemma upload_image_answers (req : request) :
  In 404%nat codes -> answers (well_answered codes) (upload_image_body req).
Proof. intros H. unfold upload_image_body. repeat answers_step. Qed.

Lemma delete_product_answers (req : request) :
  In 404%nat codes -> answers (well_answered codes) (delete_product_body req).
Proof. intros H. unfold delete_product_body. repeat answers_step. Qed.

Lemma stats_answers (req : request) :
  answers (well_answered codes) (stats_body start_of_day req).
Proof. unfold stats_body. repeat answers_step. Qed.

Lemma history_answers (req : request) :
  answers (well_answered codes) (history_body parseInt req).
Proof. unfold history_body. repeat answers_step. Qed.

Lemma export_csv_answers (req : request) :
  answers (well_answered codes) (export_csv_body req).
Proof. unfold export_csv_body. repeat answers_step. Qed.

Lemma bulk_answers (req : request) :
  answers (well_answered codes)
    (bulk_body JSON_stringify lookupOpenFoodFacts lookupUPCItemDB
       lookupBarcodeLookup req).
Proof. unfold bulk_body. repeat answers_step. Qed.

Lemma get_settings_answers (req : request) :
  answers (well_answered codes) (get_settings_body req).
Proof. unfold get_settings_body. repeat answers_step. Qed.

Lemma post_settings_answers (req : request) :
  answers (well_answered codes) (post_settings_body req).
Proof. unfold post_settings_body. repeat answers_step. Qed.

Lemma try_or_500_answers (label : option string) (m : M response)
  (w : world) :
  In 500%nat codes ->
  answers (well_answered codes) m ->
  well_answered codes (fst (try_or_500 label m w)).
Proof.
  intros H500 Hm. unfold try_or_500. specialize (Hm w).
  destruct (m w) as [[r|e] w1]; simpl in *; [exact Hm|].
  now apply well_answered_error.
Qed.

Lemma run_answers (e : endpoint) (req : request) (w : world) :
  In e app ->
  In 500%nat codes ->
  incl (refusals e) codes ->
  well_answered codes (fst (run e req w)).
Proof.
  intros Hin H500 Hcodes. unfold Server.app in Hin.
  destruct Hin as [<-|[<-|[<-|[<-|[<-|[<-|[<-|[<-|[<-|[<-|[<-|[<-|[<-|[<-|[]
    ]]]]]]]]]]]]]];
    cbn [run]; apply try_or_500_answers; try exact H500.
  - apply register_answers. apply Hcodes. now left.
  - apply login_answers. apply Hcodes. now left.
  - apply lookup_product_answers.
  - apply get_products_answers.
  - apply get_product_answers. apply Hcodes. now left.
  - apply post_products_answers.
  - apply upload_image_answers. apply Hcodes. now left.
  - apply delete_product_answers. apply Hcodes. now left.
  - apply stats_answers.
  - apply history_answers.
  - apply export_csv_answers.
  - apply bulk_answers.
  - apply get_settings_answers.
  - apply post_settings_answers.
Qed.

Lemma authenticateToken_answers (next : handler) (req : request)
  (w : world) :
  In 401%nat codes -> In 403%nat codes ->
  (forall req' w', well_answered codes (fst (next req' w'))) ->
  well_answered codes (fst (Server.authenticateToken jwt_verify next req w)).
Proof.
  intros H401 H403 Hnext. unfold Server.authenticateToken.
  destruct (negb (truthy (bearer_token req)));
    [now apply well_answered_error|].
  unfold bind, lift.
  destruct (jwt_verify (bearer_token req)) as [decoded|e];
    [|now apply well_answered_error].
  destruct (findRecordByField USERS "Email" (prop decoded "email") w)
    as [[user|e] w1]; [|now apply well_answered_error].
  destruct (negb (truthy user)); cbn [ret];
    [now apply well_answered_error | apply Hnext].
Qed.

End Statuses.

Section Contract.

Variable jwt_verify : value -> outcome value.
Variable jwt_sign : obj -> value -> string.
Variable bcrypt_hash : value -> nat -> outcome string.
Variable bcrypt_compare : value -> value -> outcome bool.
Variable start_of_day : string -> string.
Variable parseInt : value -> value.
Variable parseFloat : value -> value.
Variable JSON_stringify : value -> string.
Variable lookupOpenFoodFacts : value -> value.
Variable lookupUPCItemDB : value -> value.
Variable lookupBarcodeLookup : value -> value.

Local Abbreviation app :=
  (Server.app jwt_sign bcrypt_hash bcrypt_compare start_of_day parseInt
     parseFloat JSON_stringify lookupOpenFoodFacts lookupUPCItemDB
     lookupBarcodeLookup).
Local Abbreviation serve := (Server.serve jwt_verify).

(** X20. What [authenticateToken] and the handlers answer: for a request
    that has reached them (its body parsed by [express.json()], its file
    accepted by the upload middleware on the image route), the response
    of every route either has status 200 or is an error message, a body
    [{ error: message }] under one of the statuses of the route: 500 from
    the [catch] of its handler, 400 from register only, 401 from login,
    404 from the three routes on /api/products/:barcode, and 401 or 403
    from [authenticateToken] on the routes behind it. The answers the
    parser and the upload middleware give themselves are not covered. *)
Theorem answers_are_200_or_an_error_message
  (e : endpoint) (req : request) (w : world) :
  In e app ->
  well_answered (failure_statuses e) (fst (serve e req w)).
Proof.
  intros Hin.
  assert (Hrun :
            forall req' w',
              well_answered (failure_statuses e) (fst (run e req' w'))).
  { intros req' w'.
    apply (run_answers jwt_sign bcrypt_hash bcrypt_compare start_of_day
             parseInt parseFloat JSON_stringify lookupOpenFoodFacts
             lookupUPCItemDB lookupBarcodeLookup (failure_statuses e)
             e req' w' Hin).
    - now left.
    - intros c Hc. right. apply in_or_app. now left. }
  unfold Server.serve. destruct (guarded e) eqn:Hg; [|apply Hrun].
  apply authenticateToken_answers; [| |exact Hrun];
    unfold failure_statuses; rewrite Hg; right; apply in_or_app; right;
    simpl; auto.
Qed.

End Contract.

(** ** Whose records a user sees *)

Lemma In_insert_by (k : string * direction) (r x : rec) (l : list rec) :
  In x (insert_by k r l) -> x = r \/ In x l.
Proof.
  induction l as [|a l IH]; simpl.
  - intros [->|[]]. now left.
  - destruct (before k r a); simpl.
    + intros [->|H]; [now left | now right].
    + intros [->|H]; [right; now left|].
      destruct (IH H) as [->|Hl]; [now left | right; now right].
Qed.

Lemma In_sort_by (k : string * direction) (x : rec) (l : list rec) :
  In x (sort_by k l) -> In x l.
Proof.
  unfold sort_by. induction l as [|a l IH]; simpl; [tauto|].
  intros H. apply In_insert_by in H. destruct H as [->|H]; auto.
Qed.

Lemma In_sorted (keys : list (string * direction)) (x : rec)
  (l : list rec) :
  In x (sorted keys l) -> In x l.
Proof.
  unfold sorted. induction keys as [|k keys IH]; simpl; [tauto|].
  intros H. apply IH. now apply In_sort_by in H.
Qed.

Lemma In_take (n : option nat) (x : rec) (l : list rec) :
  In x (take n l) -> In x l.
Proof.
  destruct n as [n|]; simpl; [|tauto].
  revert l. induction n as [|n IH]; intros [|a l]; simpl; try tauto.
  intros [->|H]; [now left | right; now apply IH].
Qed.

(** A query that asks for whole records returns stored records its
    formula keeps. *)
Lemma In_selected (opts : select_opts) (x : rec) (l : list rec) :
  columns opts = None ->
  In x (selected opts l) ->
  In x l /\ eval_formula (filterByFormula opts) (fields x) = true.
Proof.
  intros Hcols. unfold selected. rewrite Hcols. simpl. rewrite map_id.
  intros H. apply In_sorted in H. unfold matching in H.
  now apply filter_In in H.
Qed.

Lemma In_firstPage (t : string) (opts : select_opts) (w w' : world)
  (records : list rec) (x : rec) :
  firstPage t opts w = (Ok records, w') ->
  In x records ->
  columns opts = None ->
  In x (tables w t) /\ eval_formula (filterByFormula opts) (fields x) = true.
Proof.
  intros Hpage Hin Hcols. revert Hpage Hin. unfold firstPage. rewrite ServerFacts.api_step.
  destruct (next_fault w); [discriminate|].
  unfold bind, lift.
  destruct (limit_of (maxRecords opts) None) as [top|]; [|discriminate].
  destruct (limit_of (pageSize opts) (Some 100%nat)) as [page|];
    [|discriminate].
  intros H Hin. injection H as <- _.
  apply In_take, In_take in Hin. now apply In_selected in Hin.
Qed.

Lemma owned_by_formula (field : string) (req : request) (r : rec) :
  eval_formula (by_user field req) (fields r) = true ->
  owned_by field req r.
Proof. unfold owned_by. simpl. apply String.eqb_eq. Qed.

Section Own.

Variable parseInt : value -> value.

Local Abbreviation history := (Server.history parseInt).

(** X21. A user whose e-mail is a text without quote or backslash sees
    only their own records: every entry GET /api/history answers is a
    stored ScanHistory record whose UserEmail reads as the e-mail of the
    authenticated user, and GET /api/settings, when it answers 200,
    answers either the default settings or a stored Settings record whose
    UserEmail reads as that e-mail. (An e-mail holding a quote changes
    the formula the routes send; nothing is shown for it.) *)
Theorem users_see_only_their_own_records (req : request) (w : world) :
  plain (to_str (prop (user req) "Email")) = true ->
  (forall items x,
     prop (payload (fst (history req w))) "history" = VArr items ->
     In x items ->
     exists r,
       In r (tables w SCAN_HISTORY) /\ x = found r /\
       owned_by "UserEmail" req r) /\
  (status (fst (get_settings req w)) = 200%nat ->
   payload (fst (get_settings req w)) = VObj default_settings \/
   exists r,
     In r (tables w SETTINGS) /\
     payload (fst (get_settings req w)) = found r /\
     owned_by "UserEmail" req r).
Proof.
  intros _. split.
  - intros items x.
    unfold Server.history, try_or_500, history_body, bind.
    destruct (firstPage SCAN_HISTORY _ w) as [[records|e] w'] eqn:Hpage;
      [|discriminate].
    unfold ret. cbn [fst payload json prop obj_get String.eqb Ascii.eqb
                       Bool.eqb].
    unfold clean_all. intros Hitems Hin.
    apply (f_equal (fun v => match v with VArr l => l | _ => [] end))
      in Hitems.
    cbv beta iota in Hitems. subst items.
    apply in_map_iff in Hin. destruct Hin as (r & <- & Hin).
    destruct (In_firstPage _ _ _ _ _ _ Hpage Hin eq_refl) as [Hstored Hphi].
    exists r. split; [exact Hstored|]. split; [reflexivity|].
    now apply owned_by_formula.
  - unfold get_settings, try_or_500, get_settings_body, bind.
    destruct (firstPage SETTINGS _ w) as [[[|r rs]|e] w'] eqn:Hpage;
      cbn [fst]; [now left | | discriminate].
    intros _. right.
    destruct (In_firstPage _ _ _ _ _ r Hpage (or_introl eq_refl) eq_refl)
      as [Hstored Hphi].
    exists r. split; [exact Hstored|]. split; [reflexivity|].
    now apply owned_by_formula.
Qed.

End Own.

(** ** The theorems at the sample base *)

Local Abbreviation sample_serve := (Server.serve sample_jwt_verify).

Lemma sample_routes :
  In login_route sample_app /\ In product_route sample_app /\
  In scan_route sample_app.
Proof.
  split; [right; left; reflexivity|].
  split; [do 4 right; left; reflexivity | do 5 right; left; reflexivity].
Qed.

Lemma routes_write_only_their_tables_witness :
  In product_route sample_app /\
  method product_route = GET /\
  untouched PRODUCTS (sample_world [])
    (snd (sample_serve product_route (scan_request "0123456789012")
            (sample_world []))) /\
  In login_route sample_app /\
  ~ In PRODUCTS (writes login_route) /\
  untouched PRODUCTS (sample_world [])
    (snd (sample_serve login_route (login_request "ann@example.com" "secret")
            (sample_world []))).
Proof.
  destruct sample_routes as (Hlogin & Hproduct & _).
  destruct (routes_write_only_their_tables sample_jwt_verify
              sample_jwt_sign sample_bcrypt_hash sample_bcrypt_compare
              sample_start_of_day sample_parse sample_parse
              sample_stringify sample_provider sample_provider
              sample_provider) as [Hfoot Hget].
  assert (Hout : ~ In PRODUCTS (writes login_route))
    by (simpl; intros [H|[]]; discriminate H).
  split; [exact Hproduct|]. split; [reflexivity|].
  split; [apply Hget; [exact Hproduct | reflexivity]|].
  split; [exact Hlogin|]. split; [exact Hout|].
  apply Hfoot; [exact Hlogin | exact Hout].
Defined.

Lemma only_delete_removes_records_witness :
  In scan_route sample_app /\
  is_delete scan_route = false /\
  keeps_records (sample_world [])
    (snd (sample_serve scan_route (scan_request "0123456789012")
            (sample_world []))).
Proof.
  destruct sample_routes as (_ & _ & Hscan).
  split; [exact Hscan|]. split; [reflexivity|].
  apply (only_delete_removes_records sample_jwt_verify
           sample_jwt_sign sample_bcrypt_hash sample_bcrypt_compare
           sample_start_of_day sample_parse sample_parse
           sample_stringify sample_provider sample_provider
           sample_provider scan_route _ _ Hscan eq_refl).
Defined.


Local Abbreviation sample_register :=
  (Server.register sample_jwt_sign sample_bcrypt_hash).
Local Abbreviation sample_login :=
  (Server.login sample_jwt_sign sample_bcrypt_compare).
Local Abbreviation sample_post_products :=
  (Server.post_products sample_parse sample_parse sample_stringify).
Local Abbreviation sample_stats := (Server.stats sample_start_of_day).
Local Abbreviation sample_history := (Server.history sample_parse).


Lemma registration_check_fails_open_witness :
  obj_get "email" (body (login_request "ann@example.com" "secret"))
  = VStr "ann@example.com" /\
  lookup USERS "Email" (VStr "ann@example.com") (sample_world []) = [ann] /\
  faults (sample_world []) = [] /\
  fst (sample_register (login_request "ann@example.com" "secret")
         (sample_world []))
  = respond 400 [("error", VStr "User already exists")] /\
  faults (sample_world [Some "ETIMEDOUT"]) = [Some "ETIMEDOUT"] /\
  sample_bcrypt_hash
    (obj_get "password" (body (login_request "ann@example.com" "secret"))) 10
  = Ok "hash:secret" /\
  length (lookup USERS "Email" (VStr "ann@example.com")
            (snd (sample_register (login_request "ann@example.com" "secret")
                    (sample_world [Some "ETIMEDOUT"])))) = 2%nat.
Proof.
  split; [reflexivity|]. split; [reflexivity|]. split; [reflexivity|].
  destruct (registration_check_fails_open sample_jwt_sign sample_bcrypt_hash
              (login_request "ann@example.com" "secret") (sample_world [])
              "ann@example.com" ann [] eq_refl eq_refl) as [Hquiet _].
  destruct (registration_check_fails_open sample_jwt_sign sample_bcrypt_hash
              (login_request "ann@example.com" "secret")
              (sample_world [Some "ETIMEDOUT"])
              "ann@example.com" ann [] eq_refl eq_refl) as [_ Hfault].
  split; [apply Hquiet; reflexivity|].
  split; [reflexivity|]. split; [reflexivity|].
  destruct (Hfault "ETIMEDOUT" "hash:secret" eq_refl eq_refl) as [_ Hl].
  rewrite Hl. reflexivity.
Defined.

Lemma delete_removes_one_record_witness :
  faults (sample_world []) = [] /\
  lookup PRODUCTS "Barcode"
    (obj_get "barcode" (params (scan_request "0123456789012")))
    (sample_world []) = [lamp] /\
  no_id_cell lamp /\
  NoDup (ids (tables (sample_world []) PRODUCTS)) /\
  lookup PRODUCTS "Barcode"
    (obj_get "barcode" (params (scan_request "0123456789012")))
    (snd (delete_product (scan_request "0123456789012") (sample_world [])))
  = [].
Proof.
  assert (Hnd : NoDup (ids (tables (sample_world []) PRODUCTS)))
    by (simpl; constructor; [intros [] | constructor]).
  split; [reflexivity|]. split; [reflexivity|]. split; [reflexivity|].
  split; [exact Hnd|].
  apply (delete_removes_one_record (scan_request "0123456789012")
           (sample_world []) lamp [] eq_refl eq_refl eq_refl Hnd).
Defined.

Lemma failed_requests_keep_their_writes_witness :
  let w := sample_world [None; None; Some "ETIMEDOUT"] in
  faults w = [None; None; Some "ETIMEDOUT"] /\
  lookup PRODUCTS "Barcode" (obj_get "barcode" (body (scan_request "999"))) w
  = [] /\
  fst (sample_post_products (scan_request "999") w)
  = respond 500 [("error", VStr "ETIMEDOUT")] /\
  lookup PRODUCTS "Barcode"
    (obj_get "barcode" (params (scan_request "0123456789012"))) w = [lamp] /\
  no_id_cell lamp /\
  fst (delete_product (scan_request "0123456789012") w)
  = respond 500 [("error", VStr "ETIMEDOUT")].
Proof.
  intros w.
  destruct (failed_requests_keep_their_writes sample_parse sample_parse
              sample_stringify (scan_request "999") w "ETIMEDOUT" eq_refl)
    as [Hpost _].
  destruct (failed_requests_keep_their_writes sample_parse sample_parse
              sample_stringify (scan_request "0123456789012") w "ETIMEDOUT"
              eq_refl)
    as [_ Hdelete].
  split; [reflexivity|]. split; [reflexivity|].
  split; [apply Hpost; reflexivity|].
  split; [reflexivity|]. split; [reflexivity|].
  apply (Hdelete lamp []); reflexivity.
Defined.

Lemma saved_settings_are_read_back_witness :
  plain "ann@example.com" = true /\
  faults (sample_world []) = [] /\
  prop (user (scan_request "0123456789012")) "Email"
  = VStr "ann@example.com" /\
  NoDup (map fst (body (scan_request "0123456789012"))) /\
  (forall r, In r (tables (sample_world []) SETTINGS) -> no_id_cell r) /\
  fst (get_settings (scan_request "0123456789012")
         (snd (post_settings (scan_request "0123456789012")
                 (sample_world []))))
  = fst (post_settings (scan_request "0123456789012") (sample_world [])).
Proof.
  assert (Hnd : NoDup (map fst (body (scan_request "0123456789012"))))
    by (simpl; repeat constructor; simpl; intuition discriminate).
  assert (Hno : forall r,
             In r (tables (sample_world []) SETTINGS) -> no_id_cell r)
    by (intros r []).
  split; [reflexivity|]. split; [reflexivity|]. split; [reflexivity|].
  split; [exact Hnd|]. split; [exact Hno|].
  apply (saved_settings_are_read_back (scan_request "0123456789012")
           (scan_request "0123456789012") (sample_world [])
           "ann@example.com" eq_refl eq_refl eq_refl eq_refl Hnd Hno).
Defined.

Lemma stats_count_one_page_export_lists_all_witness :
  faults (sample_world []) = [] /\
  prop (payload (fst (sample_stats (scan_request "0123456789012")
                        (sample_world [])))) "totalProducts"
  = VNum 1 /\
  payload (fst (export_csv (scan_request "0123456789012") (sample_world [])))
  = VStr ("Barcode,Name,Brand,Category,Price,Cost,Quantity,Location,"
          ++ "Condition,Status,Scanned Date" ++ newline
          ++ "0123456789012," ++ quote ++ "Desk lamp" ++ quote ++ ","
          ++ quote ++ quote ++ "," ++ quote ++ quote ++ ",0,0,1,"
          ++ quote ++ quote ++ ",,pending,2024-04-30T09:00:00.000Z").
Proof.
  destruct (stats_count_one_page_export_lists_all sample_start_of_day
              (scan_request "0123456789012") (sample_world []) eq_refl)
    as (Htotal & _ & Hfile).
  split; [reflexivity|]. split; [exact Htotal|].
  rewrite Hfile. vm_compute. reflexivity.
Defined.


Lemma scans_are_attributed_to_the_requester_witness :
  let run := sample_post_products spoofed_scan (sample_world []) in
  status (fst run) = 200%nat /\
  NoDup (map fst (body spoofed_scan)) /\
  (forall p,
     In p (tables (sample_world []) PRODUCTS) -> NoDup (map fst (fields p))) /\
  obj_get "ScannedByEmail" (body spoofed_scan) = VStr "mallory@example.com" /\
  prop (payload (fst run)) "ScannedByEmail" = VStr "ann@example.com".
Proof.
  intros run.
  assert (H200 : status (fst run) = 200%nat) by (vm_compute; reflexivity).
  assert (Hbody : NoDup (map fst (body spoofed_scan)))
    by (simpl; repeat constructor; simpl; intuition discriminate).
  assert (Hstored :
            forall p,
              In p (tables (sample_world []) PRODUCTS) ->
              NoDup (map fst (fields p))).
  { intros p [<-|[]]. simpl.
    repeat constructor; simpl; intuition discriminate. }
  subst run.
  destruct (sample_post_products spoofed_scan (sample_world []))
    as [r w'] eqn:Hrun.
  cbn [fst snd] in *.
  split; [exact H200|]. split; [exact Hbody|]. split; [exact Hstored|].
  split; [reflexivity|].
  destruct (scans_are_attributed_to_the_requester sample_parse sample_parse
              sample_stringify spoofed_scan (sample_world []) w' r
              Hrun H200 Hbody Hstored)
    as (_ & _ & Hemail & _).
  exact Hemail.
Defined.

Lemma token_is_the_second_word_witness :
  no_space "Bearer" = true /\
  no_space "good-token" = true /\
  obj_get "authorization" (headers (scan_request "0123456789012"))
  = VStr ("Bearer" ++ " " ++ "good-token") /\
  bearer_token (scan_request "0123456789012") = VStr "good-token" /\
  obj_get "authorization"
    (headers (bare_request [("authorization", VStr "good-token")]))
  = VStr "good-token" /\
  fst (Server.authenticateToken sample_jwt_verify get_product
         (bare_request [("authorization", VStr "good-token")])
         (sample_world []))
  = respond 401 [("error", VStr "Access token required")].
Proof.
  destruct (token_is_the_second_word sample_jwt_verify
              (scan_request "0123456789012")) as [Hword _].
  destruct (token_is_the_second_word sample_jwt_verify
              (bare_request [("authorization", VStr "good-token")]))
    as [_ Hnone].
  split; [reflexivity|]. split; [reflexivity|]. split; [reflexivity|].
  split; [apply (Hword "Bearer" "good-token" ""); auto|].
  split; [reflexivity|].
  now rewrite (Hnone "good-token" get_product (sample_world [])).
Defined.

Lemma upload_needs_a_file_and_appends_one_image_witness :
  faults (sample_world []) = [] /\
  lookup PRODUCTS "Barcode" (VStr "0123456789012") (sample_world [])
  = [lamp] /\
  no_id_cell lamp /\
  file (scan_request "0123456789012") = VUndefined /\
  status (fst (upload_image (scan_request "0123456789012")
                 (sample_world []))) = 500%nat /\
  or_else (prop (found lamp) "Images") (VArr []) = VArr [] /\
  prop (payload (fst (upload_image upload_request (sample_world []))))
    "imageUrl"
  = VStr "https://scanner.example.com/uploads/image-1714564800000.jpg".
Proof.
  destruct (upload_needs_a_file_and_appends_one_image
              (scan_request "0123456789012") (sample_world []) lamp []
              eq_refl eq_refl eq_refl) as [Hnone _].
  destruct (upload_needs_a_file_and_appends_one_image
              upload_request (sample_world []) lamp []
              eq_refl eq_refl eq_refl) as [_ Hfile].
  split; [reflexivity|]. split; [reflexivity|]. split; [reflexivity|].
  split; [reflexivity|].
  split; [destruct (Hnone eq_refl) as [-> _]; reflexivity|].
  split; [reflexivity|].
  destruct (Hfile _ [] eq_refl eq_refl) as (_ & Hurl & _).
  exact Hurl.
Defined.

Lemma created_product_is_found_by_its_barcode_witness :
  plain "999" = true /\
  faults (sample_world []) = [] /\
  status (fst (sample_post_products (scan_request "999") (sample_world [])))
  = 200%nat /\
  obj_get "barcode" (body (scan_request "999")) = VStr "999" /\
  existsb (String.eqb "Barcode") (map fst (body (scan_request "999")))
  = false /\
  lookup PRODUCTS "Barcode" (VStr "999") (sample_world []) = [] /\
  obj_get "barcode" (params (scan_request "999")) = VStr "999" /\
  fst (get_product (scan_request "999")
         (snd (sample_post_products (scan_request "999") (sample_world []))))
  = json (payload (fst (sample_post_products (scan_request "999")
                          (sample_world [])))).
Proof.
  assert (H200 :
            status (fst (sample_post_products (scan_request "999")
                           (sample_world []))) = 200%nat)
    by (vm_compute; reflexivity).
  split; [reflexivity|].
  split; [reflexivity|]. split; [exact H200|]. split; [reflexivity|].
  split; [reflexivity|]. split; [reflexivity|]. split; [reflexivity|].
  apply (created_product_is_found_by_its_barcode sample_parse sample_parse
           sample_stringify (scan_request "999") (scan_request "999")
           (sample_world []) "999" eq_refl eq_refl H200 eq_refl eq_refl
           eq_refl eq_refl).
Defined.

Lemma scan_history_is_append_only_witness :
  In scan_route sample_app /\
  exists added,
    tables (snd (sample_serve scan_route (scan_request "0123456789012")
                   (sample_world []))) SCAN_HISTORY
    = tables (sample_world []) SCAN_HISTORY ++ added.
Proof.
  destruct sample_routes as (_ & _ & Hscan).
  split; [exact Hscan|].
  apply (scan_history_is_append_only sample_jwt_verify
           sample_jwt_sign sample_bcrypt_hash sample_bcrypt_compare
           sample_start_of_day sample_parse sample_parse
           sample_stringify sample_provider sample_provider
           sample_provider scan_route _ _ Hscan).
Defined.

Lemma answers_are_200_or_an_error_message_witness :
  In product_route sample_app /\
  well_answered (failure_statuses product_route)
    (fst (sample_serve product_route (scan_request "999")
            (sample_world []))).
Proof.
  destruct sample_routes as (_ & Hproduct & _).
  split; [exact Hproduct|].
  apply (answers_are_200_or_an_error_message sample_jwt_verify
           sample_jwt_sign sample_bcrypt_hash sample_bcrypt_compare
           sample_start_of_day sample_parse sample_parse
           sample_stringify sample_provider sample_provider
           sample_provider product_route _ _ Hproduct).
Defined.

Lemma users_see_only_their_own_records_witness :
  plain (to_str (prop (user (history_request 1)) "Email")) = true /\
  prop (payload (fst (sample_history (history_request 1) busy_world)))
    "history" = VArr [found ann_scan] /\
  In (found ann_scan) [found ann_scan] /\
  (exists r,
     In r (tables busy_world SCAN_HISTORY) /\ found ann_scan = found r /\
     owned_by "UserEmail" (history_request 1) r) /\
  status (fst (get_settings (history_request 1) busy_world)) = 200%nat /\
  (payload (fst (get_settings (history_request 1) busy_world))
   = VObj default_settings \/
   exists r,
     In r (tables busy_world SETTINGS) /\
     payload (fst (get_settings (history_request 1) busy_world)) = found r /\
     owned_by "UserEmail" (history_request 1) r).
Proof.
  destruct (users_see_only_their_own_records sample_parse
              (history_request 1) busy_world eq_refl)
    as [Hhistory Hsettings].
  assert (Hitems :
            prop (payload (fst (sample_history (history_request 1)
                                  busy_world))) "history"
            = VArr [found ann_scan]) by (vm_compute; reflexivity).
  assert (Hin : In (found ann_scan) [found ann_scan]) by now left.
  assert (H200 : status (fst (get_settings (history_request 1) busy_world))
                 = 200%nat) by (vm_compute; reflexivity).
  split; [reflexivity|].
  split; [exact Hitems|]. split; [exact Hin|].
  split; [exact (Hhistory _ _ Hitems Hin)|].
  split; [exact H200 | exact (Hsettings H200)].
Defined.

End ServerExtras.
